(** * A WooCommerce -> Odoo booking bridge: reconciliation logic

    Shallow embedding of

      - [src/clients/odoo_client.py]   (class [OdooClient]),
      - [src/clients/woo_client.py]    (class [WooCommerceClient]),
      - [src/services/sync_service.py] (class [SyncService]),

    followed by the properties of the synchronisation engine.

    Conventions.

    - Python text is a Rocq [string]; each character stands for the code
      point of the same number, so the model covers text in the range
      U+0000..U+00FF.  Literals of the source that hold accented letters
      are spelled with their code points.
    - A dynamically typed Python value is a [pyval].  A [float] is stood
      for by the rational it denotes; the rounding of a quotient is
      left to the runtime.  Integers are unbounded, as in Python; the
      XML-RPC marshaller refuses those beyond 32 bits, and the
      conversion to a float those beyond the floats.  The
      interpreter's bound on the length of an integer literal is not
      modelled.
    - The storefront payloads (order, line item, metadata entry) are
      records with the fields the source reads; a field read through
      [dict.get] with a default is an [option].
    - The two remote systems live in the [world]: the ERP record store
      behind the XML-RPC endpoint and the product catalogue behind the
      REST endpoint.  Each remote call consumes one entry of a schedule
      that says whether the transport fails for it, and is noted in a
      call journal.
    - Python statements are computations [M A] that thread the world and
      may raise; [try ... except Exception] is [try_except].
    - Calls to the logger do not influence control flow or either remote
      system and are left out. *)

From Stdlib Require Import ZArith QArith List String Ascii Bool Lia.
From Stdlib Require Import DecimalString DecimalPos DecimalZ RelationClasses.
Import ListNotations.

Local Open Scope string_scope.
Local Open Scope Z_scope.

(** ** Python text and values *)

Module Py.

(** Code point of a character. *)
Definition ord (c : ascii) : N := N_of_ascii c.

Definition chr (n : N) : ascii := ascii_of_N n.

Definition in_range (lo hi : N) (c : ascii) : bool :=
  (N.leb lo (ord c) && N.leb (ord c) hi)%bool.

(** The ten characters '0'..'9'. *)
Definition is_decimal (c : ascii) : bool := in_range 48 57 c.

(** [str.isdigit] on one character: the decimal digits and, in this
    range of code points, the superscripts U+00B2, U+00B3 and U+00B9. *)
Definition char_isdigit (c : ascii) : bool :=
  (is_decimal c || N.eqb (ord c) 178 || N.eqb (ord c) 179 || N.eqb (ord c) 185)%bool.

(** White space as [str.strip] sees it. *)
Definition char_isspace (c : ascii) : bool :=
  (in_range 9 13 c || in_range 28 32 c || N.eqb (ord c) 133 || N.eqb (ord c) 160)%bool.

(** White space that [int(...)] skips around a literal. *)
Definition int_space (c : ascii) : bool :=
  (in_range 9 13 c || N.eqb (ord c) 32 || N.eqb (ord c) 133 || N.eqb (ord c) 160)%bool.

Definition char_lower (c : ascii) : ascii :=
  if (in_range 65 90 c
      || (in_range 192 222 c && negb (N.eqb (ord c) 215)))%bool
  then chr (ord c + 32) else c.

Fixpoint all_chars (p : ascii -> bool) (s : string) : bool :=
  match s with
  | EmptyString => true
  | String c s' => (p c && all_chars p s')%bool
  end.

Fixpoint map_chars (f : ascii -> ascii) (s : string) : string :=
  match s with
  | EmptyString => EmptyString
  | String c s' => String (f c) (map_chars f s')
  end.

(** [s.isdigit()]: at least one character and all of them digits. *)
Definition isdigit (s : string) : bool :=
  match s with
  | EmptyString => false
  | _ => all_chars char_isdigit s
  end.

(** [s.lower()] *)
Definition lower (s : string) : string := map_chars char_lower s.

Fixpoint starts_with (p s : string) : bool :=
  match p, s with
  | EmptyString, _ => true
  | String a p', String b s' => (Ascii.eqb a b && starts_with p' s')%bool
  | String _ _, EmptyString => false
  end.

(** [sub in s] *)
Fixpoint contains (sub s : string) : bool :=
  (starts_with sub s ||
   match s with
   | EmptyString => false
   | String _ s' => contains sub s'
   end)%bool.

Fixpoint lstrip (p : ascii -> bool) (s : string) : string :=
  match s with
  | EmptyString => EmptyString
  | String c s' => if p c then lstrip p s' else s
  end.

Fixpoint rev_onto (s acc : string) : string :=
  match s with
  | EmptyString => acc
  | String c s' => rev_onto s' (String c acc)
  end.

Definition rev (s : string) : string := rev_onto s EmptyString.

Definition strip_by (p : ascii -> bool) (s : string) : string :=
  rev (lstrip p (rev (lstrip p s))).

(** [s.strip()] *)
Definition strip (s : string) : string := strip_by char_isspace s.

(** [s.replace(old, new)] for a one-character [old]. *)
Fixpoint replace_char (old : ascii) (new : string) (s : string) : string :=
  match s with
  | EmptyString => EmptyString
  | String c s' =>
      if Ascii.eqb c old then new ++ replace_char old new s'
      else String c (replace_char old new s')
  end.

(** [str(n)] for an [int]. *)
Definition str_of_Z (z : Z) : string := NilZero.string_of_int (Z.to_int z).

Definition digit_value (c : ascii) : Z := Z.of_N (ord c) - 48.

(** The digits of an integer literal: decimal digits, with single
    underscores allowed between two digits. *)
Fixpoint parse_digits (acc : Z) (after_underscore : bool) (s : string) : option Z :=
  match s with
  | EmptyString => if after_underscore then None else Some acc
  | String c s' =>
      if is_decimal c then parse_digits (10 * acc + digit_value c) false s'
      else if Ascii.eqb c "_" then
        if after_underscore then None else parse_digits acc true s'
      else None
  end.

Definition parse_unsigned (s : string) : option Z :=
  match s with
  | String c _ => if is_decimal c then parse_digits 0 false s else None
  | EmptyString => None
  end.

(** [int(s)] for a [str], base ten: surrounding white space, an
    optional sign, then the digits.  [None] stands for [ValueError]. *)
Definition int_of_string (s : string) : option Z :=
  match strip_by int_space s with
  | String "+" r => parse_unsigned r
  | String "-" r => option_map Z.opp (parse_unsigned r)
  | t => parse_unsigned t
  end.

(** Dynamically typed values. *)
Inductive pyval : Type :=
| PNone
| PBool (b : bool)
| PInt (z : Z)
| PFloat (q : Q)
| PStr (s : string).

(** A dict with string keys, in insertion order. *)
Definition pydict : Type := list (string * pyval).

Fixpoint dict_get (d : pydict) (k : string) : option pyval :=
  match d with
  | [] => None
  | (k', v) :: d' => if String.eqb k k' then Some v else dict_get d' k
  end.

(** [d.get(k)] *)
Definition get (d : pydict) (k : string) : pyval :=
  match dict_get d k with Some v => v | None => PNone end.

(** [d.get(k, default)] *)
Definition get_default (d : pydict) (k : string) (default : pyval) : pyval :=
  match dict_get d k with Some v => v | None => default end.

(** [d[k] = v] *)
Fixpoint dict_set (d : pydict) (k : string) (v : pyval) : pydict :=
  match d with
  | [] => [(k, v)]
  | (k', v') :: d' =>
      if String.eqb k k' then (k', v) :: d' else (k', v') :: dict_set d' k v
  end.

(** Truth value of a value in a condition. *)
Definition truthy (v : pyval) : bool :=
  match v with
  | PNone => false
  | PBool b => b
  | PInt z => negb (z =? 0)
  | PFloat q => negb (Qeq_bool q 0)
  | PStr s => negb (String.eqb s "")
  end.

(** Exceptions the modelled code can meet. *)
Inductive exn : Type :=
| KeyError (key : string)
| ValueError
| TypeError
| ZeroDivisionError
| OverflowError
| ConnectionError      (* the transport failed *)
| Fault.               (* the remote side answered with an error *)

Inductive result (A : Type) : Type :=
| Ok (a : A)
| Raise (e : exn).
Arguments Ok {A} a.
Arguments Raise {A} e.

(** What the interpreter provides and this development does not
    reproduce: the text of a float, the rounding of a float division,
    and the parsing and printing of ISO-8601 dates. *)
Class Runtime : Type := {
  (** [str(x)] for a float [x]. *)
  float_str : Q -> string;
  (** The text of a float holds a point, an exponent or a name. *)
  float_str_not_digits : forall q, isdigit (float_str q) = false;
  (** [datetime.fromisoformat(s).strftime('%Y-%m-%d %H:%M')];
      [None] stands for the [ValueError] of [fromisoformat]. *)
  iso_to_minutes : string -> option string;
  (** [x / n] for a float [x] and an int [n] that is not 0 and can be
      converted to a float: the float nearest to the quotient. *)
  float_quotient : Q -> Z -> Q
}.

Section WithRuntime.
Context {RT : Runtime}.

(** [str(v)] *)
Definition str (v : pyval) : string :=
  match v with
  | PNone => "None"
  | PBool true => "True"
  | PBool false => "False"
  | PInt z => str_of_Z z
  | PFloat q => float_str q
  | PStr s => s
  end.

(** [int(v)] *)
Definition int (v : pyval) : result Z :=
  match v with
  | PNone => Raise TypeError
  | PBool b => Ok (if b then 1 else 0)
  | PInt z => Ok z
  | PFloat q => Ok (Z.quot (Qnum q) (Zpos (Qden q)))
  | PStr s => match int_of_string s with Some z => Ok z | None => Raise ValueError end
  end.

End WithRuntime.

(** The least natural number that has no float: the integers below
    it, in absolute value, round to a finite float. *)
Definition float_limit : Z := 2 ^ 1024 - 2 ^ 970.

(** [x / n] for a float [x] and an int [n]: the int is converted to a
    float first, which fails for one that is too large, and a division
    by 0 is an error. *)
Definition truediv {RT : Runtime} (x : Q) (n : Z) : result Q :=
  if n =? 0 then Raise ZeroDivisionError
  else if Z.abs n <? float_limit then Ok (float_quotient x n)
  else Raise OverflowError.

(** [a == b] on values: numbers (booleans included) by their value,
    texts by their characters. *)
Definition eqb (a b : pyval) : bool :=
  match a, b with
  | PNone, PNone => true
  | PBool x, PBool y => Bool.eqb x y
  | PInt x, PInt y => x =? y
  | PFloat x, PFloat y => Qeq_bool x y
  | PStr x, PStr y => String.eqb x y
  | PBool x, PInt y | PInt y, PBool x => (if x then 1 else 0) =? y
  | PInt x, PFloat y | PFloat y, PInt x => Qeq_bool (inject_Z x) y
  | PBool x, PFloat y | PFloat y, PBool x => Qeq_bool (if x then 1 else 0) y
  | _, _ => false
  end.

End Py.

(** ** The world: both remote systems and the client's session *)

Module World.
Import Py.

(** One filter clause of a search: field, operator, value. *)
Inductive domain_op : Type := OpEq | OpNe | OpGe.

Definition clause : Type := (string * domain_op * pyval)%type.

(** A record of the ERP: its model, its id and its stored fields. *)
Record erp_record : Type := {
  rec_model : string;
  rec_id : Z;
  rec_fields : pydict
}.

(** The XML-RPC calls the client makes through [execute_kw]. *)
Inductive erp_call : Type :=
| CallCreate (model : string) (data : pydict)
| CallWrite (model : string) (ids : list pyval) (data : pydict)
| CallSearch (model : string) (domain : list clause) (limit : option Z)
| CallRead (model : string) (ids : list Z) (fields : option (list string)).

Inductive http_method : Type := GET | POST | PUT.

(** A REST request to the storefront. *)
Record shop_request : Type := {
  req_method : http_method;
  req_endpoint : string;
  req_body : option pydict
}.

Record world : Type := {
  (** ERP side: the record store, and the user id the ERP grants to the
      configured credentials ([None]: it rejects them). *)
  erp_db : list erp_record;
  erp_login : option Z;
  (** Whether the transport fails for the coming ERP calls, in order
      ([true]: that call fails); past the end no call fails. *)
  erp_faults : list bool;
  (** Journal of the calls made through [execute_kw], oldest first. *)
  erp_calls : list erp_call;
  (** [OdooClient.uid] *)
  uid : pyval;
  (** Storefront side: the product catalogue by id, the transport
      schedule and the journal of requests. *)
  shop_products : list (Z * pydict);
  shop_faults : list bool;
  shop_calls : list shop_request;
  (** [datetime.now().isoformat()] *)
  clock : string
}.

Definition set_erp_db (w : world) (db : list erp_record) : world :=
  {| erp_db := db; erp_login := erp_login w; erp_faults := erp_faults w;
     erp_calls := erp_calls w; uid := uid w;
     shop_products := shop_products w; shop_faults := shop_faults w;
     shop_calls := shop_calls w; clock := clock w |}.

Definition set_erp_faults (w : world) (fs : list bool) : world :=
  {| erp_db := erp_db w; erp_login := erp_login w; erp_faults := fs;
     erp_calls := erp_calls w; uid := uid w;
     shop_products := shop_products w; shop_faults := shop_faults w;
     shop_calls := shop_calls w; clock := clock w |}.

Definition set_erp_calls (w : world) (cs : list erp_call) : world :=
  {| erp_db := erp_db w; erp_login := erp_login w; erp_faults := erp_faults w;
     erp_calls := cs; uid := uid w;
     shop_products := shop_products w; shop_faults := shop_faults w;
     shop_calls := shop_calls w; clock := clock w |}.

Definition set_uid (w : world) (u : pyval) : world :=
  {| erp_db := erp_db w; erp_login := erp_login w; erp_faults := erp_faults w;
     erp_calls := erp_calls w; uid := u;
     shop_products := shop_products w; shop_faults := shop_faults w;
     shop_calls := shop_calls w; clock := clock w |}.

Definition set_shop_products (w : world) (ps : list (Z * pydict)) : world :=
  {| erp_db := erp_db w; erp_login := erp_login w; erp_faults := erp_faults w;
     erp_calls := erp_calls w; uid := uid w;
     shop_products := ps; shop_faults := shop_faults w;
     shop_calls := shop_calls w; clock := clock w |}.

Definition set_shop_faults (w : world) (fs : list bool) : world :=
  {| erp_db := erp_db w; erp_login := erp_login w; erp_faults := erp_faults w;
     erp_calls := erp_calls w; uid := uid w;
     shop_products := shop_products w; shop_faults := fs;
     shop_calls := shop_calls w; clock := clock w |}.

Definition set_shop_calls (w : world) (cs : list shop_request) : world :=
  {| erp_db := erp_db w; erp_login := erp_login w; erp_faults := erp_faults w;
     erp_calls := erp_calls w; uid := uid w;
     shop_products := shop_products w; shop_faults := shop_faults w;
     shop_calls := cs; clock := clock w |}.

(** A computation: runs in a world, returns or raises, and leaves a
    world behind either way. *)
Definition M (A : Type) : Type := world -> result A * world.

Definition ret {A} (a : A) : M A := fun w => (Ok a, w).

Definition raise {A} (e : exn) : M A := fun w => (Raise e, w).

Definition bind {A B} (m : M A) (k : A -> M B) : M B :=
  fun w =>
    match m w with
    | (Ok a, w') => k a w'
    | (Raise e, w') => (Raise e, w')
    end.

(** [try: body except Exception: handler] *)
Definition try_except {A} (body : M A) (handler : exn -> M A) : M A :=
  fun w =>
    match body w with
    | (Ok a, w') => (Ok a, w')
    | (Raise e, w') => handler e w'
    end.

Definition lift {A} (r : result A) : M A := fun w => (r, w).

Definition read_world : M world := fun w => (Ok w, w).

Definition write_world (f : world -> world) : M unit := fun w => (Ok tt, f w).

(** [d[k]] *)
Definition getitem (d : pydict) (k : string) : M pyval :=
  match dict_get d k with
  | Some v => ret v
  | None => raise (KeyError k)
  end.

Module Notations.
  Declare Scope py_scope.
  Delimit Scope py_scope with py.
  Notation "x <- c ;; k" := (bind c (fun x => k))
    (at level 61, c at next level, right associativity) : py_scope.
  Notation "c ;; k" := (bind c (fun _ => k))
    (at level 61, right associativity) : py_scope.
End Notations.
Import Notations.
Local Open Scope py_scope.

(** [for x in xs: body(x)], with an accumulator for the loop's
    variables. *)
Fixpoint for_each {A S} (xs : list A) (body : A -> S -> M S) (s : S) : M S :=
  match xs with
  | [] => ret s
  | x :: xs' => s' <- body x s ;; for_each xs' body s'
  end.

End World.

(** ** The remote ERP behind the XML-RPC endpoints

    The record store answers [create], [write], [search] and [read].
    The external-id fields [x_woo_id] and [x_woo_order_id] are text
    fields: a value written to them is kept as its text.  On the
    client's side a call is encoded before it is sent, and
    [xmlrpc.client] refuses a [None] and an int beyond 32 bits.  The
    store keeps what it is sent: a check of the ERP's own on the text
    of a field (its characters, the shape of a date) is not part of
    this model.  *)

Module Erp.
Import Py World World.Notations.
Local Open Scope py_scope.

Section WithRuntime.
Context {RT : Runtime}.

Definition text_field (f : string) : bool :=
  (String.eqb f "x_woo_id" || String.eqb f "x_woo_order_id")%bool.

(** The value the ERP keeps when [v] is written to field [f]. *)
Definition stored (f : string) (v : pyval) : pyval :=
  if text_field f then
    match v with
    | PNone | PBool false => PBool false
    | _ => PStr (str v)
    end
  else v.

Definition write_fields (fields data : pydict) : pydict :=
  fold_left (fun acc kv => dict_set acc (fst kv) (stored (fst kv) (snd kv)))
            data fields.

(** The value of a field as a search or a read sees it; a field never
    written reads as [False]. *)
Definition field_value (r : erp_record) (f : string) : pyval :=
  if String.eqb f "id" then PInt (rec_id r)
  else get_default (rec_fields r) f (PBool false).

Definition value_ge (a b : pyval) : bool :=
  match a, b with
  | PInt x, PInt y => y <=? x
  | PFloat x, PFloat y => Qle_bool y x
  | PStr x, PStr y => String.leb y x
  | _, _ => false
  end.

Definition clause_holds (r : erp_record) (c : clause) : bool :=
  let '(f, op, v) := c in
  match op with
  | OpEq => eqb (field_value r f) v
  | OpNe => negb (eqb (field_value r f) v)
  | OpGe => value_ge (field_value r f) v
  end.

Definition matches (model : string) (domain : list clause) (r : erp_record) : bool :=
  (String.eqb (rec_model r) model && forallb (clause_holds r) domain)%bool.

Definition fresh_id (db : list erp_record) : Z :=
  1 + fold_right Z.max 0 (map rec_id db).

Definition find_record (db : list erp_record) (model : string) (i : Z) : option erp_record :=
  find (fun r => (String.eqb (rec_model r) model && (rec_id r =? i))%bool) db.

(** [create]: a new record with a fresh id. *)
Definition serve_create (model : string) (data : pydict) : M Z :=
  w <- read_world ;;
  let i := fresh_id (erp_db w) in
  write_world (fun w =>
    set_erp_db w (erp_db w ++
      [{| rec_model := model; rec_id := i; rec_fields := write_fields [] data |}])) ;;
  ret i.

Definition known_id (db : list erp_record) (model : string) (v : pyval) : bool :=
  match v with
  | PInt i => match find_record db model i with Some _ => true | None => false end
  | _ => false
  end.

Definition targeted (model : string) (ids : list pyval) (r : erp_record) : bool :=
  (String.eqb (rec_model r) model && existsb (eqb (PInt (rec_id r))) ids)%bool.

(** [write]: the given fields are set on every record named; a
    missing record is an error. *)
Definition serve_write (model : string) (ids : list pyval) (data : pydict) : M bool :=
  w <- read_world ;;
  if forallb (known_id (erp_db w) model) ids then
    write_world (fun w =>
      set_erp_db w
        (map (fun r =>
                if targeted model ids r then
                  {| rec_model := rec_model r; rec_id := rec_id r;
                     rec_fields := write_fields (rec_fields r) data |}
                else r)
             (erp_db w))) ;;
    ret true
  else raise Fault.

(** [search]: the ids of the matching records, in store order. *)
Definition serve_search (model : string) (domain : list clause) (limit : option Z)
  : M (list Z) :=
  w <- read_world ;;
  let ids := map rec_id (filter (matches model domain) (erp_db w)) in
  match limit with
  | None => ret ids
  | Some n => if n <? 0 then raise Fault else ret (firstn (Z.to_nat n) ids)
  end.

Definition read_one (r : erp_record) (fields : option (list string)) : pydict :=
  ("id", PInt (rec_id r)) ::
  match fields with
  | None => rec_fields r
  | Some fs =>
      map (fun f => (f, field_value r f))
          (filter (fun f => negb (String.eqb f "id")) fs)
  end.

Fixpoint read_all (db : list erp_record) (model : string) (ids : list Z)
         (fields : option (list string)) : option (list pydict) :=
  match ids with
  | [] => Some []
  | i :: ids' =>
      match find_record db model i, read_all db model ids' fields with
      | Some r, Some ds => Some (read_one r fields :: ds)
      | _, _ => None
      end
  end.

(** [read]: one dict per id, with the id and the fields asked for. *)
Definition serve_read (model : string) (ids : list Z) (fields : option (list string))
  : M (list pydict) :=
  w <- read_world ;;
  match read_all (erp_db w) model ids fields with
  | Some ds => ret ds
  | None => raise Fault
  end.

(** The transport to the ERP: takes the next entry of the schedule. *)
Definition connect : M unit :=
  fun w =>
    match erp_faults w with
    | [] => (Ok tt, w)
    | true :: fs => (Raise ConnectionError, set_erp_faults w fs)
    | false :: fs => (Ok tt, set_erp_faults w fs)
    end.

Definition is_none (v : pyval) : bool :=
  match v with PNone => true | _ => false end.

Definition no_none (d : pydict) : bool :=
  forallb (fun kv => negb (is_none (snd kv))) d.

(** The integers that XML-RPC can carry: [MININT .. MAXINT] of
    [xmlrpc.client]. *)
Definition xmlrpc_int (z : Z) : bool :=
  ((-2147483648 <=? z) && (z <=? 2147483647))%bool.

(** What the marshaller of [xmlrpc.client] makes of a value: it has no
    encoding for [None] ([TypeError]: the proxy is built without
    [allow_none]) and refuses an int beyond 32 bits
    ([OverflowError]). *)
Definition refused (v : pyval) : option exn :=
  match v with
  | PNone => Some TypeError
  | PInt z => if xmlrpc_int z then None else Some OverflowError
  | _ => None
  end.

Definition encodable (v : pyval) : bool :=
  match refused v with None => true | Some _ => false end.

(** The first refusal among values, in the order they are encoded. *)
Fixpoint first_refused (vs : list pyval) : option exn :=
  match vs with
  | [] => None
  | v :: vs' =>
      match refused v with
      | Some e => Some e
      | None => first_refused vs'
      end
  end.

(** The error, if any, that the marshaller raises for the arguments of
    a call, before anything is sent.  The ids named in a [write] or a
    [read] are ids that the ERP has issued, which XML-RPC can carry:
    among them only a [None] is refused. *)
Definition marshal_error (c : erp_call) : option exn :=
  match c with
  | CallCreate _ data => first_refused (map snd data)
  | CallWrite _ ids data =>
      if existsb is_none ids then Some TypeError else first_refused (map snd data)
  | CallSearch _ domain limit =>
      match first_refused (map snd domain) with
      | Some e => Some e
      | None => match limit with Some n => refused (PInt n) | None => None end
      end
  | CallRead _ _ _ => None
  end.

Definition marshals (c : erp_call) : bool :=
  match marshal_error c with None => true | Some _ => false end.

(** The exception that a refused call raises. *)
Definition refusal (u : pyval) (c : erp_call) : exn :=
  if is_none u then TypeError
  else match marshal_error c with Some e => e | None => TypeError end.

(** A dict all of whose values can be encoded. *)
Definition sendable (d : pydict) : bool :=
  forallb (fun kv => encodable (snd kv)) d.

Definition granted (u : pyval) (w : world) : bool :=
  match u, erp_login w with
  | PInt x, Some y => x =? y
  | _, _ => false
  end.

(** [self.common.authenticate(db, username, api_key, {})]: the user id,
    or [False] when the credentials are rejected. *)
Definition common_authenticate : M pyval :=
  connect ;;
  w <- read_world ;;
  ret (match erp_login w with Some u => PInt u | None => PBool false end).

(** [self.models.execute_kw(db, uid, api_key, model, method, args)]:
    the call is noted, encoded, sent, checked against the session and
    served. *)
Definition execute_kw {A} (u : pyval) (c : erp_call) (serve : M A) : M A :=
  write_world (fun w => set_erp_calls w (erp_calls w ++ [c])) ;;
  (if (is_none u || negb (marshals c))%bool then raise (refusal u c) else ret tt) ;;
  connect ;;
  w <- read_world ;;
  (if granted u w then ret tt else raise Fault) ;;
  serve.

End WithRuntime.
End Erp.

(** ** [OdooClient] *)

Module OdooClient.
Import Py World World.Notations.
Local Open Scope py_scope.

Section WithRuntime.
Context {RT : Runtime}.

Definition authenticate : M bool :=
  try_except
    (u <- Erp.common_authenticate ;;
     write_world (fun w => set_uid w u) ;;
     if truthy u then ret true else ret false)
    (fun _ => ret false).

(** [if not self.uid: self.authenticate()] *)
Definition ensure_session : M unit :=
  w <- read_world ;;
  if negb (truthy (uid w)) then authenticate ;; ret tt else ret tt.

Definition create_record (model : string) (data : pydict) : M pyval :=
  try_except
    (ensure_session ;;
     w <- read_world ;;
     record_id <- Erp.execute_kw (uid w) (CallCreate model data)
                    (Erp.serve_create model data) ;;
     ret (PInt record_id))
    (fun _ => ret PNone).

Definition update_record (model : string) (record_id : pyval) (data : pydict) : M bool :=
  try_except
    (ensure_session ;;
     w <- read_world ;;
     Erp.execute_kw (uid w) (CallWrite model [record_id] data)
       (Erp.serve_write model [record_id] data))
    (fun _ => ret false).

(** [{'limit': limit} if limit else {}] *)
Definition limit_arg (limit : option Z) : option Z :=
  match limit with
  | Some n => if n =? 0 then None else Some n
  | None => None
  end.

(** [{'fields': fields} if fields else {}] *)
Definition fields_arg (fields : option (list string)) : option (list string) :=
  match fields with
  | Some [] => None
  | other => other
  end.

Definition search_records (model : string) (domain : list clause)
           (fields : option (list string)) (limit : option Z) : M (list pydict) :=
  try_except
    (ensure_session ;;
     w <- read_world ;;
     record_ids <- Erp.execute_kw (uid w) (CallSearch model domain (limit_arg limit))
                     (Erp.serve_search model domain (limit_arg limit)) ;;
     match record_ids with
     | [] => ret []
     | _ =>
         w <- read_world ;;
         Erp.execute_kw (uid w) (CallRead model record_ids (fields_arg fields))
           (Erp.serve_read model record_ids (fields_arg fields))
     end)
    (fun _ => ret []).

Definition get_record_by_external_id (model : string) (external_id : string)
  : M (option pydict) :=
  records <- search_records model [("x_woo_id", OpEq, PStr external_id)] None (Some 1) ;;
  match records with
  | r :: _ => ret (Some r)
  | [] => ret None
  end.

Definition create_customer (customer_data : pydict) : M pyval :=
  let odoo_data :=
    [ ("name", get customer_data "name");
      ("email", get customer_data "email");
      ("phone", get customer_data "phone");
      ("x_woo_id", get customer_data "woo_id");
      ("is_company", PBool false);
      ("customer_rank", PInt 1) ] in
  create_record "res.partner" odoo_data.

Definition create_product (product_data : pydict) : M pyval :=
  let odoo_data :=
    [ ("name", get product_data "name");
      ("default_code", get product_data "sku");
      ("list_price", get_default product_data "price" (PInt 0));
      ("type", PStr "service");
      ("sale_ok", PBool true);
      ("purchase_ok", PBool false);
      ("x_woo_id", get product_data "woo_id");
      ("x_booking_date", get product_data "booking_date");
      ("x_persons", get_default product_data "persons" (PInt 1));
      ("description", get_default product_data "description" (PStr "")) ] in
  create_record "product.product" odoo_data.

(** A dict in a condition: true when it is not empty. *)
Definition present (o : option pydict) : option pydict :=
  match o with
  | Some ((_ :: _) as d) => Some d
  | _ => None
  end.

(** The lookup by external id that opens both upserts:
    [if data.get('woo_id'): existing = self.get_record_by_external_id(model, str(data['woo_id']))]. *)
Definition lookup_external (model : string) (data : pydict) : M (option pydict) :=
  if truthy (get data "woo_id") then
    woo_id <- getitem data "woo_id" ;;
    existing <- get_record_by_external_id model (str woo_id) ;;
    ret (present existing)
  else ret None.

Definition get_or_create_customer (customer_data : pydict) : M pyval :=
  by_id <- lookup_external "res.partner" customer_data ;;
  match by_id with
  | Some existing => getitem existing "id"
  | None =>
      existing <- search_records "res.partner"
                    [("email", OpEq, get customer_data "email")] None (Some 1) ;;
      match existing with
      | first :: _ =>
          (if truthy (get customer_data "woo_id") then
             record_id <- getitem first "id" ;;
             woo_id <- getitem customer_data "woo_id" ;;
             update_record "res.partner" record_id [("x_woo_id", woo_id)] ;;
             ret tt
           else ret tt) ;;
          getitem first "id"
      | [] => create_customer customer_data
      end
  end.

Definition get_or_create_product (product_data : pydict) : M pyval :=
  by_id <- lookup_external "product.product" product_data ;;
  match by_id with
  | Some existing => getitem existing "id"
  | None => create_product product_data
  end.

End WithRuntime.
End OdooClient.

(** ** The storefront: payloads and the REST endpoint *)

Module Storefront.
Import Py World World.Notations.
Local Open Scope py_scope.

(** One entry of a line item's [meta_data]; both fields are read with
    [meta.get(..., '')]. *)
Record meta_entry : Type := {
  meta_key : option string;
  meta_value : option pyval
}.

(** A line item of an order.  [item_total] is the number that
    [float(item['total'])] yields. *)
Record line_item : Type := {
  item_product_id : Z;
  item_name : string;
  item_quantity : Z;
  item_total : Q;
  item_meta_data : option (list meta_entry)
}.

Record billing : Type := {
  bill_email : string;
  bill_first_name : string;
  bill_last_name : string;
  bill_phone : string
}.

(** The order object of the webhook payload. *)
Record order : Type := {
  ord_id : Z;
  ord_number : string;
  ord_status : string;
  ord_customer_id : Z;
  ord_billing : billing;
  ord_date_created : string;
  ord_total : string;
  ord_line_items : option (list line_item)
}.

(** The [customer] entry of a booking. *)
Record customer_summary : Type := {
  cust_id : Z;
  cust_email : string;
  cust_name : string;
  cust_phone : string
}.

(** The booking dict built per line item; the keys that are set only
    when a metadata entry provides them are options. *)
Record booking : Type := {
  order_id : Z;
  order_number : string;
  product_id : Z;
  product_name : string;
  quantity : Z;
  total : Q;
  customer : customer_summary;
  booking_date : option pyval;
  persons : option Z;
  duration : option pyval;
  booking_end : option pyval
}.

Definition set_booking_date (b : booking) (v : pyval) : booking :=
  {| order_id := order_id b; order_number := order_number b;
     product_id := product_id b; product_name := product_name b;
     quantity := quantity b; total := total b; customer := customer b;
     booking_date := Some v; persons := persons b;
     duration := duration b; booking_end := booking_end b |}.

Definition set_persons (b : booking) (n : Z) : booking :=
  {| order_id := order_id b; order_number := order_number b;
     product_id := product_id b; product_name := product_name b;
     quantity := quantity b; total := total b; customer := customer b;
     booking_date := booking_date b; persons := Some n;
     duration := duration b; booking_end := booking_end b |}.

Definition set_duration (b : booking) (v : pyval) : booking :=
  {| order_id := order_id b; order_number := order_number b;
     product_id := product_id b; product_name := product_name b;
     quantity := quantity b; total := total b; customer := customer b;
     booking_date := booking_date b; persons := persons b;
     duration := Some v; booking_end := booking_end b |}.

Definition set_booking_end (b : booking) (v : pyval) : booking :=
  {| order_id := order_id b; order_number := order_number b;
     product_id := product_id b; product_name := product_name b;
     quantity := quantity b; total := total b; customer := customer b;
     booking_date := booking_date b; persons := persons b;
     duration := duration b; booking_end := Some v |}.

(** The transport to the storefront. *)
Definition connect : M unit :=
  fun w =>
    match shop_faults w with
    | [] => (Ok tt, w)
    | true :: fs => (Raise ConnectionError, set_shop_faults w fs)
    | false :: fs => (Ok tt, set_shop_faults w fs)
    end.

Definition product_path (i : Z) : string := "products/" ++ str_of_Z i.

Definition at_path (endpoint : string) (p : Z * pydict) : bool :=
  String.eqb endpoint (product_path (fst p)).

Definition product_json (p : Z * pydict) : pydict :=
  ("id", PInt (fst p)) :: snd p.

Definition merge (fields data : pydict) : pydict :=
  fold_left (fun acc kv => dict_set acc (fst kv) (snd kv)) data fields.

(** The storefront's answer to a request on a product: the product for
    a status 200, [None] for any other status. *)
Definition serve (method : http_method) (endpoint : string) (body : option pydict)
  : M (option pydict) :=
  w <- read_world ;;
  match find (at_path endpoint) (shop_products w), method with
  | Some p, GET => ret (Some (product_json p))
  | Some p, PUT =>
      let p' := (fst p, merge (snd p) (match body with Some d => d | None => [] end)) in
      write_world (fun w =>
        set_shop_products w
          (map (fun q => if at_path endpoint q then p' else q) (shop_products w))) ;;
      ret (Some (product_json p'))
  | _, _ => ret None
  end.

End Storefront.

(** ** [WooCommerceClient] *)

Module WooCommerceClient.
Import Py World World.Notations Storefront.
Local Open Scope py_scope.

(** [_make_request]: the parsed answer, or [None] on a status other
    than 200/201 or on a transport error. *)
Definition make_request (method : http_method) (endpoint : string) (data : option pydict)
  : M (option pydict) :=
  let path := lstrip (Ascii.eqb "/") endpoint in
  let body := match data with Some ((_ :: _) as d) => Some d | _ => None end in
  try_except
    (write_world (fun w =>
       set_shop_calls w (shop_calls w ++
         [{| req_method := method; req_endpoint := path; req_body := body |}])) ;;
     connect ;;
     serve method path body)
    (fun _ => ret None).

Definition get_product (product_id : Z) : M (option pydict) :=
  make_request GET ("products/" ++ str_of_Z product_id) None.

Definition update_product (product_id : Z) (data : pydict) : M (option pydict) :=
  make_request PUT ("products/" ++ str_of_Z product_id) (Some data).

Section WithRuntime.
Context {RT : Runtime}.

(** One turn of the loop over a line item's metadata. *)
Definition scan_meta (b : booking) (meta : meta_entry) : result booking :=
  let key := lower (match meta_key meta with Some k => k | None => "" end) in
  let value := match meta_value meta with Some v => v | None => PStr "" end in
  if (contains "booking_date" key || contains "from" key)%bool then
    Ok (set_booking_date b value)
  else if (contains "persons" key || contains "person" key)%bool then
    if isdigit (str value) then
      match int value with
      | Ok n => Ok (set_persons b n)
      | Raise e => Raise e
      end
    else Ok (set_persons b 1)
  else if contains "duration" key then
    Ok (set_duration b value)
  else if (contains "to" key
           && match booking_date b with None => true | Some _ => false end)%bool then
    Ok (set_booking_end b value)
  else Ok b.

Fixpoint scan_all (b : booking) (metas : list meta_entry) : result booking :=
  match metas with
  | [] => Ok b
  | m :: ms =>
      match scan_meta b m with
      | Ok b' => scan_all b' ms
      | Raise e => Raise e
      end
  end.

(** The booking of one line item. *)
Definition extract_item (o : order) (item : line_item) : result booking :=
  let booking_data :=
    {| order_id := ord_id o;
       order_number := ord_number o;
       product_id := item_product_id item;
       product_name := item_name item;
       quantity := item_quantity item;
       total := item_total item;
       customer :=
         {| cust_id := ord_customer_id o;
            cust_email := bill_email (ord_billing o);
            cust_name := bill_first_name (ord_billing o) ++ " "
                         ++ bill_last_name (ord_billing o);
            cust_phone := bill_phone (ord_billing o) |};
       booking_date := None; persons := None;
       duration := None; booking_end := None |} in
  let meta_data := match item_meta_data item with Some l => l | None => [] end in
  match scan_all booking_data meta_data with
  | Raise e => Raise e
  | Ok b =>
      let b := match booking_date b with
               | None => set_booking_date b (PStr (ord_date_created o))
               | Some _ => b
               end in
      let b := match persons b with
               | None => set_persons b 1
               | Some _ => b
               end in
      Ok b
  end.

Fixpoint extract_items (o : order) (items : list line_item) : result (list booking) :=
  match items with
  | [] => Ok []
  | item :: rest =>
      match extract_item o item with
      | Raise e => Raise e
      | Ok b =>
          match extract_items o rest with
          | Raise e => Raise e
          | Ok bs => Ok (b :: bs)
          end
      end
  end.

Definition extract_booking_data (o : order) : result (list booking) :=
  extract_items o (match ord_line_items o with Some l => l | None => [] end).

End WithRuntime.
End WooCommerceClient.

(** ** [SyncService] *)

Module SyncService.
Import Py World World.Notations Storefront.
Local Open Scope py_scope.

Definition nl : string := String (chr 10) "".

Section WithRuntime.
Context {RT : Runtime}.

(** The date as it appears in the product name: an ISO text with a
    time part is printed to the minute, anything else is passed as its
    text. *)
Definition formatted_date (b : booking) : result string :=
  let booking_date := match booking_date b with Some v => v | None => PStr "" end in
  match booking_date with
  | PStr s =>
      if contains "T" s then
        match iso_to_minutes (replace_char "Z" "+00:00" s) with
        | Some t => Ok t
        | None => Raise ValueError
        end
      else Ok s
  | v => Ok (str v)
  end.

(** [booking_data['persons']] *)
Definition persons_item (b : booking) : result Z :=
  match persons b with
  | Some n => Ok n
  | None => Raise (KeyError "persons")
  end.

(** [booking_data.get('persons', 1)] *)
Definition persons_get (b : booking) : Z :=
  match persons b with Some n => n | None => 1 end.

(** The product dict that [sync_booking_to_odoo] builds from a booking
    before it calls the upsert. *)
Definition product_data_of (b : booking) : result pydict :=
  match formatted_date b with
  | Raise e => Raise e
  | Ok date =>
      let base_name := product_name b ++ " - " ++ date in
      match (if 1 <? persons_get b then
               match persons_item b with
               | Ok n => Ok (base_name ++ " (" ++ str_of_Z n ++ " personas)")
               | Raise e => Raise e
               end
             else Ok base_name) with
      | Raise e => Raise e
      | Ok name =>
          Ok [ ("name", PStr name);
               ("sku", PStr ("BOOKING_" ++ str_of_Z (order_id b) ++ "_"
                             ++ str_of_Z (product_id b)));
               ("price", PFloat (total b));
               ("woo_id", PStr (str_of_Z (order_id b) ++ "_"
                                ++ str_of_Z (product_id b)));
               ("booking_date", PStr date);
               ("persons", PInt (persons_get b));
               ("description",
                PStr ("Clase reservada desde WooCommerce" ++ nl
                      ++ "Orden: #" ++ order_number b ++ nl
                      ++ "Fecha: " ++ date ++ nl
                      ++ "Personas: " ++ str_of_Z (persons_get b))) ]
      end
  end.

Definition sync_booking_to_odoo (b : booking) : M bool :=
  try_except
    (product_data <- lift (product_data_of b) ;;
     product_id <- OdooClient.get_or_create_product product_data ;;
     if truthy product_id then ret true else ret false)
    (fun _ => ret false).

(** [booking.get('total', 0) / booking.get('quantity', 1)] *)
Definition unit_price (b : booking) : result Q :=
  truediv (total b) (quantity b).

(** The body of the loop over the bookings in
    [create_sale_order_in_odoo]. *)
Definition add_order_line (sale_order_id : pyval) (b : booking) : M unit :=
  let product_external_id := str_of_Z (order_id b) ++ "_" ++ str_of_Z (product_id b) in
  product <- OdooClient.get_record_by_external_id "product.product" product_external_id ;;
  match OdooClient.present product with
  | Some product =>
      product_id <- getitem product "id" ;;
      price_unit <- lift (unit_price b) ;;
      let line_data :=
        [ ("order_id", sale_order_id);
          ("product_id", product_id);
          ("product_uom_qty", PInt (quantity b));
          ("price_unit", PFloat price_unit) ] in
      OdooClient.create_record "sale.order.line" line_data ;;
      ret tt
  | None => ret tt
  end.

Definition create_sale_order_in_odoo (woo_order : order) (bookings : list booking)
  : M pyval :=
  try_except
    (let bill := ord_billing woo_order in
     let customer_data :=
       [ ("id", PInt (ord_customer_id woo_order));
         ("email", PStr (bill_email bill));
         ("name", PStr (strip (bill_first_name bill ++ " " ++ bill_last_name bill)));
         ("phone", PStr (bill_phone bill));
         ("woo_id", PInt (ord_customer_id woo_order)) ] in
     partner_id <- OdooClient.get_or_create_customer customer_data ;;
     if negb (truthy partner_id) then ret PNone
     else
       let order_data :=
         [ ("partner_id", partner_id);
           ("x_woo_order_id", PInt (ord_id woo_order));
           ("origin", PStr ("WooCommerce #" ++ ord_number woo_order));
           ("date_order", PStr (ord_date_created woo_order));
           ("state", PStr "draft");
           ("note", PStr ("Orden importada desde WooCommerce" ++ nl
                          ++ "Fecha original: " ++ ord_date_created woo_order ++ nl
                          ++ "Total WC: " ++ ord_total woo_order)) ] in
       sale_order_id <- OdooClient.create_record "sale.order" order_data ;;
       if negb (truthy sale_order_id) then ret PNone
       else
         for_each bookings (fun b _ => add_order_line sale_order_id b) tt ;;
         ret sale_order_id)
    (fun _ => ret PNone).

Definition update_existing_order (existing_order : pydict) (woo_order : order) : M bool :=
  try_except
    (sale_order_id <- getitem existing_order "id" ;;
     w <- read_world ;;
     let update_data :=
       [ ("note", PStr ("Orden actualizada desde WooCommerce" ++ nl
                        ++ String (chr 218) "ltima actualizaci" ++ String (chr 243) "n: "
                        ++ clock w ++ nl
                        ++ "Total WC: " ++ ord_total woo_order)) ] in
     let woo_status := ord_status woo_order in
     let update_data :=
       if String.eqb woo_status "completed" then dict_set update_data "state" (PStr "sale")
       else if String.eqb woo_status "cancelled" then dict_set update_data "state" (PStr "cancel")
       else update_data in
     result <- OdooClient.update_record "sale.order" sale_order_id update_data ;;
     if result then ret true else ret false)
    (fun _ => ret false).

(** The loop that upserts every booking and counts the successes. *)
Definition sync_bookings (bookings : list booking) : M Z :=
  for_each bookings
    (fun b success_count =>
       ok <- sync_booking_to_odoo b ;;
       if ok then ret (success_count + 1) else ret success_count)
    0.

Definition process_woo_order (order_data : order) : M bool :=
  try_except
    (let woo_order_id := ord_id order_data in
     existing_order <- OdooClient.search_records "sale.order"
                         [("x_woo_order_id", OpEq, PStr (str_of_Z woo_order_id))]
                         None (Some 1) ;;
     match existing_order with
     | first :: _ => update_existing_order first order_data
     | [] =>
         bookings <- lift (WooCommerceClient.extract_booking_data order_data) ;;
         match bookings with
         | [] => ret false
         | _ =>
             success_count <- sync_bookings bookings ;;
             (if 0 <? success_count
              then create_sale_order_in_odoo order_data bookings ;; ret tt
              else ret tt) ;;
             ret (0 <? success_count)
         end
     end)
    (fun _ => ret false).

(** [process_woo_customer], on the fields of the payload that it reads. *)
Definition process_woo_customer (customer_id : pyval) (email : pyval)
           (first_name last_name phone : string) : M bool :=
  try_except
    (let odoo_customer_data :=
       [ ("name", PStr (strip (first_name ++ " " ++ last_name)));
         ("email", email);
         ("phone", PStr phone);
         ("woo_id", customer_id) ] in
     partner_id <- OdooClient.get_or_create_customer odoo_customer_data ;;
     if truthy partner_id then ret true else ret false)
    (fun _ => ret false).

(** [woo_id != 'False'] *)
Definition not_false_text (v : pyval) : bool := negb (eqb v (PStr "False")).

Definition sync_product_to_woo (odoo_product : pydict) : M bool :=
  try_except
    (let woo_id := get odoo_product "x_woo_id" in
     pushed <-
       (if (truthy woo_id && not_false_text woo_id)%bool then
          n <- lift (int woo_id) ;;
          existing_product <- WooCommerceClient.get_product n ;;
          match OdooClient.present existing_product with
          | Some _ =>
              name <- getitem odoo_product "name" ;;
              list_price <- getitem odoo_product "list_price" ;;
              let update_data :=
                [ ("name", name);
                  ("regular_price", PStr (str list_price));
                  ("description", get_default odoo_product "description" (PStr ""));
                  ("sku", get_default odoo_product "default_code" (PStr "")) ] in
              n <- lift (int woo_id) ;;
              result <- WooCommerceClient.update_product n update_data ;;
              match OdooClient.present result with
              | Some _ => ret true
              | None => ret false
              end
          | None => ret false
          end
        else ret false) ;;
     ret pushed)
    (fun _ => ret false).

End WithRuntime.
End SyncService.

(** ** The batch jobs: recent bookings, scheduled sync, reverse sync,
       statistics

    What these functions take from outside is a parameter here: the
    storefront's answer to a listing of orders, the arithmetic on the
    clock, and the text of an exception. *)

Module Jobs.
Import Py World World.Notations Storefront.
Local Open Scope py_scope.

Section WithStorefront.
Context {RT : Runtime}.

(** The body of the storefront's answer to [GET orders] with the given
    [status] and [after] filters: the orders for a status 200, [None]
    for any other status. *)
Variable storefront_orders : option string -> option string -> world -> option (list order).

(** [(datetime.now() - timedelta(hours=hours)).isoformat()], from the
    number of hours and the text of the clock. *)
Variable hours_before : Z -> string -> string.

(** [(datetime.now() - timedelta(days=1)).strftime('%Y-%m-%d %H:%M:%S')] *)
Variable day_before : string -> string.

(** [str(e)] for a caught exception. *)
Variable exn_text : exn -> string.

(** [WooCommerceClient.get_orders(status, after=after, per_page=100)]:
    the request goes through [_make_request]; anything but a list
    becomes the empty list. *)
Definition get_orders (status after : option string) : M (list order) :=
  response <-
    try_except
      (write_world (fun w =>
         set_shop_calls w (shop_calls w ++
           [{| req_method := GET; req_endpoint := "orders"; req_body := None |}])) ;;
       Storefront.connect ;;
       w <- read_world ;;
       ret (storefront_orders status after w))
      (fun _ => ret None) ;;
  match response with
  | Some orders => ret orders
  | None => ret []
  end.

(** [[meta for meta in meta_data if 'booking' in meta.get('key', '').lower()]] *)
Definition booking_meta (item : line_item) : list meta_entry :=
  filter (fun meta =>
            contains "booking"
              (lower (match meta_key meta with Some k => k | None => "" end)))
         (match item_meta_data item with Some l => l | None => [] end).

(** The loop over the line items of an order, left at the first item
    that has booking metadata. *)
Fixpoint has_booking (line_items : list line_item) : bool :=
  match line_items with
  | [] => false
  | item :: rest =>
      match booking_meta item with
      | _ :: _ => true
      | [] => has_booking rest
      end
  end.

Definition get_booking_orders (after : option string) : M (list order) :=
  orders <- get_orders (Some "completed") after ;;
  ret (filter (fun o =>
                 has_booking (match ord_line_items o with Some l => l | None => [] end))
              orders).

(** The loop of [get_recent_bookings]: the bookings of every order, in
    order; an exception of the extraction ends it. *)
Fixpoint all_bookings (orders : list order) : result (list booking) :=
  match orders with
  | [] => Ok []
  | o :: rest =>
      match WooCommerceClient.extract_booking_data o with
      | Raise e => Raise e
      | Ok bookings =>
          match all_bookings rest with
          | Raise e => Raise e
          | Ok others => Ok (bookings ++ others)%list
          end
      end
  end.

Definition get_recent_bookings (hours : Z) : M (list booking) :=
  w <- read_world ;;
  let after_date := hours_before hours (clock w) in
  orders <- get_booking_orders (Some after_date) ;;
  lift (all_bookings orders).

Definition scheduled_sync : M unit :=
  try_except
    (recent_bookings <- get_recent_bookings 2 ;;
     SyncService.sync_bookings recent_bookings ;;
     ret tt)
    (fun _ => ret tt).

(** The loop that pushes every product and counts the successes. *)
Definition push_products (odoo_products : list pydict) : M Z :=
  for_each odoo_products
    (fun product sync_count =>
       ok <- SyncService.sync_product_to_woo product ;;
       if ok then ret (sync_count + 1) else ret sync_count)
    0.

Definition sync_odoo_to_woo : M unit :=
  try_except
    (w <- read_world ;;
     let yesterday := day_before (clock w) in
     odoo_products <-
       OdooClient.search_records "product.product"
         [ ("write_date", OpGe, PStr yesterday);
           ("sale_ok", OpEq, PBool true);
           ("type", OpEq, PStr "service") ]
         (Some ["name"; "default_code"; "list_price"; "x_woo_id"; "description"])
         None ;;
     push_products odoo_products ;;
     ret tt)
    (fun _ => ret tt).

Definition get_sync_statistics : M pydict :=
  try_except
    (w <- read_world ;;
     let yesterday := day_before (clock w) in
     recent_products <-
       OdooClient.search_records "product.product"
         [ ("create_date", OpGe, PStr yesterday);
           ("x_woo_id", OpNe, PBool false) ]
         None None ;;
     recent_orders <-
       OdooClient.search_records "sale.order"
         [ ("create_date", OpGe, PStr yesterday);
           ("x_woo_order_id", OpNe, PBool false) ]
         None None ;;
     w <- read_world ;;
     ret [ ("products_synced_24h", PInt (Z.of_nat (List.length recent_products)));
           ("orders_synced_24h", PInt (Z.of_nat (List.length recent_orders)));
           ("last_check", PStr (clock w)) ])
    (fun e =>
       w <- read_world ;;
       ret [ ("error", PStr (exn_text e)); ("last_check", PStr (clock w)) ]).

End WithStorefront.
End Jobs.

(** ** A runtime for concrete runs

    Floats are printed with one fractional digit and an ISO date is cut
    to the minute when it has the shape [YYYY-MM-DDTHH:MM...].  The
    general statements below hold for every runtime; this one serves to
    run the model on concrete inputs. *)

Module Sample.
Import Py World Storefront.

Definition print_float (q : Q) : string :=
  let n := Z.quot (Qnum q) (Zpos (Qden q)) in
  let tenth := Z.abs (Z.rem (Z.quot (10 * Qnum q) (Zpos (Qden q))) 10) in
  (if (Qnum q <? 0) && (n =? 0) then "-0" else str_of_Z n)%bool
  ++ String "." (str_of_Z tenth).

(** The quotient itself, which is what the division gives wherever
    the quotient is a float. *)
Definition quotient (x : Q) (n : Z) : Q := (x / inject_Z n)%Q.

Definition cut_to_minutes (s : string) : option string :=
  if ((16 <=? String.length s)%nat
      && String.eqb (substring 10 1 s) "T"
      && String.eqb (substring 13 1 s) ":")%bool
  then Some (substring 0 10 s ++ " " ++ substring 11 5 s)
  else None.

End Sample.

(** * Properties *)

Import Py World World.Notations Storefront.
Local Open Scope py_scope.

(** ** Vocabulary of the statements *)

Section Vocabulary.
Context {RT : Runtime}.

(** The number that a run of decimal digits denotes, continuing from [acc]. *)
Fixpoint digits_value (acc : Z) (s : string) : Z :=
  match s with
  | EmptyString => acc
  | String c s' => digits_value (10 * acc + digit_value c) s'
  end.

(** The world after calls have been noted in the journal. *)
Definition called (w : world) (cs : list erp_call) : world :=
  set_erp_calls w (erp_calls w ++ cs).

Definition noted (w : world) (c : erp_call) : world := called w [c].

(** Whether the next ERP call meets a transport failure. *)
Definition faulty (w : world) : bool :=
  match erp_faults w with true :: _ => true | _ => false end.

(** The world once the next entry of the schedule is used up. *)
Definition consume (w : world) : world :=
  match erp_faults w with [] => w | _ :: fs => set_erp_faults w fs end.

(** What [common.authenticate] answers. *)
Definition login_value (w : world) : pyval :=
  match erp_login w with Some u => PInt u | None => PBool false end.

(** Position, in the transport schedule, of the search call made by
    [search_records]: the client authenticates first when it holds no
    session. *)
Definition search_slot (w : world) : nat :=
  if truthy (uid w) then 0%nat else 1%nat.

(** The ERP can be reached and accepts the client: no transport
    failure is scheduled, the ERP grants user id [u] to the
    credentials, and the client holds no session yet or that one. *)
Definition online (w : world) (u : Z) : Prop :=
  erp_faults w = [] /\ erp_login w = Some u /\ (uid w = PInt u \/ uid w = PNone).

(** The world [w] after a stretch of work over a reachable ERP: the
    session is set, calls [cs] are noted, the store is [db]. *)
Definition after (w : world) (u : Z) (cs : list erp_call) (db : list erp_record) : world :=
  set_erp_db (called (set_uid w (PInt u)) cs) db.

(** What a search with limit 1 followed by a read returns, and the calls it makes. *)
Definition lookup_ids (db : list erp_record) (model : string) (domain : list clause) : list Z :=
  firstn 1 (map rec_id (filter (Erp.matches model domain) db)).

Definition lookup_result (db : list erp_record) (model : string) (domain : list clause)
  : list pydict :=
  match lookup_ids db model domain with
  | [] => []
  | ids => match Erp.read_all db model ids None with Some ds => ds | None => [] end
  end.

Definition lookup_calls (db : list erp_record) (model : string) (domain : list clause)
  : list erp_call :=
  CallSearch model domain (Some 1) ::
  match lookup_ids db model domain with
  | [] => []
  | ids => [CallRead model ids None]
  end.

Definition clean (domain : list clause) : bool :=
  forallb (fun c => Erp.encodable (snd c)) domain.

Definition new_record (db : list erp_record) (model : string) (data : pydict) : erp_record :=
  {| rec_model := model; rec_id := Erp.fresh_id db; rec_fields := Erp.write_fields [] data |}.

(** The store after [data] is written to the records [ids] of [model]. *)
Definition written (db : list erp_record) (model : string) (ids : list pyval) (data : pydict)
  : list erp_record :=
  map (fun r =>
         if Erp.targeted model ids r then
           {| rec_model := rec_model r; rec_id := rec_id r;
              rec_fields := Erp.write_fields (rec_fields r) data |}
         else r) db.

(** The filter of the lookup by external id. *)
Definition by_external_id (data : pydict) : list clause :=
  [("x_woo_id", OpEq, PStr (str (get data "woo_id")))].

(** A computation keeps a relation between the world it starts in and the world it leaves. *)
Definition keeps (R : world -> world -> Prop) {A} (m : M A) : Prop :=
  forall w, R w (snd (m w)).

Definition is_write (c : erp_call) : bool :=
  match c with CallWrite _ _ _ => true | _ => false end.

Definition is_create (c : erp_call) : bool :=
  match c with CallCreate _ _ => true | _ => false end.

(** Nothing that was in the store is touched (records may be added) and no [write] call is made. *)
Definition only_adds (w w' : world) : Prop :=
  (exists new, erp_db w' = erp_db w ++ new)%list /\
  (exists cs, erp_calls w' = erp_calls w ++ cs /\ forallb (fun c => negb (is_write c)) cs = true)%list.

(** The first record that a filter selects. *)
Definition first_match (db : list erp_record) (model : string) (domain : list clause)
  : option erp_record :=
  hd_error (filter (Erp.matches model domain) db).

(** The filter by which [process_woo_order] looks for the sale order. *)
Definition by_order_id (o : order) : list clause :=
  [("x_woo_order_id", OpEq, PStr (str_of_Z (ord_id o)))].

(** The note that [update_existing_order] writes. *)
Definition update_note (w : world) (o : order) : string :=
  "Orden actualizada desde WooCommerce" ++ SyncService.nl
  ++ String (chr 218) "ltima actualizaci" ++ String (chr 243) "n: "
  ++ clock w ++ SyncService.nl
  ++ "Total WC: " ++ ord_total o.

(** The filter by which the service product of a booking is found. *)
Definition product_key (b : booking) : list clause :=
  [("x_woo_id", OpEq, PStr (str_of_Z (order_id b) ++ "_" ++ str_of_Z (product_id b)))].

(** The service product of booking [b] is in the store. *)
Definition has_product (db : list erp_record) (b : booking) : Prop :=
  exists r, In r db /\ Erp.matches "product.product" (product_key b) r = true.

(** The ERP is reachable and holds the product of [b]. *)
Definition ready (u : Z) (b : booking) (w : world) : Prop :=
  online w u /\ has_product (erp_db w) b.

Definition stays_ready (u : Z) (b : booking) (w w' : world) : Prop :=
  ready u b w -> ready u b w'.

(** [meta.get('key', '')] *)
Definition entry_key (m : meta_entry) : string :=
  match meta_key m with Some k => k | None => "" end.

(** [item.get('meta_data', [])] *)
Definition entries (item : line_item) : list meta_entry :=
  match item_meta_data item with Some l => l | None => [] end.

(** [order.get('line_items', [])] *)
Definition items (o : order) : list line_item :=
  match ord_line_items o with Some l => l | None => [] end.

(** A line item that carries no metadata key: it has no metadata, or
    entries without a key. *)
Definition keyless (item : line_item) : Prop :=
  Forall (fun m => entry_key m = "") (entries item).

(** The booking of a line item whose metadata sets nothing. *)
Definition plain_booking (o : order) (item : line_item) : booking :=
  {| order_id := ord_id o;
     order_number := ord_number o;
     product_id := item_product_id item;
     product_name := item_name item;
     quantity := item_quantity item;
     total := item_total item;
     customer :=
       {| cust_id := ord_customer_id o;
          cust_email := bill_email (ord_billing o);
          cust_name := bill_first_name (ord_billing o) ++ " "
                       ++ bill_last_name (ord_billing o);
          cust_phone := bill_phone (ord_billing o) |};
     booking_date := Some (PStr (ord_date_created o));
     persons := Some 1;
     duration := None;
     booking_end := None |}.

(** [f"{order_id}_{product_id}"] *)
Definition composite_id (b : booking) : string :=
  str_of_Z (order_id b) ++ "_" ++ str_of_Z (product_id b).

(** The fields [create_product] sends for a product dict. *)
Definition product_fields (product_data : pydict) : pydict :=
  [ ("name", get product_data "name");
    ("default_code", get product_data "sku");
    ("list_price", get_default product_data "price" (PInt 0));
    ("type", PStr "service");
    ("sale_ok", PBool true);
    ("purchase_ok", PBool false);
    ("x_woo_id", get product_data "woo_id");
    ("x_booking_date", get product_data "booking_date");
    ("x_persons", get_default product_data "persons" (PInt 1));
    ("description", get_default product_data "description" (PStr "")) ].


Definition shop_get (n : Z) : shop_request :=
  {| req_method := GET; req_endpoint := product_path n; req_body := None |}.


(** An entry whose key selects the person count: it holds "person"
    and none of the date words. *)
Definition persons_key (m : meta_entry) : bool :=
  let key := lower (entry_key m) in
  (negb (contains "booking_date" key || contains "from" key)
   && (contains "persons" key || contains "person" key))%bool.

(** [meta.get('value', '')] *)
Definition entry_value (m : meta_entry) : pyval :=
  match meta_value m with Some v => v | None => PStr "" end.

(** The fields [create_customer] sends for a customer dict. *)
Definition customer_fields (customer_data : pydict) : pydict :=
  [ ("name", get customer_data "name");
    ("email", get customer_data "email");
    ("phone", get customer_data "phone");
    ("x_woo_id", get customer_data "woo_id");
    ("is_company", PBool false);
    ("customer_rank", PInt 1) ].

(** The filter of the lookup by email. *)
Definition by_email (customer_data : pydict) : list clause :=
  [("email", OpEq, get customer_data "email")].


(** A computation that never raises, and whose value satisfies [P]. *)
Definition answers {A} (P : A -> Prop) (m : M A) : Prop :=
  forall w, exists a w', m w = (Ok a, w') /\ P a.

(** Whatever a computation returns, when it returns, satisfies [P]. *)
Definition yields {A} (P : A -> Prop) (m : M A) : Prop :=
  forall w a w', m w = (Ok a, w') -> P a.

(** A dict as [read] answers it: it carries the record's id. *)
Definition has_id (d : pydict) : Prop :=
  exists i, dict_get d "id" = Some (PInt i).

(** An [Optional[int]]: an id or [None]. *)
Definition id_or_none (v : pyval) : Prop :=
  v = PNone \/ exists i, v = PInt i.

(** The outcome of a lookup: nothing, or a dict that carries an id. *)
Definition found_with_id (o : option pydict) : Prop :=
  match o with Some d => has_id d | None => True end.

(** The store is left as it was. *)
Definition same_store (w w' : world) : Prop := erp_db w' = erp_db w.

(** A [search] or a [read]. *)
Definition is_query (c : erp_call) : bool :=
  match c with CallSearch _ _ _ | CallRead _ _ _ => true | _ => false end.

(** A relation between worlds that the client's session handling and
    the noting of the calls in [allowed] keep. *)
Class Tolerant (allowed : erp_call -> bool) (R : world -> world -> Prop) : Prop := {
  tolerant_preorder :: PreOrder R;
  tolerant_consume : forall w, R w (consume w);
  tolerant_uid : forall w, R w (set_uid w (login_value w));
  tolerant_noted : forall w c, allowed c = true -> R w (noted w c)
}.

Definition any_call (c : erp_call) : bool := true.

(** No record is added to the store or removed from it. *)
Definition same_size (w w' : world) : Prop :=
  List.length (erp_db w') = List.length (erp_db w).

(** The ERP state that [update_existing_order] sets for a storefront
    status, when it sets one. *)
Definition state_for (status : string) : option string :=
  if String.eqb status "completed" then Some "sale"
  else if String.eqb status "cancelled" then Some "cancel"
  else None.

(** The fields that [update_existing_order] writes. *)
Definition update_fields (w : world) (o : order) : pydict :=
  ("note", PStr (update_note w o)) ::
  match state_for (ord_status o) with
  | Some s => [("state", PStr s)]
  | None => []
  end.

(** A booking whose date text holds a 'T' and is not an ISO date:
    [datetime.fromisoformat] refuses it. *)
Definition unreadable_date (b : booking) : Prop :=
  exists s, booking_date b = Some (PStr s) /\
            contains "T" s = true /\
            iso_to_minutes (replace_char "Z" "+00:00" s) = None.

(** The search that [add_order_line] makes for the product of a booking. *)
Definition product_search (b : booking) : erp_call :=
  CallSearch "product.product" (product_key b) (Some 1).

(** Record ids as the ERP hands them out: none is 0. *)
Definition ids_nonzero (db : list erp_record) : Prop :=
  Forall (fun r => rec_id r <> 0) db.

(** The calls of a product upsert that finds record [i]. *)
Definition product_found_calls (b : booking) (i : Z) : list erp_call :=
  [CallSearch "product.product" (product_key b) (Some 1);
   CallRead "product.product" [i] None].

Definition not_post (q : shop_request) : bool :=
  match req_method q with POST => false | _ => true end.

(** The storefront is read and updated, nothing more: requests are
    added to its journal, none of them a POST, and the catalogue holds
    the same product ids in the same order. *)
Definition shop_kept (w w' : world) : Prop :=
  (exists qs, shop_calls w' = shop_calls w ++ qs /\ forallb not_post qs = true)%list /\
  map fst (shop_products w') = map fst (shop_products w).

(** Nothing on the ERP side changes: store, journal, session, schedule. *)
Definition erp_untouched (w w' : world) : Prop :=
  erp_db w' = erp_db w /\ erp_calls w' = erp_calls w /\
  uid w' = uid w /\ erp_faults w' = erp_faults w.

Definition pushes_only (w w' : world) : Prop :=
  erp_untouched w w' /\ shop_kept w w'.

(** The ERP is only queried -- its store is as before and the calls
    added are searches and reads -- and the storefront is only read
    and updated. *)
Definition mirrors (w w' : world) : Prop :=
  erp_db w' = erp_db w /\
  (exists cs, erp_calls w' = erp_calls w ++ cs /\ forallb is_query cs = true)%list /\
  shop_kept w w'.

(** The store, the ERP's answer to the credentials and the clock are
    as before. *)
Definition steady (w w' : world) : Prop :=
  erp_db w' = erp_db w /\ erp_login w' = erp_login w /\ clock w' = clock w.

(** The dict of statistics for the two counts. *)
Definition statistics (products orders : nat) (now : string) : pydict :=
  [ ("products_synced_24h", PInt (Z.of_nat products));
    ("orders_synced_24h", PInt (Z.of_nat orders));
    ("last_check", PStr now) ].

(** An entry whose key selects the booking date. *)
Definition date_key (m : meta_entry) : bool :=
  let key := lower (entry_key m) in
  (contains "booking_date" key || contains "from" key)%bool.

(** The value of the last entry under a date key, after [start]. *)
Definition last_date (start : option pyval) (metas : list meta_entry) : option pyval :=
  fold_left (fun acc m => if date_key m then Some (entry_value m) else acc) metas start.

(** What a booking takes over from its line item and its order. *)
Definition of_line (o : order) (item : line_item) (b : booking) : Prop :=
  order_id b = ord_id o /\ order_number b = ord_number o /\
  product_id b = item_product_id item /\ product_name b = item_name item /\
  quantity b = item_quantity item /\ total b = item_total item /\
  cust_id (customer b) = ord_customer_id o.

(** The person count, when set, is not negative. *)
Definition persons_natural (b : booking) : Prop :=
  match persons b with Some n => 0 <= n | None => True end.

(** A metadata entry that marks a booking: its lowered key holds
    "booking". *)
Definition booking_entry (m : meta_entry) : bool :=
  contains "booking" (lower (entry_key m)).

(** An order with at least one line item that carries a booking entry. *)
Definition booking_order (o : order) : Prop :=
  Exists (fun item => Exists (fun m => booking_entry m = true) (entries item)) (items o).

(** The request that lists the orders. *)
Definition shop_list_orders : shop_request :=
  {| req_method := GET; req_endpoint := "orders"; req_body := None |}.

(** The ERP stays reachable, and the store keeps the property [P]. *)
Definition stays (u : Z) (P : list erp_record -> Prop) (w w' : world) : Prop :=
  online w u /\ P (erp_db w) -> online w' u /\ P (erp_db w').

(** The sale order of a storefront order is in the store. *)
Definition has_order (o : order) (db : list erp_record) : Prop :=
  exists r, In r db /\ Erp.matches "sale.order" (by_order_id o) r = true.

(** The header that [create_sale_order_in_odoo] sends for an order. *)
Definition order_fields (o : order) (partner_id : pyval) : pydict :=
  [ ("partner_id", partner_id);
    ("x_woo_order_id", PInt (ord_id o));
    ("origin", PStr ("WooCommerce #" ++ ord_number o));
    ("date_order", PStr (ord_date_created o));
    ("state", PStr "draft");
    ("note", PStr ("Orden importada desde WooCommerce" ++ SyncService.nl
                   ++ "Fecha original: " ++ ord_date_created o ++ SyncService.nl
                   ++ "Total WC: " ++ ord_total o)) ].

(** The customer dict that [create_sale_order_in_odoo] builds from the
    billing data of an order. *)
Definition order_customer (o : order) : pydict :=
  [ ("id", PInt (ord_customer_id o));
    ("email", PStr (bill_email (ord_billing o)));
    ("name", PStr (strip (bill_first_name (ord_billing o) ++ " "
                          ++ bill_last_name (ord_billing o))));
    ("phone", PStr (bill_phone (ord_billing o)));
    ("woo_id", PInt (ord_customer_id o)) ].

(** The line that [create_sale_order_in_odoo] sends for a booking. *)
Definition line_fields (sale_order_id product_id : pyval) (b : booking) (price : Q) : pydict :=
  [ ("order_id", sale_order_id);
    ("product_id", product_id);
    ("product_uom_qty", PInt (quantity b));
    ("price_unit", PFloat price) ].

(** The ids of the store are as an ERP issues them: positive, with
    room for one more within the integers of XML-RPC. *)
Definition ids_fit (db : list erp_record) : Prop :=
  Forall (fun r => 0 < rec_id r < 2147483647) db.

End Vocabulary.

(** ** Concrete runs *)

Module Demo.

Definition ann : billing :=
  {| bill_email := "ann@example.org"; bill_first_name := "Ann";
     bill_last_name := "Lee"; bill_phone := "555-0100" |}.

Definition shop : list (Z * pydict) :=
  [(1007, [("name", PStr "Aqua yoga"); ("regular_price", PStr "20.0")])].

(** A reachable ERP with store [db], a client that has not logged in
    yet, and a reachable storefront. *)
Definition world_with (db : list erp_record) : world :=
  {| erp_db := db; erp_login := Some 2; erp_faults := []; erp_calls := [];
     uid := PNone;
     shop_products := shop; shop_faults := []; shop_calls := [];
     clock := "2024-05-02T08:00:00" |}.

Definition item (pid qty : Z) (price : Q) (meta : option (list meta_entry)) : line_item :=
  {| item_product_id := pid; item_name := "Swim class"; item_quantity := qty;
     item_total := price; item_meta_data := meta |}.

Definition order_of (oid : Z) (number : string) (lines : list line_item) : order :=
  {| ord_id := oid; ord_number := number; ord_status := "completed";
     ord_customer_id := 5; ord_billing := ann;
     ord_date_created := "2024-05-01T10:00:00"; ord_total := "50.00";
     ord_line_items := Some lines |}.

Definition booking_of (oid pid qty : Z) (price : Q) : booking :=
  {| order_id := oid; order_number := str_of_Z oid; product_id := pid;
     product_name := "Swim class"; quantity := qty; total := price;
     customer := {| cust_id := 5; cust_email := "ann@example.org";
                    cust_name := "Ann Lee"; cust_phone := "555-0100" |};
     booking_date := Some (PStr "2024-05-01T10:00:00"); persons := Some 1;
     duration := None; booking_end := None |}.

(** Order 42 of the scenario: one line, no metadata. *)
Definition order_42 : order := order_of 42 "42" [item 9 1 50 None].

(** A sale order already in the store for storefront order 555. *)
Definition sale_order_555 : erp_record :=
  {| rec_model := "sale.order"; rec_id := 3;
     rec_fields := [("partner_id", PInt 2); ("x_woo_order_id", PStr "555");
                    ("state", PStr "draft")] |}.

Definition order_555 : order := order_of 555 "555" [item 9 1 50 None].

(** A partner mapped to storefront customer 5. *)
Definition partner_5 : erp_record :=
  {| rec_model := "res.partner"; rec_id := 1;
     rec_fields := [("name", PStr "Ann Lee"); ("email", PStr "ann@example.org");
                    ("x_woo_id", PStr "5")] |}.

Definition customer_5 : pydict :=
  [("name", PStr "Ann Lee"); ("email", PStr "ann@example.org");
   ("phone", PStr "555-0100"); ("woo_id", PInt 5)].

(** The same person arriving under storefront customer id 9. *)
Definition customer_9 : pydict :=
  [("name", PStr "Ann Lee"); ("email", PStr "ann@example.org");
   ("phone", PStr "555-0100"); ("woo_id", PInt 9)].

(** The service product of booking (100, 7). *)
Definition product_100_7 : erp_record :=
  {| rec_model := "product.product"; rec_id := 4;
     rec_fields := [("name", PStr "Swim class - 2024-05-01 10:00");
                    ("default_code", PStr "BOOKING_100_7");
                    ("list_price", PFloat 50);
                    ("x_woo_id", PStr "100_7")] |}.

Definition product_data_100_7 : pydict :=
  [("name", PStr "Swim class - 2024-05-01 10:00"); ("sku", PStr "BOOKING_100_7");
   ("price", PFloat 80); ("woo_id", PStr "100_7")].

(** The same product with a booking date: every field that
    [create_product] sends is set. *)
Definition product_data_100_7_dated : pydict :=
  (product_data_100_7 ++ [("booking_date", PStr "2024-05-01T10:00:00")])%list.

(** A metadata entry that gives the person count as a superscript two. *)
Definition persons_superscript : meta_entry :=
  {| meta_key := Some "Persons"; meta_value := Some (PStr (String (chr 178) "")) |}.

Definition order_superscript : order :=
  order_of 43 "43" [item 9 1 50 (Some [persons_superscript])].

(** A world in which the partner is in the store but the transport
    fails for the search call (the second call, after the login). *)
Definition world_search_fails : world :=
  {| erp_db := [partner_5]; erp_login := Some 2; erp_faults := [false; true];
     erp_calls := []; uid := PNone;
     shop_products := []; shop_faults := []; shop_calls := [];
     clock := "2024-05-02T08:00:00" |}.


(** The world of [world_with] under a transport schedule: entry [n]
    tells whether the [n]-th call to the ERP fails. *)
Definition world_failing (db : list erp_record) (faults : list bool) : world :=
  {| erp_db := db; erp_login := Some 2; erp_faults := faults; erp_calls := [];
     uid := PNone;
     shop_products := shop; shop_faults := []; shop_calls := [];
     clock := "2024-05-02T08:00:00" |}.

(** A guest checkout: the storefront reports customer id 0. *)
Definition guest : pydict :=
  [("name", PStr "Ann Lee"); ("email", PStr "ann@example.org");
   ("phone", PStr "555-0100"); ("woo_id", PInt 0)].

(** Order 555 once it has been refunded on the storefront. *)
Definition order_555_refunded : order :=
  {| ord_id := 555; ord_number := "555"; ord_status := "refunded";
     ord_customer_id := 5; ord_billing := ann;
     ord_date_created := "2024-05-01T10:00:00"; ord_total := "50.00";
     ord_line_items := Some [item 9 1 50 None] |}.

(** An order without line items. *)
Definition order_empty : order := order_of 77 "77" [].

(** A booking whose date is a text with a 'T' that is no ISO date. *)
Definition booking_tuesday : booking :=
  {| order_id := 100; order_number := "100"; product_id := 7;
     product_name := "Swim class"; quantity := 1; total := 50;
     customer := {| cust_id := 5; cust_email := "ann@example.org";
                    cust_name := "Ann Lee"; cust_phone := "555-0100" |};
     booking_date := Some (PStr "Tuesday"); persons := Some 1;
     duration := None; booking_end := None |}.

Definition entry (key : string) (value : string) : meta_entry :=
  {| meta_key := Some key; meta_value := Some (PStr value) |}.

(** A line item whose metadata gives the start before the end. *)
Definition item_from_to : line_item :=
  item 9 1 50 (Some [entry "From" "2024-06-01"; entry "To" "2024-06-02"]).

(** Two completed orders of the last hours: the first is well formed,
    the second gives its person count as a superscript two. *)
Definition order_booked : order :=
  order_of 60 "60" [item 9 1 50 (Some [entry "_booking_date" "2024-06-01"])].

Definition order_booked_badly : order :=
  order_of 61 "61"
    [item 9 1 50 (Some [entry "_booking_persons" (String (chr 178) "")])].

Definition shop_answer (status after : option string) (w : world) : option (list order) :=
  Some [order_booked; order_booked_badly].

Definition two_hours_before (hours : Z) (now : string) : string := "2024-05-02T06:00:00".

(** A world whose storefront cannot be reached. *)
Definition world_shop_down : world :=
  {| erp_db := []; erp_login := Some 2; erp_faults := []; erp_calls := [];
     uid := PNone;
     shop_products := shop; shop_faults := [true]; shop_calls := [];
     clock := "2024-05-02T08:00:00" |}.

(** A storefront that lists the well-formed order only. *)
Definition shop_answer_good (status after : option string) (w : world)
  : option (list order) :=
  Some [order_booked].

(** An order whose single line has quantity 0. *)
Definition order_zero : order := order_of 100 "100" [item 7 0 50 None].

(** An ERP product mapped to a storefront id the storefront does not have. *)
Definition product_5 : pydict :=
  [("id", PInt 4); ("name", PStr "Towel"); ("list_price", PFloat 5);
   ("x_woo_id", PStr "5")].

End Demo.


(** ** Text *)

Lemma all_chars_app (p : ascii -> bool) (a b : string) :
  all_chars p (a ++ b) = (all_chars p a && all_chars p b)%bool.
Proof.
  induction a as [|c a IH]; simpl; [reflexivity|].
  rewrite IH. now rewrite andb_assoc.
Qed.

Lemma isdigit_all (s : string) : isdigit s = true -> all_chars char_isdigit s = true.
Proof. destruct s; simpl; [discriminate | trivial]. Qed.

Lemma isdigit_app_point (a b : string) : isdigit (a ++ String "." b) = false.
Proof.
  destruct (isdigit (a ++ String "." b)) eqn:E; [|reflexivity].
  apply isdigit_all in E. rewrite all_chars_app in E. simpl in E.
  rewrite andb_false_r in E. discriminate.
Qed.

Lemma all_chars_impl (p q : ascii -> bool) (s : string) :
  (forall c, p c = true -> q c = true) ->
  all_chars p s = true -> all_chars q s = true.
Proof.
  intros H. induction s as [|c s IH]; simpl; [trivial|].
  intros E. apply andb_prop in E. destruct E as [E1 E2].
  now rewrite (H c E1), IH.
Qed.

Lemma append_empty (s : string) : s ++ "" = s.
Proof. induction s; simpl; congruence. Qed.

Lemma parse_digits_decimal (s rest : string) (acc : Z) (us : bool) :
  all_chars is_decimal s = true -> s <> "" ->
  parse_digits acc us (s ++ rest) = parse_digits (digits_value acc s) false rest.
Proof.
  revert acc us. induction s as [|c s IH]; intros acc us Hall Hne; [congruence|].
  simpl in Hall. apply andb_prop in Hall. destruct Hall as [Hc Hs].
  simpl. rewrite Hc. destruct s as [|c' s'].
  - reflexivity.
  - apply IH; [exact Hs | discriminate].
Qed.

Lemma parse_digits_all (s : string) (acc : Z) (us : bool) :
  all_chars is_decimal s = true -> s <> "" ->
  parse_digits acc us s = Some (digits_value acc s).
Proof.
  intros Hall Hne. rewrite <- (append_empty s) at 1.
  now rewrite parse_digits_decimal.
Qed.

Lemma digits_value_nonneg (s : string) (acc : Z) :
  all_chars is_decimal s = true -> 0 <= acc -> 0 <= digits_value acc s.
Proof.
  revert acc. induction s as [|c s IH]; intros acc Hall Hacc; cbn [digits_value];
    [exact Hacc|].
  cbn [all_chars] in Hall. apply andb_prop in Hall. destruct Hall as [Hc Hs].
  apply IH; [exact Hs|].
  unfold is_decimal, in_range in Hc. apply andb_prop in Hc. destruct Hc as [Hlo _].
  apply N.leb_le in Hlo. unfold digit_value. lia.
Qed.

Lemma uint_text_decimal (d : Decimal.uint) :
  all_chars is_decimal (NilEmpty.string_of_uint d) = true.
Proof. induction d; simpl; auto. Qed.

Ltac eval_digit :=
  match goal with
  | |- context [digit_value ?c] =>
      let k := eval vm_compute in (digit_value c) in
      change (digit_value c) with k
  end.

Lemma uint_text_value (d : Decimal.uint) (acc : positive) :
  digits_value (Zpos acc) (NilEmpty.string_of_uint d) = Zpos (Pos.of_uint_acc d acc).
Proof.
  revert acc.
  induction d; intros acc;
    cbn [NilEmpty.string_of_uint digits_value Pos.of_uint_acc]; [reflexivity | ..];
    eval_digit; rewrite <- IHd; f_equal; lia.
Qed.

Lemma uint_text_value0 (d : Decimal.uint) :
  digits_value 0 (NilEmpty.string_of_uint d) = Z.of_N (Pos.of_uint d).
Proof.
  induction d; cbn [NilEmpty.string_of_uint digits_value Pos.of_uint Z.of_N];
    [reflexivity | exact IHd | ..];
    eval_digit; rewrite <- uint_text_value; reflexivity.
Qed.

Lemma str_of_Z_pos (p : positive) :
  str_of_Z (Zpos p) = NilEmpty.string_of_uint (Pos.to_uint p).
Proof.
  unfold str_of_Z. simpl. unfold NilZero.string_of_uint.
  pose proof (DecimalPos.Unsigned.to_uint_nonnil p) as H.
  destruct (Pos.to_uint p); [congruence | reflexivity ..].
Qed.

(** The text of a natural number: decimal digits, at least one, that
    denote the number. *)
Lemma str_of_Z_nonneg (z : Z) :
  0 <= z ->
  all_chars is_decimal (str_of_Z z) = true /\
  str_of_Z z <> "" /\
  digits_value 0 (str_of_Z z) = z.
Proof.
  intros Hz. destruct z as [|p|p]; [repeat split; discriminate | | lia].
  rewrite str_of_Z_pos. split; [apply uint_text_decimal|]. split.
  - pose proof (DecimalPos.Unsigned.to_uint_nonnil p) as H.
    destruct (Pos.to_uint p); [congruence | discriminate ..].
  - now rewrite uint_text_value0, DecimalPos.Unsigned.of_to.
Qed.

(** The text of a negative number starts with the sign. *)
Lemma str_of_Z_neg (z : Z) : z < 0 -> isdigit (str_of_Z z) = false.
Proof. intros Hz. destruct z as [|p|p]; try lia. reflexivity. Qed.

Lemma rev_onto_twice (s a b : string) :
  rev_onto (rev_onto s a) b = rev_onto a (s ++ b).
Proof.
  revert a. induction s as [|c s IH]; intros a; simpl; [reflexivity|].
  now rewrite IH.
Qed.

Lemma rev_rev (s : string) : rev (rev s) = s.
Proof. unfold rev. rewrite rev_onto_twice. simpl. apply append_empty. Qed.

Lemma all_chars_rev_onto (p : ascii -> bool) (s a : string) :
  all_chars p (rev_onto s a) = (all_chars p s && all_chars p a)%bool.
Proof.
  revert a. induction s as [|c s IH]; intros a; simpl; [reflexivity|].
  rewrite IH. simpl. destruct (p c), (all_chars p s); reflexivity.
Qed.

Lemma lstrip_none (p : ascii -> bool) (s : string) :
  all_chars (fun c => negb (p c)) s = true -> lstrip p s = s.
Proof.
  destruct s as [|c s]; simpl; [reflexivity|]. intros H.
  apply andb_prop in H. destruct H as [H _]. now destruct (p c).
Qed.

(** Nothing is stripped from a text that holds no strippable character. *)
Lemma strip_by_none (p : ascii -> bool) (s : string) :
  all_chars (fun c => negb (p c)) s = true -> strip_by p s = s.
Proof.
  intros H. unfold strip_by. rewrite (lstrip_none p s H).
  rewrite lstrip_none; [apply rev_rev|].
  unfold rev. rewrite all_chars_rev_onto, H. reflexivity.
Qed.

Lemma decimal_not_space (c : ascii) : is_decimal c = true -> negb (int_space c) = true.
Proof.
  destruct c as [[] [] [] [] [] [] [] []]; intros H; try discriminate H; reflexivity.
Qed.

(** [int(s)] on a text without white space that starts with a digit
    comes down to reading the digits. *)
Lemma int_of_string_digit_head (c : ascii) (s : string) :
  is_decimal c = true ->
  all_chars (fun c => negb (int_space c)) s = true ->
  int_of_string (String c s) = parse_digits 0 false (String c s).
Proof.
  intros Hc Hs. unfold int_of_string. rewrite strip_by_none.
  - destruct c as [[] [] [] [] [] [] [] []]; try discriminate Hc; reflexivity.
  - simpl. now rewrite (decimal_not_space c Hc).
Qed.

(** [int(s)] on a text of decimal digits is the number they denote. *)
Lemma int_of_string_decimal (s : string) :
  all_chars is_decimal s = true -> s <> "" ->
  int_of_string s = Some (digits_value 0 s).
Proof.
  intros Hall Hne. destruct s as [|c s]; [congruence|].
  pose proof Hall as Hall'. simpl in Hall'. apply andb_prop in Hall'.
  destruct Hall' as [Hc Hs].
  rewrite int_of_string_digit_head; auto.
  - now apply parse_digits_all.
  - apply (all_chars_impl is_decimal); [apply decimal_not_space | exact Hs].
Qed.


Lemma print_float_not_digits (q : Q) : isdigit (Sample.print_float q) = false.
Proof. unfold Sample.print_float. apply isdigit_app_point. Qed.

(** The runtime used for concrete runs. *)
#[local] Instance sample_runtime : Runtime := {|
  float_str := Sample.print_float;
  float_str_not_digits := print_float_not_digits;
  iso_to_minutes := Sample.cut_to_minutes;
  float_quotient := Sample.quotient
|}.

(** ** The world and computations *)

Lemma set_uid_same (w : world) : set_uid w (uid w) = w.
Proof. destruct w; reflexivity. Qed.

(** A handler that returns a value makes a block that never raises. *)
Lemma try_except_returns {A} (body : M A) (a0 : A) (w : world) :
  exists a w', try_except body (fun _ => ret a0) w = (Ok a, w').
Proof.
  unfold try_except, ret. destruct (body w) as [[a|e] w']; eauto.
Qed.

Lemma try_except_nil {A} (body : M (list A)) (w : world) :
  (forall ds w', body w = (Ok ds, w') -> ds = []) ->
  fst (try_except body (fun _ => ret []) w) = Ok [].
Proof.
  intros H. unfold try_except, ret.
  destruct (body w) as [[ds|e] w'] eqn:E; simpl; [|reflexivity].
  now rewrite (H ds w' eq_refl).
Qed.

Lemma online_after (w : world) (u : Z) cs db : online w u -> online (after w u cs db) u.
Proof. intros (Hf & Hl & _). repeat split; simpl; auto. Qed.

Lemma after_after (w : world) (u : Z) cs db cs' db' :
  after (after w u cs db) u cs' db' = after w u (cs ++ cs') db'.
Proof. unfold after, called. simpl. now rewrite app_assoc. Qed.

Lemma after_db w u cs db : erp_db (after w u cs db) = db.
Proof. reflexivity. Qed.

Lemma after_calls w u cs db : erp_calls (after w u cs db) = (erp_calls w ++ cs)%list.
Proof. reflexivity. Qed.

Section Remote.
Context {RT : Runtime}.

(** *** The client's primitives, in any world *)

Lemma connect_eq (w : world) :
  Erp.connect w = (if faulty w then Raise ConnectionError else Ok tt, consume w).
Proof.
  unfold Erp.connect, faulty, consume.
  destruct (erp_faults w) as [|[|] fs]; reflexivity.
Qed.

Lemma authenticate_eq (w : world) :
  OdooClient.authenticate w =
  if faulty w then (Ok false, consume w)
  else (Ok (truthy (login_value w)), set_uid (consume w) (login_value w)).
Proof.
  unfold OdooClient.authenticate, Erp.common_authenticate, try_except, bind.
  rewrite connect_eq. destruct (faulty w); simpl; [reflexivity|].
  unfold login_value, consume.
  destruct (erp_faults w); simpl; destruct (erp_login w) as [u|]; simpl;
    try destruct (u =? 0); reflexivity.
Qed.

Lemma ensure_session_eq (w : world) :
  OdooClient.ensure_session w =
  (Ok tt, if truthy (uid w) then w
          else if faulty w then consume w
          else set_uid (consume w) (login_value w)).
Proof.
  unfold OdooClient.ensure_session, bind, read_world.
  destruct (truthy (uid w)); simpl; [reflexivity|].
  rewrite authenticate_eq. destruct (faulty w); reflexivity.
Qed.

Lemma execute_kw_eq {A} (u : pyval) (c : erp_call) (serve : M A) (w : world) :
  Erp.execute_kw u c serve w =
  if (Erp.is_none u || negb (Erp.marshals c))%bool
  then (Raise (Erp.refusal u c), noted w c)
  else if faulty (noted w c) then (Raise ConnectionError, consume (noted w c))
  else if Erp.granted u (consume (noted w c)) then serve (consume (noted w c))
  else (Raise Fault, consume (noted w c)).
Proof.
  unfold Erp.execute_kw, bind, write_world, read_world, raise, ret.
  fold (called w [c]). fold (noted w c).
  destruct (Erp.is_none u || negb (Erp.marshals c))%bool; simpl; [reflexivity|].
  rewrite connect_eq. destruct (faulty (noted w c)); simpl; [reflexivity|].
  destruct (Erp.granted u (consume (noted w c))); reflexivity.
Qed.

(** What the marshaller accepts, call by call. *)
Lemma first_refused_encodable (vs : list pyval) :
  match Erp.first_refused vs with None => true | Some _ => false end
  = forallb Erp.encodable vs.
Proof.
  induction vs as [|v vs IH]; cbn [Erp.first_refused forallb]; [reflexivity|].
  unfold Erp.encodable at 1. destruct (Erp.refused v); [reflexivity | exact IH].
Qed.

Lemma forallb_values (d : pydict) :
  forallb Erp.encodable (map snd d) = Erp.sendable d.
Proof. unfold Erp.sendable. induction d as [|kv d IH]; simpl; congruence. Qed.

Lemma marshals_create model data :
  Erp.marshals (CallCreate model data) = Erp.sendable data.
Proof.
  unfold Erp.marshals. cbn [Erp.marshal_error].
  now rewrite first_refused_encodable, forallb_values.
Qed.

Lemma marshals_write model ids data :
  Erp.marshals (CallWrite model ids data)
  = (forallb (fun v => negb (Erp.is_none v)) ids && Erp.sendable data)%bool.
Proof.
  unfold Erp.marshals. cbn [Erp.marshal_error].
  assert (E : existsb Erp.is_none ids = negb (forallb (fun v => negb (Erp.is_none v)) ids)).
  { induction ids as [|v ids IH]; simpl; [reflexivity|].
    rewrite IH. now destruct (Erp.is_none v). }
  rewrite E. destruct (forallb _ ids); cbn [negb andb]; [|reflexivity].
  now rewrite first_refused_encodable, forallb_values.
Qed.

Lemma marshals_search model domain limit :
  Erp.marshals (CallSearch model domain limit)
  = (clean domain
     && match limit with Some n => Erp.xmlrpc_int n | None => true end)%bool.
Proof.
  unfold Erp.marshals, clean. cbn [Erp.marshal_error].
  assert (E : forallb (fun c => Erp.encodable (snd c)) domain
              = forallb Erp.encodable (map snd domain)).
  { induction domain as [|c domain IH]; simpl; congruence. }
  rewrite E, <- first_refused_encodable.
  destruct (Erp.first_refused (map snd domain)); [reflexivity|].
  destruct limit as [n|]; [|reflexivity].
  cbn [Erp.refused andb]. now destruct (Erp.xmlrpc_int n).
Qed.

Lemma marshals_search_one model domain :
  Erp.marshals (CallSearch model domain (Some 1)) = clean domain.
Proof. rewrite marshals_search. cbn. now rewrite andb_true_r. Qed.

Lemma no_none_sendable (d : pydict) : Erp.no_none d = false -> Erp.sendable d = false.
Proof.
  unfold Erp.no_none, Erp.sendable. induction d as [|kv d IH]; simpl; [discriminate|].
  destruct (snd kv); simpl; auto.
  intros H. rewrite (IH H). apply andb_false_r.
Qed.

Lemma serve_search_world model domain limit w :
  snd (Erp.serve_search model domain limit w) = w.
Proof.
  unfold Erp.serve_search, bind, read_world, ret, raise.
  destruct limit as [n|]; simpl; [destruct (n <? 0)|]; reflexivity.
Qed.

Lemma execute_kw_faulty {A} (u : pyval) (c : erp_call) (serve : M A) (w : world) :
  faulty w = true -> exists e w', Erp.execute_kw u c serve w = (Raise e, w').
Proof.
  intros H. rewrite execute_kw_eq.
  destruct (Erp.is_none u || negb (Erp.marshals c))%bool; [eauto|].
  replace (faulty (noted w c)) with true; eauto.
Qed.

Lemma faulty_after_session (w : world) (n : nat) :
  nth_error (erp_faults w) (search_slot w + n) = Some true ->
  nth_error (erp_faults (snd (OdooClient.ensure_session w))) n = Some true.
Proof.
  rewrite ensure_session_eq. unfold search_slot, faulty, consume. simpl.
  destruct (truthy (uid w)); simpl; [trivial|].
  destruct (erp_faults w) as [|[|] fs]; simpl; trivial.
  destruct n; discriminate.
Qed.

Lemma nth_faulty (w : world) :
  nth_error (erp_faults w) 0 = Some true -> faulty w = true.
Proof. unfold faulty. destruct (erp_faults w) as [|[|] ?]; simpl; congruence. Qed.

Lemma search_records_search_fault model domain fields limit w :
  nth_error (erp_faults w) (search_slot w) = Some true ->
  fst (OdooClient.search_records model domain fields limit w) = Ok [].
Proof.
  intros H. apply try_except_nil. intros ds w'.
  rewrite <- (Nat.add_0_r (search_slot w)) in H. apply faulty_after_session in H.
  apply nth_faulty in H.
  unfold bind at 1. destruct (OdooClient.ensure_session w) as [[[]|e] w1]; [|discriminate].
  simpl in H. unfold bind at 1, read_world at 1. unfold bind at 1.
  destruct (execute_kw_faulty (uid w1) (CallSearch model domain (OdooClient.limit_arg limit))
     (Erp.serve_search model domain (OdooClient.limit_arg limit)) w1 H) as (e & w2 & ->).
  discriminate.
Qed.

Lemma search_records_read_fault model domain fields limit w :
  nth_error (erp_faults w) (S (search_slot w)) = Some true ->
  fst (OdooClient.search_records model domain fields limit w) = Ok [].
Proof.
  intros H. apply try_except_nil. intros ds w'.
  rewrite <- Nat.add_1_r in H. apply faulty_after_session in H.
  unfold bind at 1. destruct (OdooClient.ensure_session w) as [[[]|e] w1]; [|discriminate].
  simpl in H. unfold bind at 1, read_world at 1. unfold bind at 1.
  rewrite execute_kw_eq.
  set (c := CallSearch model domain (OdooClient.limit_arg limit)).
  destruct (Erp.is_none (uid w1) || negb (Erp.marshals c))%bool; [discriminate|].
  destruct (faulty (noted w1 c)) eqn:Ef; [discriminate|].
  destruct (Erp.granted (uid w1) (consume (noted w1 c))); [|discriminate].
  pose proof (serve_search_world model domain (OdooClient.limit_arg limit)
                (consume (noted w1 c))) as Hw.
  destruct (Erp.serve_search model domain (OdooClient.limit_arg limit) (consume (noted w1 c)))
    as [[ids|e] w2]; [|discriminate].
  simpl in Hw. subst w2.
  destruct ids as [|i ids]; [unfold ret; congruence|].
  unfold bind, read_world.
  assert (Hf : faulty (consume (noted w1 c)) = true).
  { apply nth_faulty. unfold consume, noted, called. simpl.
    destruct (erp_faults w1) as [|b fs]; simpl in *; [discriminate|exact H]. }
  match goal with |- context [Erp.execute_kw ?u ?c ?s ?w] =>
    destruct (execute_kw_faulty u c s w Hf) as (e & w3 & ->) end.
  discriminate.
Qed.

Lemma search_records_no_match model domain fields limit w :
  filter (Erp.matches model domain) (erp_db w) = [] ->
  fst (OdooClient.search_records model domain fields limit w) = Ok [].
Proof.
  intros H. apply try_except_nil. intros ds w'.
  unfold bind at 1. rewrite ensure_session_eq.
  set (w1 := if truthy (uid w) then _ else _).
  assert (Hdb : erp_db w1 = erp_db w).
  { subst w1. unfold consume. destruct (truthy (uid w)); [reflexivity|].
    destruct (faulty w); destruct (erp_faults w); reflexivity. }
  unfold bind at 1, read_world at 1. unfold bind at 1.
  rewrite execute_kw_eq.
  set (c := CallSearch model domain (OdooClient.limit_arg limit)).
  destruct (Erp.is_none (uid w1) || negb (Erp.marshals c))%bool; [discriminate|].
  destruct (faulty (noted w1 c)) eqn:Ef; [discriminate|].
  destruct (Erp.granted (uid w1) (consume (noted w1 c))); [|discriminate].
  unfold Erp.serve_search, bind at 1, read_world at 1.
  replace (erp_db (consume (noted w1 c))) with (erp_db w).
  2:{ rewrite <- Hdb. unfold consume, noted, called. simpl.
      destruct (erp_faults w1); reflexivity. }
  rewrite H. simpl.
  destruct (OdooClient.limit_arg limit) as [n|]; [destruct (n <? 0)|]; unfold ret, raise;
    try discriminate; rewrite ?firstn_nil; congruence.
Qed.

End Remote.

(** *** The client's primitives over a reachable ERP *)

Section Online.
Context {RT : Runtime}.

Lemma ensure_session_online (w : world) (u : Z) :
  online w u -> OdooClient.ensure_session w = (Ok tt, after w u [] (erp_db w)).
Proof.
  intros (Hf & Hl & Hu). rewrite ensure_session_eq. f_equal.
  unfold faulty, consume, login_value, after, called. rewrite Hf, Hl.
  destruct w; simpl in *. rewrite app_nil_r.
  destruct Hu as [-> | ->]; simpl; [destruct (u =? 0)|]; reflexivity.
Qed.

Lemma execute_kw_online {A} (w : world) (u : Z) cs db (c : erp_call) (serve : M A) :
  online w u -> Erp.marshals c = true ->
  Erp.execute_kw (PInt u) c serve (after w u cs db) = serve (after w u (cs ++ [c]) db).
Proof.
  intros (Hf & Hl & Hu) Hm. rewrite execute_kw_eq. rewrite Hm.
  assert (E : noted (after w u cs db) c = after w u (cs ++ [c]) db).
  { unfold after, noted, called. simpl. now rewrite <- app_assoc. }
  rewrite E.
  assert (Hf' : erp_faults (after w u (cs ++ [c]) db) = []) by exact Hf.
  unfold faulty, consume, Erp.granted. rewrite Hf'.
  change (erp_login (after w u (cs ++ [c]) db)) with (erp_login w). rewrite Hl.
  simpl. now rewrite Z.eqb_refl.
Qed.

Lemma bind_eq {A B} (m : M A) (k : A -> M B) (w : world) :
  bind m k w = match m w with (Ok a, w') => k a w' | (Raise e, w') => (Raise e, w') end.
Proof. reflexivity. Qed.

Lemma try_eq {A} (m : M A) (h : exn -> M A) (w : world) :
  try_except m h w = match m w with (Ok a, w') => (Ok a, w') | (Raise e, w') => h e w' end.
Proof. reflexivity. Qed.

Lemma serve_search_one (w : world) model domain :
  Erp.serve_search model domain (Some 1) w = (Ok (lookup_ids (erp_db w) model domain), w).
Proof. reflexivity. Qed.

Lemma serve_read_eq (w : world) model ids fields :
  Erp.serve_read model ids fields w =
  match Erp.read_all (erp_db w) model ids fields with
  | Some ds => (Ok ds, w)
  | None => (Raise Fault, w)
  end.
Proof.
  unfold Erp.serve_read. rewrite bind_eq. unfold read_world.
  destruct (Erp.read_all (erp_db w) model ids fields); reflexivity.
Qed.

Lemma search_one_online (w : world) (u : Z) model domain :
  online w u -> clean domain = true ->
  OdooClient.search_records model domain None (Some 1) w =
  (Ok (lookup_result (erp_db w) model domain),
   after w u (lookup_calls (erp_db w) model domain) (erp_db w)).
Proof.
  intros Hon Hc. unfold OdooClient.search_records.
  rewrite try_eq, bind_eq, (ensure_session_online w u Hon).
  cbv iota beta. rewrite bind_eq. unfold read_world at 1. cbv iota beta.
  rewrite bind_eq.
  change (uid (after w u [] (erp_db w))) with (PInt u).
  simpl OdooClient.limit_arg. simpl OdooClient.fields_arg.
  rewrite execute_kw_online by (auto; now rewrite marshals_search_one).
  rewrite serve_search_one, after_db.
  unfold lookup_result, lookup_calls.
  destruct (lookup_ids (erp_db w) model domain) as [|i ids] eqn:E.
  - reflexivity.
  - rewrite bind_eq. unfold read_world at 1. cbv iota beta.
    change (uid (after w u ([] ++ [CallSearch model domain (Some 1)]) (erp_db w))) with (PInt u).
    rewrite execute_kw_online by auto.
    rewrite serve_read_eq, after_db. cbn [OdooClient.fields_arg].
    destruct (Erp.read_all (erp_db w) model (i :: ids) None); reflexivity.
Qed.

Lemma noted_after (w : world) (u : Z) cs db c :
  noted (after w u cs db) c = after w u (cs ++ [c]) db.
Proof. unfold after, noted, called. simpl. now rewrite <- app_assoc. Qed.

Lemma create_record_online (w : world) (u : Z) model data :
  online w u ->
  OdooClient.create_record model data w =
  if Erp.sendable data
  then (Ok (PInt (Erp.fresh_id (erp_db w))),
        after w u [CallCreate model data] (erp_db w ++ [new_record (erp_db w) model data]))
  else (Ok PNone, after w u [CallCreate model data] (erp_db w)).
Proof.
  intros Hon. unfold OdooClient.create_record.
  rewrite try_eq, bind_eq, (ensure_session_online w u Hon).
  cbv iota beta. rewrite bind_eq. unfold read_world at 1. cbv iota beta.
  rewrite bind_eq.
  change (uid (after w u [] (erp_db w))) with (PInt u).
  destruct (Erp.sendable data) eqn:E.
  - rewrite execute_kw_online by (auto; now rewrite marshals_create). reflexivity.
  - rewrite execute_kw_eq, marshals_create, E. cbn [Erp.is_none orb negb].
    cbv iota beta. rewrite noted_after. reflexivity.
Qed.

Lemma update_record_online (w : world) (u : Z) model record_id data :
  online w u ->
  OdooClient.update_record model record_id data w =
  if (Erp.marshals (CallWrite model [record_id] data)
      && Erp.known_id (erp_db w) model record_id)%bool
  then (Ok true, after w u [CallWrite model [record_id] data]
                   (written (erp_db w) model [record_id] data))
  else (Ok false, after w u [CallWrite model [record_id] data] (erp_db w)).
Proof.
  intros Hon. unfold OdooClient.update_record.
  rewrite try_eq, bind_eq, (ensure_session_online w u Hon).
  cbv iota beta. rewrite bind_eq. unfold read_world at 1. cbv iota beta.
  change (uid (after w u [] (erp_db w))) with (PInt u).
  destruct (Erp.marshals (CallWrite model [record_id] data)) eqn:E.
  - rewrite execute_kw_online by auto.
    unfold Erp.serve_write. rewrite bind_eq. unfold read_world at 1. cbv iota beta.
    rewrite after_db. cbn [forallb]. rewrite andb_true_r. cbn [andb].
    destruct (Erp.known_id (erp_db w) model record_id); reflexivity.
  - rewrite execute_kw_eq. rewrite E. cbn [Erp.is_none negb orb andb].
    rewrite noted_after. reflexivity.
Qed.

Lemma get_record_online (w : world) (u : Z) model external_id :
  online w u ->
  OdooClient.get_record_by_external_id model external_id w =
  (Ok (hd_error (lookup_result (erp_db w) model [("x_woo_id", OpEq, PStr external_id)])),
   after w u (lookup_calls (erp_db w) model [("x_woo_id", OpEq, PStr external_id)]) (erp_db w)).
Proof.
  intros Hon. unfold OdooClient.get_record_by_external_id.
  rewrite bind_eq, (search_one_online w u) by auto.
  destruct (lookup_result _ _ _); reflexivity.
Qed.


Lemma truthy_get (d : pydict) (k : string) :
  truthy (get d k) = true -> getitem d k = ret (get d k).
Proof.
  unfold get, getitem. destruct (dict_get d k); [reflexivity|discriminate].
Qed.

Lemma lookup_external_online (w : world) (u : Z) model data :
  online w u -> truthy (get data "woo_id") = true ->
  OdooClient.lookup_external model data w =
  (Ok (OdooClient.present (hd_error (lookup_result (erp_db w) model (by_external_id data)))),
   after w u (lookup_calls (erp_db w) model (by_external_id data)) (erp_db w)).
Proof.
  intros Hon Ht. unfold OdooClient.lookup_external. rewrite Ht.
  rewrite bind_eq, (truthy_get _ _ Ht). unfold ret at 1. cbv iota beta.
  rewrite bind_eq, (get_record_online w u) by auto. reflexivity.
Qed.

End Online.

(** *** Relations that every step of a computation keeps *)

Section Keeps.
Context (R : world -> world -> Prop) {HR : PreOrder R}.

Lemma keeps_ret {A} (a : A) : keeps R (ret a).
Proof. intros w. reflexivity. Qed.

Lemma keeps_raise {A} (e : exn) : keeps R (@raise A e).
Proof. intros w. reflexivity. Qed.

Lemma keeps_lift {A} (r : result A) : keeps R (lift r).
Proof. intros w. reflexivity. Qed.

Lemma keeps_read_world : keeps R read_world.
Proof. intros w. reflexivity. Qed.

Lemma keeps_getitem (d : pydict) (k : string) : keeps R (getitem d k).
Proof. unfold getitem. destruct (dict_get d k); [apply keeps_ret | apply keeps_raise]. Qed.

Lemma keeps_bind {A B} (m : M A) (k : A -> M B) :
  keeps R m -> (forall a, keeps R (k a)) -> keeps R (bind m k).
Proof.
  intros Hm Hk w. unfold bind. specialize (Hm w).
  destruct (m w) as [[a|e] w1]; simpl in *; [|exact Hm].
  etransitivity; [exact Hm | apply Hk].
Qed.

Lemma keeps_try {A} (m : M A) (h : exn -> M A) :
  keeps R m -> (forall e, keeps R (h e)) -> keeps R (try_except m h).
Proof.
  intros Hm Hh w. unfold try_except. specialize (Hm w).
  destruct (m w) as [[a|e] w1]; simpl in *; [exact Hm|].
  etransitivity; [exact Hm | apply Hh].
Qed.

Lemma keeps_write_world (f : world -> world) :
  (forall w, R w (f w)) -> keeps R (write_world f).
Proof. intros H w. apply H. Qed.

Lemma keeps_for_each {A S} (xs : list A) (body : A -> S -> M S) (s : S) :
  (forall x s, keeps R (body x s)) -> keeps R (for_each xs body s).
Proof.
  intros H. revert s. induction xs as [|x xs IH]; intros s; simpl.
  - apply keeps_ret.
  - apply keeps_bind; [apply H | intros s'; apply IH].
Qed.

End Keeps.

Lemma only_adds_refl w : only_adds w w.
Proof.
  split; [exists []|exists []]; rewrite ?app_nil_r; auto.
Qed.

Lemma only_adds_trans a b c : only_adds a b -> only_adds b c -> only_adds a c.
Proof.
  intros [[n1 H1] (c1 & H2 & H3)] [[n2 H4] (c2 & H5 & H6)]. split.
  - exists (n1 ++ n2)%list. now rewrite H4, H1, app_assoc.
  - exists (c1 ++ c2)%list. rewrite H5, H2, app_assoc, forallb_app, H3, H6. auto.
Qed.

#[local] Instance only_adds_preorder : PreOrder only_adds.
Proof. split; [exact only_adds_refl | exact only_adds_trans]. Qed.

Ltac keeps_apply l :=
  apply l; try (match goal with |- PreOrder _ => typeclasses eauto end).

Ltac keeps_step :=
  match goal with
  | |- keeps _ (ret _) => keeps_apply @keeps_ret
  | |- keeps _ (raise _) => keeps_apply @keeps_raise
  | |- keeps _ (lift _) => keeps_apply @keeps_lift
  | |- keeps _ read_world => keeps_apply @keeps_read_world
  | |- keeps _ (getitem _ _) => keeps_apply @keeps_getitem
  | |- keeps _ (bind _ _) => keeps_apply @keeps_bind; [ | intros ? ]
  | |- keeps _ (try_except _ _) => keeps_apply @keeps_try; [ | intros ? ]
  | |- keeps _ (for_each _ _ _) => keeps_apply @keeps_for_each; intros ? ?
  | |- keeps _ (match ?x with _ => _ end) => destruct x
  | |- keeps _ (if ?x then _ else _) => destruct x
  end.

Section Quiet.
Context {RT : Runtime}.

Local Abbreviation quiet := (keeps only_adds).

Lemma quiet_connect : quiet Erp.connect.
Proof.
  intros w. unfold Erp.connect.
  destruct (erp_faults w) as [|[|] fs]; simpl; try apply only_adds_refl;
    (split; [exists []|exists []]; simpl; rewrite ?app_nil_r; auto).
Qed.

Lemma quiet_set_uid u : quiet (write_world (fun w => set_uid w u)).
Proof.
  intros w. split; [exists []|exists []]; simpl; rewrite ?app_nil_r; auto.
Qed.

Lemma quiet_authenticate : quiet OdooClient.authenticate.
Proof.
  unfold OdooClient.authenticate, Erp.common_authenticate.
  repeat keeps_step; auto using quiet_connect, quiet_set_uid.
Qed.

Lemma quiet_ensure_session : quiet OdooClient.ensure_session.
Proof.
  unfold OdooClient.ensure_session.
  repeat keeps_step; auto using quiet_authenticate.
Qed.

Lemma quiet_execute_kw {A} u c (serve : M A) :
  is_write c = false -> quiet serve -> quiet (Erp.execute_kw u c serve).
Proof.
  intros Hc Hs. unfold Erp.execute_kw.
  repeat keeps_step; auto using quiet_connect.
  keeps_apply @keeps_write_world. intros w. split; [exists []|exists [c]]; simpl;
    rewrite ?app_nil_r, ?Hc; auto.
Qed.

Lemma quiet_serve_create model data : quiet (Erp.serve_create model data).
Proof.
  unfold Erp.serve_create. repeat keeps_step.
  keeps_apply @keeps_write_world. intros w. split; [eexists; reflexivity|exists []]; simpl;
    rewrite ?app_nil_r; auto.
Qed.

Lemma quiet_serve_search model domain limit : quiet (Erp.serve_search model domain limit).
Proof. unfold Erp.serve_search. repeat keeps_step. Qed.

Lemma quiet_serve_read model ids fields : quiet (Erp.serve_read model ids fields).
Proof. unfold Erp.serve_read. repeat keeps_step. Qed.

Lemma quiet_search_records model domain fields limit :
  quiet (OdooClient.search_records model domain fields limit).
Proof.
  unfold OdooClient.search_records.
  repeat keeps_step;
    auto using quiet_ensure_session, quiet_execute_kw, quiet_serve_search, quiet_serve_read.
Qed.

Lemma quiet_create_record model data : quiet (OdooClient.create_record model data).
Proof.
  unfold OdooClient.create_record.
  repeat keeps_step; auto using quiet_ensure_session, quiet_execute_kw, quiet_serve_create.
Qed.

Lemma quiet_lookup_external model data : quiet (OdooClient.lookup_external model data).
Proof.
  unfold OdooClient.lookup_external, OdooClient.get_record_by_external_id.
  repeat keeps_step; auto using quiet_search_records.
Qed.

Lemma quiet_get_or_create_product product_data :
  quiet (OdooClient.get_or_create_product product_data).
Proof.
  unfold OdooClient.get_or_create_product, OdooClient.create_product.
  repeat keeps_step; auto using quiet_lookup_external, quiet_create_record.
Qed.

End Quiet.

(** *** The upserts over a reachable ERP *)

Section Upserts.
Context {RT : Runtime}.

Lemma matches_model model domain r :
  Erp.matches model domain r = true -> rec_model r = model.
Proof.
  unfold Erp.matches. intros H. apply andb_prop in H. destruct H as [H _].
  now apply String.eqb_eq.
Qed.

Lemma find_record_in db model r :
  In r db -> rec_model r = model ->
  exists r', Erp.find_record db model (rec_id r) = Some r' /\ rec_id r' = rec_id r.
Proof.
  intros Hin Hm. unfold Erp.find_record.
  destruct (find _ db) as [r'|] eqn:E.
  - exists r'. split; [reflexivity|]. apply find_some in E. destruct E as [_ E].
    apply andb_prop in E. destruct E as [_ E]. now apply Z.eqb_eq.
  - exfalso. apply (find_none _ _ E) in Hin. simpl in Hin.
    rewrite Hm, String.eqb_refl, Z.eqb_refl in Hin. discriminate.
Qed.

Lemma first_match_some db model domain r :
  In r db -> Erp.matches model domain r = true ->
  exists r0, first_match db model domain = Some r0.
Proof.
  intros Hin Hm. unfold first_match.
  destruct (filter (Erp.matches model domain) db) as [|r0 rest] eqn:E; [|simpl; eauto].
  assert (In r (filter (Erp.matches model domain) db)) by (apply filter_In; auto).
  rewrite E in H. destruct H.
Qed.

Lemma first_match_in db model domain r0 :
  first_match db model domain = Some r0 ->
  In r0 db /\ Erp.matches model domain r0 = true.
Proof.
  unfold first_match. intros H.
  destruct (filter (Erp.matches model domain) db) as [|r rest] eqn:E; [discriminate|].
  injection H as ->. apply filter_In. rewrite E. now left.
Qed.

Lemma first_match_none db model domain :
  first_match db model domain = None ->
  lookup_result db model domain = [] /\
  lookup_calls db model domain = [CallSearch model domain (Some 1)].
Proof.
  unfold first_match, lookup_result, lookup_calls, lookup_ids. intros H.
  destruct (filter (Erp.matches model domain) db); [split; reflexivity | discriminate].
Qed.

Lemma lookup_first_match db model domain r0 :
  first_match db model domain = Some r0 ->
  exists fs,
    lookup_result db model domain = [("id", PInt (rec_id r0)) :: fs] /\
    lookup_calls db model domain =
      [CallSearch model domain (Some 1); CallRead model [rec_id r0] None].
Proof.
  intros H. destruct (first_match_in _ _ _ _ H) as [Hin Hm].
  unfold first_match in H. unfold lookup_result, lookup_calls, lookup_ids.
  destruct (filter (Erp.matches model domain) db) as [|r rest]; [discriminate|].
  injection H as ->. simpl.
  destruct (find_record_in db model r0 Hin (matches_model _ _ _ Hm)) as (r' & -> & Hid).
  unfold Erp.read_one. rewrite Hid. eauto.
Qed.

Lemma get_or_create_product_found (w : world) (u : Z) product_data r0 :
  online w u -> truthy (get product_data "woo_id") = true ->
  first_match (erp_db w) "product.product" (by_external_id product_data) = Some r0 ->
  OdooClient.get_or_create_product product_data w =
  (Ok (PInt (rec_id r0)),
   after w u [CallSearch "product.product" (by_external_id product_data) (Some 1);
              CallRead "product.product" [rec_id r0] None] (erp_db w)).
Proof.
  intros Hon Ht Hf. unfold OdooClient.get_or_create_product.
  rewrite bind_eq, (lookup_external_online w u) by auto.
  destruct (lookup_first_match _ _ _ _ Hf) as (fs & -> & ->). reflexivity.
Qed.

Lemma get_or_create_customer_found (w : world) (u : Z) customer_data r0 :
  online w u -> truthy (get customer_data "woo_id") = true ->
  first_match (erp_db w) "res.partner" (by_external_id customer_data) = Some r0 ->
  OdooClient.get_or_create_customer customer_data w =
  (Ok (PInt (rec_id r0)),
   after w u [CallSearch "res.partner" (by_external_id customer_data) (Some 1);
              CallRead "res.partner" [rec_id r0] None] (erp_db w)).
Proof.
  intros Hon Ht Hf. unfold OdooClient.get_or_create_customer.
  rewrite bind_eq, (lookup_external_online w u) by auto.
  destruct (lookup_first_match _ _ _ _ Hf) as (fs & -> & ->). reflexivity.
Qed.

End Upserts.

(** C7.  The product upsert never updates.  In any world it makes no
    [write] call and leaves every record of the store as it was
    (records can only be added).  When the ERP is reachable, the
    incoming product carries an external id and a product with that
    external id is in the store, it returns the id of the first such
    record, makes a search and a read and nothing else (no [create]),
    and the store is unchanged. *)
Theorem product_upsert_never_updates {RT : Runtime} (product_data : pydict) (w : world) :
  only_adds w (snd (OdooClient.get_or_create_product product_data w)) /\
  (forall u r,
     online w u ->
     truthy (get product_data "woo_id") = true ->
     In r (erp_db w) ->
     Erp.matches "product.product" (by_external_id product_data) r = true ->
     exists r0,
       first_match (erp_db w) "product.product" (by_external_id product_data) = Some r0 /\
       OdooClient.get_or_create_product product_data w =
       (Ok (PInt (rec_id r0)),
        after w u [CallSearch "product.product" (by_external_id product_data) (Some 1);
                   CallRead "product.product" [rec_id r0] None] (erp_db w))).
Proof.
  split.
  - apply quiet_get_or_create_product.
  - intros u r Hon Ht Hin Hm.
    destruct (first_match_some _ _ _ _ Hin Hm) as [r0 H0].
    exists r0. split; [exact H0|]. now apply get_or_create_product_found.
Qed.

(** C3.  Customer upsert on a customer that is already mapped: when
    the ERP is reachable, the payload carries an external id and a
    partner with that external id is in the store, the upsert returns
    the id of the first such partner, makes a search and a read and
    nothing else (no [create], no [write]) and leaves the store
    unchanged; run again on the same payload it returns the same id
    and the store is still the same. *)
Theorem customer_upsert_idempotent {RT : Runtime}
        (customer_data : pydict) (w : world) (u : Z) (r : erp_record) :
  online w u ->
  truthy (get customer_data "woo_id") = true ->
  In r (erp_db w) ->
  Erp.matches "res.partner" (by_external_id customer_data) r = true ->
  exists r0,
    first_match (erp_db w) "res.partner" (by_external_id customer_data) = Some r0 /\
    let calls := [CallSearch "res.partner" (by_external_id customer_data) (Some 1);
                  CallRead "res.partner" [rec_id r0] None] in
    let w1 := after w u calls (erp_db w) in
    OdooClient.get_or_create_customer customer_data w = (Ok (PInt (rec_id r0)), w1) /\
    OdooClient.get_or_create_customer customer_data w1 =
      (Ok (PInt (rec_id r0)), after w u (calls ++ calls) (erp_db w)).
Proof.
  intros Hon Ht Hin Hm.
  destruct (first_match_some _ _ _ _ Hin Hm) as [r0 H0].
  exists r0. split; [exact H0|]. cbv zeta. split.
  - now apply get_or_create_customer_found.
  - rewrite (get_or_create_customer_found _ u _ r0); auto using online_after.
    now rewrite after_after.
Qed.

(** *** Orders that already have a sale order *)

Section Orders.
Context {RT : Runtime}.

Lemma dict_get_set_same (d : pydict) (k : string) (v : pyval) :
  dict_get (dict_set d k v) k = Some v.
Proof.
  induction d as [|[k' v'] d IH]; simpl.
  - now rewrite String.eqb_refl.
  - destruct (String.eqb k k') eqn:E; simpl; rewrite E; [reflexivity | exact IH].
Qed.

Lemma known_first_match db model domain r0 :
  first_match db model domain = Some r0 ->
  Erp.known_id db model (PInt (rec_id r0)) = true.
Proof.
  intros H. destruct (first_match_in _ _ _ _ H) as [Hin Hm].
  unfold Erp.known_id.
  destruct (find_record_in db model r0 Hin (matches_model _ _ _ Hm)) as (r' & -> & _).
  reflexivity.
Qed.

Lemma process_completed_existing (o : order) (w : world) (u : Z) (r0 : erp_record) :
  online w u ->
  ord_status o = "completed" ->
  first_match (erp_db w) "sale.order" (by_order_id o) = Some r0 ->
  let data := [("note", PStr (update_note w o)); ("state", PStr "sale")] in
  SyncService.process_woo_order o w =
  (Ok true,
   after w u [CallSearch "sale.order" (by_order_id o) (Some 1);
              CallRead "sale.order" [rec_id r0] None;
              CallWrite "sale.order" [PInt (rec_id r0)] data]
     (written (erp_db w) "sale.order" [PInt (rec_id r0)] data)).
Proof.
  intros Hon Hs Hf data. unfold SyncService.process_woo_order.
  rewrite try_eq, bind_eq. fold (by_order_id o).
  rewrite (search_one_online w u) by auto.
  destruct (lookup_first_match _ _ _ _ Hf) as (fs & -> & ->). cbv iota beta.
  unfold SyncService.update_existing_order.
  rewrite try_eq, bind_eq. unfold getitem at 1. cbn [dict_get String.eqb Ascii.eqb Bool.eqb].
  unfold ret at 1. cbv iota beta. rewrite bind_eq. unfold read_world at 1. cbv iota beta.
  rewrite Hs. cbn [String.eqb Ascii.eqb Bool.eqb]. cbv iota.
  cbn [dict_set String.eqb Ascii.eqb Bool.eqb].
  rewrite bind_eq.
  rewrite (update_record_online _ u) by (auto using online_after).
  rewrite after_db.
  match goal with |- context [Erp.marshals ?c] => change (Erp.marshals c) with true end.
  cbn [andb]. rewrite (known_first_match _ _ _ _ Hf). cbv iota beta.
  rewrite after_after. reflexivity.
Qed.

Lemma written_target db model i data r' :
  In r' (written db model [PInt i] data) ->
  rec_model r' = model -> rec_id r' = i ->
  exists r, In r db /\ rec_fields r' = Erp.write_fields (rec_fields r) data.
Proof.
  unfold written. intros Hin Hm Hi. apply in_map_iff in Hin.
  destruct Hin as (r & Hr & Hin). exists r. split; [exact Hin|].
  unfold Erp.targeted in Hr. cbn [existsb eqb] in Hr. rewrite orb_false_r in Hr.
  destruct (String.eqb (rec_model r) model && (rec_id r =? i))%bool eqn:E.
  - subst r'. reflexivity.
  - subst r'. rewrite Hm, Hi, String.eqb_refl, Z.eqb_refl in E. discriminate.
Qed.

End Orders.

(** C2.  An order whose sale order exists is updated, not created.
    When the ERP is reachable and the store holds a sale order whose
    external order id is the text of the order's id, [process_woo_order]
    on an order with status "completed" succeeds with exactly three
    calls: the search, the read, and one [write] on the first such sale
    order that sets the note and the state 'sale'.  No [create] is made,
    the store keeps its size, and every sale order with that id then
    has state 'sale'. *)
Theorem process_order_updates_existing {RT : Runtime}
        (o : order) (w : world) (u : Z) (r : erp_record) :
  online w u ->
  ord_status o = "completed" ->
  In r (erp_db w) ->
  Erp.matches "sale.order" (by_order_id o) r = true ->
  exists r0,
    first_match (erp_db w) "sale.order" (by_order_id o) = Some r0 /\
    let data := [("note", PStr (update_note w o)); ("state", PStr "sale")] in
    let w' := after w u [CallSearch "sale.order" (by_order_id o) (Some 1);
                         CallRead "sale.order" [rec_id r0] None;
                         CallWrite "sale.order" [PInt (rec_id r0)] data]
                (written (erp_db w) "sale.order" [PInt (rec_id r0)] data) in
    SyncService.process_woo_order o w = (Ok true, w') /\
    List.length (erp_db w') = List.length (erp_db w) /\
    (forall r', In r' (erp_db w') -> rec_model r' = "sale.order" ->
                rec_id r' = rec_id r0 -> Erp.field_value r' "state" = PStr "sale").
Proof.
  intros Hon Hs Hin Hm.
  destruct (first_match_some _ _ _ _ Hin Hm) as [r0 H0].
  exists r0. split; [exact H0|]. cbv zeta. split; [|split].
  - now apply process_completed_existing.
  - rewrite after_db. unfold written. now rewrite length_map.
  - rewrite after_db. intros r' Hr' Hmodel Hid.
    destruct (written_target _ _ _ _ _ Hr' Hmodel Hid) as (r1 & _ & Hf).
    unfold Erp.field_value. cbn [String.eqb Ascii.eqb Bool.eqb]. rewrite Hf.
    unfold Erp.write_fields, get_default. cbn [fold_left fst snd].
    change (Erp.stored "state" (PStr "sale")) with (PStr "sale").
    now rewrite dict_get_set_same.
Qed.

(** *** Sale-order lines *)

#[local] Instance stays_ready_preorder u b : PreOrder (stays_ready u b).
Proof. split; unfold stays_ready; [intros w H; exact H | intros x y z H1 H2 H; auto]. Qed.

Section Lines.
Context {RT : Runtime}.

Lemma search_one_world (w : world) (u : Z) model domain :
  online w u ->
  exists ds cs,
    OdooClient.search_records model domain None (Some 1) w =
    (Ok ds, after w u cs (erp_db w)).
Proof.
  intros Hon. destruct (clean domain) eqn:Hc.
  - rewrite (search_one_online w u) by auto. eauto.
  - unfold OdooClient.search_records.
    rewrite try_eq, bind_eq, (ensure_session_online w u Hon).
    cbv iota beta. rewrite bind_eq. unfold read_world at 1. cbv iota beta.
    rewrite bind_eq, execute_kw_eq. simpl OdooClient.limit_arg.
    rewrite marshals_search_one, Hc, orb_true_r.
    cbv iota beta. rewrite noted_after. unfold ret. eauto.
Qed.

Lemma has_product_app db new b : has_product db b -> has_product (db ++ new) b.
Proof. intros (r & Hin & Hm). exists r. split; [apply in_or_app; now left | exact Hm]. Qed.

Lemma has_product_written db model ids data b :
  model <> "product.product" ->
  has_product db b -> has_product (written db model ids data) b.
Proof.
  intros Hne (r & Hin & Hm). exists r. split; [|exact Hm].
  unfold written. apply in_map_iff. exists r. split; [|exact Hin].
  unfold Erp.targeted. rewrite (matches_model _ _ _ Hm).
  destruct (String.eqb_spec "product.product" model) as [E|E]; [congruence|reflexivity].
Qed.

Lemma ready_search u b model domain :
  keeps (stays_ready u b) (OdooClient.search_records model domain None (Some 1)).
Proof.
  intros w [Hon Hp]. destruct (search_one_world w u model domain Hon) as (ds & cs & ->).
  split; [now apply online_after | exact Hp].
Qed.

Lemma ready_create u b model data :
  keeps (stays_ready u b) (OdooClient.create_record model data).
Proof.
  intros w [Hon Hp]. rewrite (create_record_online w u) by exact Hon.
  destruct (Erp.sendable data); (split; [now apply online_after|]); simpl.
  - now apply has_product_app.
  - exact Hp.
Qed.

Lemma ready_update u b model record_id data :
  model <> "product.product" ->
  keeps (stays_ready u b) (OdooClient.update_record model record_id data).
Proof.
  intros Hne w [Hon Hp]. rewrite (update_record_online w u) by exact Hon.
  destruct (_ && _)%bool; (split; [now apply online_after|]); simpl.
  - now apply has_product_written.
  - exact Hp.
Qed.

Lemma ready_lookup_external u b model data :
  keeps (stays_ready u b) (OdooClient.lookup_external model data).
Proof.
  unfold OdooClient.lookup_external, OdooClient.get_record_by_external_id.
  repeat keeps_step; auto using ready_search.
Qed.

Lemma ready_get_or_create_customer u b customer_data :
  keeps (stays_ready u b) (OdooClient.get_or_create_customer customer_data).
Proof.
  unfold OdooClient.get_or_create_customer, OdooClient.create_customer.
  repeat keeps_step;
    auto using ready_lookup_external, ready_search, ready_create.
  apply ready_update. discriminate.
Qed.

Lemma ready_add_order_line u b sale_order_id b0 :
  keeps (stays_ready u b) (SyncService.add_order_line sale_order_id b0).
Proof.
  unfold SyncService.add_order_line, OdooClient.get_record_by_external_id.
  repeat keeps_step; auto using ready_search, ready_create.
Qed.

Lemma unit_price_zero (b : booking) :
  quantity b = 0 -> SyncService.unit_price b = Raise ZeroDivisionError.
Proof. intros H. unfold SyncService.unit_price, truediv. now rewrite H. Qed.

Lemma fresh_id_positive (db : list erp_record) : 0 < Erp.fresh_id db.
Proof.
  unfold Erp.fresh_id. assert (0 <= fold_right Z.max 0 (map rec_id db)); [|lia].
  induction db; simpl; lia.
Qed.

Lemma xmlrpc_int_bounds (z : Z) :
  Erp.xmlrpc_int z = true <-> -2147483648 <= z <= 2147483647.
Proof. unfold Erp.xmlrpc_int. rewrite andb_true_iff, !Z.leb_le. tauto. Qed.

Lemma xmlrpc_int_float (z : Z) : Erp.xmlrpc_int z = true -> (Z.abs z <? float_limit) = true.
Proof.
  intros H. apply xmlrpc_int_bounds in H. apply Z.ltb_lt.
  assert (Hl : 2147483648 < float_limit) by (vm_compute; reflexivity). lia.
Qed.

Lemma unit_price_nonzero (b : booking) :
  quantity b <> 0 -> Erp.xmlrpc_int (quantity b) = true ->
  SyncService.unit_price b = Ok (float_quotient (total b) (quantity b)).
Proof.
  intros H Hr. unfold SyncService.unit_price, truediv.
  destruct (Z.eqb_spec (quantity b) 0); [contradiction|].
  now rewrite (xmlrpc_int_float _ Hr).
Qed.

Lemma ids_fit_fresh (db : list erp_record) :
  ids_fit db -> Erp.xmlrpc_int (Erp.fresh_id db) = true.
Proof.
  intros H. apply xmlrpc_int_bounds. unfold Erp.fresh_id.
  assert (0 <= fold_right Z.max 0 (map rec_id db) < 2147483647); [|lia].
  induction H as [|r db Hr _ IH]; simpl; lia.
Qed.

Lemma ids_fit_in (db : list erp_record) (r : erp_record) :
  ids_fit db -> In r db -> rec_id r <> 0 /\ Erp.xmlrpc_int (rec_id r) = true.
Proof.
  intros H Hin. unfold ids_fit in H. rewrite Forall_forall in H. specialize (H r Hin).
  split; [lia | apply xmlrpc_int_bounds; lia].
Qed.

Lemma first_match_app db new model domain r :
  first_match db model domain = Some r ->
  first_match (db ++ new) model domain = Some r.
Proof.
  unfold first_match. rewrite filter_app.
  destruct (filter (Erp.matches model domain) db); [discriminate | trivial].
Qed.

(** The import of an order of one booking over a reachable ERP that
    holds the customer and the booking's product: the header and the
    line are created, the line at the quotient of total and quantity. *)
Lemma create_sale_order_one (o : order) (b : booking) (w : world) (u : Z)
      (p r0 : erp_record) :
  online w u ->
  ids_fit (erp_db w) ->
  ord_customer_id o <> 0 ->
  Erp.xmlrpc_int (ord_id o) = true ->
  first_match (erp_db w) "res.partner" (by_external_id (order_customer o)) = Some p ->
  first_match (erp_db w) "product.product" (product_key b) = Some r0 ->
  quantity b <> 0 -> Erp.xmlrpc_int (quantity b) = true ->
  let sale_order_id := PInt (Erp.fresh_id (erp_db w)) in
  let header := order_fields o (PInt (rec_id p)) in
  let line := line_fields sale_order_id (PInt (rec_id r0)) b
                (float_quotient (total b) (quantity b)) in
  let db1 := (erp_db w ++ [new_record (erp_db w) "sale.order" header])%list in
  SyncService.create_sale_order_in_odoo o [b] w =
  (Ok sale_order_id,
   after w u [CallSearch "res.partner" (by_external_id (order_customer o)) (Some 1);
              CallRead "res.partner" [rec_id p] None;
              CallCreate "sale.order" header;
              CallSearch "product.product" (product_key b) (Some 1);
              CallRead "product.product" [rec_id r0] None;
              CallCreate "sale.order.line" line]
     (db1 ++ [new_record db1 "sale.order.line" line])).
Proof.
  intros Hon Hfit Hc Ho Hp Hr Hq Hqr. cbv zeta.
  destruct (first_match_in _ _ _ _ Hp) as [Hinp _].
  destruct (first_match_in _ _ _ _ Hr) as [Hinr _].
  destruct (ids_fit_in _ _ Hfit Hinp) as [Hp0 Hpr].
  destruct (ids_fit_in _ _ Hfit Hinr) as [_ Hrr].
  pose proof (ids_fit_fresh _ Hfit) as Hfr.
  pose proof (fresh_id_positive (erp_db w)) as Hpos.
  unfold SyncService.create_sale_order_in_odoo. rewrite try_eq, bind_eq.
  fold (order_customer o).
  change (("id", PInt (ord_customer_id o)) :: _) with (order_customer o).
  rewrite (get_or_create_customer_found w u (order_customer o) p Hon);
    [|cbn; now destruct (Z.eqb_spec (ord_customer_id o) 0)|exact Hp].
  cbn [truthy]. destruct (Z.eqb_spec (rec_id p) 0) as [E|_]; [contradiction|].
  cbn [negb]. rewrite bind_eq.
  change (("partner_id", PInt (rec_id p)) :: _) with (order_fields o (PInt (rec_id p))).
  rewrite (create_record_online _ u) by (auto using online_after).
  assert (Hs1 : Erp.sendable (order_fields o (PInt (rec_id p))) = true).
  { unfold Erp.sendable, Erp.encodable, order_fields.
    cbn [forallb snd Erp.refused andb]. now rewrite Hpr, Ho. }
  rewrite Hs1. rewrite !after_after, !after_db. cbv iota beta.
  cbn [truthy]. destruct (Z.eqb_spec (Erp.fresh_id (erp_db w)) 0) as [E|_]; [lia|].
  cbn [negb for_each]. rewrite bind_eq, bind_eq.
  unfold SyncService.add_order_line at 1. rewrite bind_eq.
  rewrite (get_record_online _ u) by (auto using online_after).
  fold (product_key b). rewrite !after_after, !after_db.
  destruct (lookup_first_match _ _ _ _
              (first_match_app _ [new_record (erp_db w) "sale.order"
                                    (order_fields o (PInt (rec_id p)))] _ _ _ Hr))
    as (fs & -> & ->).
  cbn [hd_error OdooClient.present]. cbv iota beta.
  rewrite bind_eq. unfold getitem at 1. cbn [dict_get String.eqb Ascii.eqb Bool.eqb].
  unfold ret at 1. cbv iota beta.
  rewrite bind_eq, (unit_price_nonzero b Hq Hqr). unfold lift at 1. cbv iota beta.
  rewrite bind_eq.
  change (("order_id", PInt (Erp.fresh_id (erp_db w))) :: _)
    with (line_fields (PInt (Erp.fresh_id (erp_db w))) (PInt (rec_id r0)) b
            (float_quotient (total b) (quantity b))).
  rewrite (create_record_online _ u) by (auto using online_after).
  assert (Hs2 : Erp.sendable (line_fields (PInt (Erp.fresh_id (erp_db w)))
                                (PInt (rec_id r0)) b
                                (float_quotient (total b) (quantity b))) = true).
  { unfold Erp.sendable, Erp.encodable, line_fields.
    cbn [forallb snd Erp.refused andb]. now rewrite Hfr, Hrr, Hqr. }
  rewrite Hs2. rewrite !after_after, !after_db. cbv iota beta.
  unfold ret. cbn [app]. rewrite <- app_assoc. reflexivity.
Qed.

Lemma add_order_line_zero u b sale_order_id w :
  ready u b w -> quantity b = 0 ->
  exists w', SyncService.add_order_line sale_order_id b w = (Raise ZeroDivisionError, w').
Proof.
  intros [Hon (r & Hin & Hm)] Hq. unfold SyncService.add_order_line.
  rewrite bind_eq, (get_record_online w u) by exact Hon.
  fold (product_key b).
  destruct (first_match_some _ _ _ _ Hin Hm) as [r0 H0].
  destruct (lookup_first_match _ _ _ _ H0) as (fs & -> & ->).
  cbn [hd_error OdooClient.present]. cbv iota beta.
  rewrite bind_eq. unfold getitem at 1. cbn [dict_get String.eqb Ascii.eqb Bool.eqb].
  unfold ret at 1. cbv iota beta.
  rewrite bind_eq, (unit_price_zero b Hq). unfold lift. eauto.
Qed.

Lemma lines_raise u b sale_order_id bookings w :
  ready u b w -> quantity b = 0 -> In b bookings ->
  exists e w',
    for_each bookings (fun b _ => SyncService.add_order_line sale_order_id b) tt w
    = (Raise e, w').
Proof.
  intros Hr Hq. revert w Hr. induction bookings as [|b0 rest IH]; intros w Hr Hin.
  - destruct Hin.
  - cbn [for_each]. rewrite bind_eq.
    destruct Hin as [-> | Hin].
    + destruct (add_order_line_zero u b sale_order_id w Hr Hq) as (w' & ->). eauto.
    + pose proof (ready_add_order_line u b sale_order_id b0 w Hr) as Hr1.
      destruct (SyncService.add_order_line sale_order_id b0 w) as [[[]|e] w1]; [|eauto].
      apply IH; assumption.
Qed.

Lemma create_sale_order_zero u b o bookings w :
  ready u b w -> quantity b = 0 -> In b bookings ->
  fst (SyncService.create_sale_order_in_odoo o bookings w) = Ok PNone.
Proof.
  intros Hr Hq Hin. unfold SyncService.create_sale_order_in_odoo.
  rewrite try_eq, bind_eq.
  match goal with |- context [OdooClient.get_or_create_customer ?cd w] =>
    pose proof (ready_get_or_create_customer u b cd w Hr) as Hr1;
    destruct (OdooClient.get_or_create_customer cd w) as [[partner_id|e] w1]
  end; [|reflexivity].
  simpl in Hr1. destruct (truthy partner_id); [|reflexivity]. cbn [negb].
  rewrite bind_eq.
  match goal with |- context [OdooClient.create_record ?m ?d w1] =>
    pose proof (ready_create u b m d w1 Hr1) as Hr2;
    destruct (OdooClient.create_record m d w1) as [[sale_order_id|e] w2]
  end; [|reflexivity].
  simpl in Hr2. destruct (truthy sale_order_id); [|reflexivity]. cbn [negb].
  rewrite bind_eq.
  destruct (lines_raise u b sale_order_id bookings w2 Hr2 Hq Hin) as (e & w3 & ->).
  reflexivity.
Qed.

End Lines.

(** C1, as the code has it.  The unit price of a booking is its total
    divided by its quantity.  For a booking of quantity 0 the division
    raises [ZeroDivisionError]; [create_sale_order_in_odoo] catches
    it: when the ERP is reachable and the booking's product is in the
    store (so that the line is reached), it returns [None].  In no
    world does an exception leave [create_sale_order_in_odoo].  A
    negative quantity is not refused: for a quantity below 0 that
    XML-RPC can carry the division succeeds, and over a reachable ERP
    that holds the order's customer and the booking's product the
    order is created, with a line at that unit price. *)
Theorem unit_price_fails_cleanly_at_zero {RT : Runtime} (b : booking) :
  (quantity b = 0 ->
     SyncService.unit_price b = Raise ZeroDivisionError /\
     forall o bookings w u,
       online w u -> has_product (erp_db w) b -> In b bookings ->
       fst (SyncService.create_sale_order_in_odoo o bookings w) = Ok PNone) /\
  (forall o bookings w,
     exists v w', SyncService.create_sale_order_in_odoo o bookings w = (Ok v, w')) /\
  (quantity b < 0 -> Erp.xmlrpc_int (quantity b) = true ->
     SyncService.unit_price b = Ok (float_quotient (total b) (quantity b)) /\
     forall o w u p r0,
       online w u ->
       ids_fit (erp_db w) ->
       ord_customer_id o <> 0 ->
       Erp.xmlrpc_int (ord_id o) = true ->
       first_match (erp_db w) "res.partner" (by_external_id (order_customer o)) = Some p ->
       first_match (erp_db w) "product.product" (product_key b) = Some r0 ->
       let sale_order_id := PInt (Erp.fresh_id (erp_db w)) in
       let header := order_fields o (PInt (rec_id p)) in
       let line := line_fields sale_order_id (PInt (rec_id r0)) b
                     (float_quotient (total b) (quantity b)) in
       let db1 := (erp_db w ++ [new_record (erp_db w) "sale.order" header])%list in
       SyncService.create_sale_order_in_odoo o [b] w =
       (Ok sale_order_id,
        after w u [CallSearch "res.partner" (by_external_id (order_customer o)) (Some 1);
                   CallRead "res.partner" [rec_id p] None;
                   CallCreate "sale.order" header;
                   CallSearch "product.product" (product_key b) (Some 1);
                   CallRead "product.product" [rec_id r0] None;
                   CallCreate "sale.order.line" line]
          (db1 ++ [new_record db1 "sale.order.line" line]))).
Proof.
  split; [|split].
  - intros Hq. split; [now apply unit_price_zero|].
    intros o bookings w u Hon Hp Hin.
    apply (create_sale_order_zero u b); [split| |]; assumption.
  - intros o bookings w. apply try_except_returns.
  - intros Hq Hr. split; [apply unit_price_nonzero; [lia | exact Hr]|].
    intros o w u p r0 Hon Hfit Hc Ho Hp Hr0.
    apply create_sale_order_one; auto. lia.
Qed.

(** *** Bookings *)

Section Bookings.
Context {RT : Runtime}.

Lemma scan_meta_keyless (b : booking) (m : meta_entry) :
  entry_key m = "" -> WooCommerceClient.scan_meta b m = Ok b.
Proof.
  unfold WooCommerceClient.scan_meta, entry_key. intros ->. reflexivity.
Qed.

Lemma scan_all_keyless (b : booking) (ms : list meta_entry) :
  Forall (fun m => entry_key m = "") ms -> WooCommerceClient.scan_all b ms = Ok b.
Proof.
  induction 1 as [|m ms Hm _ IH]; simpl; [reflexivity|].
  now rewrite scan_meta_keyless.
Qed.

Lemma extract_item_keyless (o : order) (item : line_item) :
  keyless item -> WooCommerceClient.extract_item o item = Ok (plain_booking o item).
Proof.
  intros H. unfold WooCommerceClient.extract_item. fold (entries item).
  now rewrite scan_all_keyless.
Qed.

Lemma extract_items_keyless (o : order) (l : list line_item) :
  Forall keyless l ->
  WooCommerceClient.extract_items o l = Ok (map (plain_booking o) l).
Proof.
  induction 1 as [|item l Hi _ IH]; simpl; [reflexivity|].
  now rewrite extract_item_keyless, IH.
Qed.

End Bookings.

(** C5.  On an order none of whose line items carries a metadata key,
    [extract_booking_data] returns one booking per line item, in
    order, and each has persons = 1 and booking_date = the order's
    [date_created]. *)
Theorem extract_without_metadata {RT : Runtime} (o : order) :
  Forall keyless (items o) ->
  exists bookings,
    WooCommerceClient.extract_booking_data o = Ok bookings /\
    Forall2 (fun item b =>
               persons b = Some 1 /\
               booking_date b = Some (PStr (ord_date_created o)) /\
               product_id b = item_product_id item /\
               order_id b = ord_id o)
            (items o) bookings.
Proof.
  intros H. exists (map (plain_booking o) (items o)). split.
  - unfold WooCommerceClient.extract_booking_data. fold (items o).
    now apply extract_items_keyless.
  - clear H. induction (items o) as [|item l IH]; simpl; constructor; auto.
Qed.

(** *** Service products *)

Section Products.
Context {RT : Runtime}.

Lemma product_data_of_shape (b : booking) (pd : pydict) :
  SyncService.product_data_of b = Ok pd ->
  exists name date description,
    pd = [ ("name", PStr name);
           ("sku", PStr ("BOOKING_" ++ composite_id b));
           ("price", PFloat (total b));
           ("woo_id", PStr (composite_id b));
           ("booking_date", PStr date);
           ("persons", PInt (SyncService.persons_get b));
           ("description", PStr description) ].
Proof.
  unfold SyncService.product_data_of.
  destruct (SyncService.formatted_date b) as [date|e]; [|discriminate].
  destruct (if 1 <? SyncService.persons_get b then _ else _) as [name|e]; [|discriminate].
  intros H. injection H as <-. unfold composite_id. eauto.
Qed.


Lemma composite_id_not_empty (b : booking) : String.eqb (composite_id b) "" = false.
Proof. unfold composite_id. destruct (str_of_Z (order_id b)); reflexivity. Qed.

Lemma product_fields_sendable (b : booking) (pd : pydict) :
  SyncService.product_data_of b = Ok pd ->
  Erp.sendable (product_fields pd) = Erp.xmlrpc_int (SyncService.persons_get b).
Proof.
  intros Hpd. destruct (product_data_of_shape b pd Hpd) as (name & date & description & ->).
  unfold Erp.sendable, Erp.encodable, product_fields.
  cbn [forallb snd get get_default dict_get String.eqb Ascii.eqb Bool.eqb Erp.refused andb].
  destruct (Erp.xmlrpc_int (SyncService.persons_get b)); reflexivity.
Qed.

(** The first sync of a booking over a reachable ERP that holds no
    product for it: the product is created, unless the person count is
    beyond what XML-RPC carries, in which case the create is refused
    and the sync fails. *)
Lemma sync_booking_creates (b : booking) (pd : pydict) (w : world) (u : Z) :
  online w u ->
  SyncService.product_data_of b = Ok pd ->
  first_match (erp_db w) "product.product" (product_key b) = None ->
  SyncService.sync_booking_to_odoo b w =
  if Erp.xmlrpc_int (SyncService.persons_get b)
  then (Ok true,
        after w u [CallSearch "product.product" (product_key b) (Some 1);
                   CallCreate "product.product" (product_fields pd)]
          (erp_db w ++ [new_record (erp_db w) "product.product" (product_fields pd)]))
  else (Ok false,
        after w u [CallSearch "product.product" (product_key b) (Some 1);
                   CallCreate "product.product" (product_fields pd)]
          (erp_db w)).
Proof.
  intros Hon Hpd Hf. unfold SyncService.sync_booking_to_odoo.
  rewrite try_eq, bind_eq, Hpd. unfold lift at 1. cbv iota beta.
  pose proof (product_fields_sendable b pd Hpd) as Hs.
  destruct (product_data_of_shape b pd Hpd) as (name & date & description & E).
  assert (Ht : truthy (get pd "woo_id") = true).
  { subst pd. cbn. now rewrite composite_id_not_empty. }
  assert (Hk : by_external_id pd = product_key b) by (now subst pd).
  rewrite bind_eq. unfold OdooClient.get_or_create_product.
  rewrite bind_eq.
  rewrite (lookup_external_online w u) by auto.
  rewrite Hk.
  destruct (first_match_none _ _ _ Hf) as [-> ->]. cbn [hd_error OdooClient.present].
  cbv iota beta. unfold OdooClient.create_product. fold (product_fields pd).
  rewrite (create_record_online _ u) by (auto using online_after).
  rewrite Hs. rewrite !after_after, !after_db.
  destruct (Erp.xmlrpc_int (SyncService.persons_get b)); [|reflexivity].
  cbv iota beta. unfold truthy. pose proof (fresh_id_positive (erp_db w)) as Hp.
  destruct (Z.eqb_spec (Erp.fresh_id (erp_db w)) 0) as [E0|E0]; [lia|].
  reflexivity.
Qed.

End Products.

(** *** Reverse sync *)

Section Reverse.
Context {RT : Runtime}.


Lemma product_path_lstrip (n : Z) :
  lstrip (Ascii.eqb "/") ("products/" ++ str_of_Z n) = product_path n.
Proof. reflexivity. Qed.


End Reverse.


(** *** Person counts *)

Section Persons.
Context {RT : Runtime}.

Lemma scan_meta_persons (b : booking) (m : meta_entry) :
  persons_key m = true ->
  WooCommerceClient.scan_meta b m =
  if isdigit (str (entry_value m)) then
    match int (entry_value m) with
    | Ok n => Ok (set_persons b n)
    | Raise e => Raise e
    end
  else Ok (set_persons b 1).
Proof.
  unfold persons_key, WooCommerceClient.scan_meta. fold (entry_key m) (entry_value m).
  intros H. apply andb_prop in H. destruct H as [H1 H2].
  apply negb_true_iff in H1. rewrite H1, H2. reflexivity.
Qed.

Lemma decimal_isdigit (s : string) :
  all_chars is_decimal s = true -> s <> "" -> isdigit s = true.
Proof.
  intros H Hne. destruct s as [|c s]; [congruence|]. unfold isdigit.
  apply (all_chars_impl is_decimal); [|exact H].
  intros c' Hc. unfold char_isdigit. now rewrite Hc.
Qed.

(** The integer value of a value whose text is made of decimal digits. *)
Lemma int_of_decimal_text (v : pyval) :
  all_chars is_decimal (str v) = true -> str v <> "" ->
  exists n, 0 <= n /\ int v = Ok n /\ n = digits_value 0 (str v).
Proof.
  intros Hall Hne. destruct v as [|[|]|z|q|s]; try discriminate Hall.
  - destruct (Z.le_gt_cases 0 z) as [Hz|Hz].
    + exists z. destruct (str_of_Z_nonneg z Hz) as (_ & _ & Hv). simpl. auto.
    + apply Z.gt_lt in Hz || idtac.
      pose proof (str_of_Z_neg z ltac:(lia)) as Hd.
      simpl in *. rewrite (decimal_isdigit _ Hall Hne) in Hd. discriminate.
  - pose proof (float_str_not_digits q) as Hd.
    simpl in *. rewrite (decimal_isdigit _ Hall Hne) in Hd. discriminate.
  - simpl in *. exists (digits_value 0 s).
    rewrite (int_of_string_decimal s Hall Hne).
    split; [now apply digits_value_nonneg|]. auto.
Qed.

(** The part of C10 that holds: under a persons key, a value whose
    text is made of decimal digits sets the count to its integer value,
    which is not negative, and a value whose text is not all digits
    sets it to 1. *)
Lemma persons_from_text (b : booking) (m : meta_entry) :
  persons_key m = true ->
  (all_chars is_decimal (str (entry_value m)) = true -> str (entry_value m) <> "" ->
   exists n, 0 <= n /\ int (entry_value m) = Ok n /\
             WooCommerceClient.scan_meta b m = Ok (set_persons b n)) /\
  (isdigit (str (entry_value m)) = false ->
   WooCommerceClient.scan_meta b m = Ok (set_persons b 1)).
Proof.
  intros Hk. rewrite (scan_meta_persons b m Hk). split.
  - intros Hall Hne. destruct (int_of_decimal_text _ Hall Hne) as (n & Hn & Hi & _).
    exists n. rewrite (decimal_isdigit _ Hall Hne), Hi. auto.
  - intros ->. reflexivity.
Qed.

End Persons.

(** C8.  [search_records] always returns a list: in every world and for
    every model, filter, field list and limit it returns (it never
    raises, and its value is a list, possibly empty).  It returns the
    empty list when no record matches, when the transport fails for
    the search call, and when it fails for the read call -- the same
    value in the three cases. *)
Theorem search_records_always_a_list {RT : Runtime}
        (model : string) (domain : list clause) (fields : option (list string))
        (limit : option Z) (w : world) :
  (exists records w',
     OdooClient.search_records model domain fields limit w = (Ok records, w')) /\
  (filter (Erp.matches model domain) (erp_db w) = [] ->
   fst (OdooClient.search_records model domain fields limit w) = Ok []) /\
  (nth_error (erp_faults w) (search_slot w) = Some true ->
   fst (OdooClient.search_records model domain fields limit w) = Ok []) /\
  (nth_error (erp_faults w) (S (search_slot w)) = Some true ->
   fst (OdooClient.search_records model domain fields limit w) = Ok []).
Proof.
  split; [apply try_except_returns|].
  split; [apply search_records_no_match|].
  split; [apply search_records_search_fault | apply search_records_read_fault].
Qed.

(** *** The customer upsert, run twice *)

Section Again.
Context {RT : Runtime}.

Lemma search_one_unclean (w : world) (u : Z) model domain :
  online w u -> clean domain = false ->
  OdooClient.search_records model domain None (Some 1) w =
  (Ok [], after w u [CallSearch model domain (Some 1)] (erp_db w)).
Proof.
  intros Hon Hc. unfold OdooClient.search_records.
  rewrite try_eq, bind_eq, (ensure_session_online w u Hon).
  cbv iota beta. rewrite bind_eq. unfold read_world at 1. cbv iota beta.
  rewrite bind_eq, execute_kw_eq. simpl OdooClient.limit_arg.
  rewrite marshals_search_one, Hc, orb_true_r.
  cbv iota beta. rewrite noted_after. reflexivity.
Qed.

Lemma first_match_none_all db model domain :
  first_match db model domain = None ->
  forall r, In r db -> Erp.matches model domain r = false.
Proof.
  unfold first_match. intros H r Hin.
  destruct (Erp.matches model domain r) eqn:E; [|reflexivity].
  assert (Hf : In r (filter (Erp.matches model domain) db)) by (apply filter_In; auto).
  destruct (filter (Erp.matches model domain) db); [destruct Hf | discriminate].
Qed.

Lemma truthy_stored (v : pyval) :
  truthy v = true -> Erp.stored "x_woo_id" v = PStr (str v).
Proof. destruct v as [|[|]| | |]; intros H; try discriminate H; reflexivity. Qed.

Lemma matches_external model data fields i :
  truthy (get data "woo_id") = true ->
  Erp.matches model (by_external_id data)
    {| rec_model := model; rec_id := i;
       rec_fields := Erp.write_fields fields [("x_woo_id", get data "woo_id")] |} = true.
Proof.
  intros Ht. unfold Erp.matches, by_external_id. cbn [rec_model forallb Erp.clause_holds].
  rewrite String.eqb_refl. unfold Erp.field_value.
  cbn [String.eqb Ascii.eqb Bool.eqb rec_fields Erp.write_fields fold_left fst snd].
  unfold get_default. rewrite dict_get_set_same, (truthy_stored _ Ht).
  cbn [eqb]. now rewrite String.eqb_refl.
Qed.

Lemma targeted_one model i r :
  Erp.targeted model [PInt i] r = (String.eqb (rec_model r) model && (rec_id r =? i))%bool.
Proof. unfold Erp.targeted. cbn [existsb eqb]. now rewrite orb_false_r. Qed.

(** After the external id has been written to the records [i] of
    [model], the first record that carries it has id [i]. *)
Lemma first_match_written db model data i :
  truthy (get data "woo_id") = true ->
  first_match db model (by_external_id data) = None ->
  Erp.known_id db model (PInt i) = true ->
  exists r',
    first_match (written db model [PInt i] [("x_woo_id", get data "woo_id")])
                model (by_external_id data) = Some r' /\
    rec_id r' = i.
Proof.
  intros Ht Hnone Hk.
  pose proof (first_match_none_all _ _ _ Hnone) as Hall. clear Hnone.
  unfold Erp.known_id, Erp.find_record in Hk.
  destruct (find _ db) as [r0|] eqn:Hfind; [clear Hk | discriminate].
  apply find_some in Hfind. destruct Hfind as [Hin0 Ht0].
  unfold first_match, written.
  induction db as [|r db IH]; [destruct Hin0|].
  cbn [map filter]. destruct (Erp.targeted model [PInt i] r) eqn:E.
  - rewrite targeted_one in E. apply andb_prop in E. destruct E as [E1 E2].
    apply String.eqb_eq in E1. apply Z.eqb_eq in E2.
    rewrite E1, (matches_external model data (rec_fields r) (rec_id r) Ht).
    eexists. split; [reflexivity | exact E2].
  - rewrite (Hall r (or_introl eq_refl)).
    destruct Hin0 as [-> | Hin0]; [rewrite targeted_one, Ht0 in E; discriminate|].
    apply IH; [exact Hin0|]. intros r1 H1. apply Hall. now right.
Qed.

Lemma first_match_created db model data odoo_data :
  first_match db model (by_external_id data) = None ->
  Erp.matches model (by_external_id data) (new_record db model odoo_data) = true ->
  first_match (db ++ [new_record db model odoo_data]) model (by_external_id data)
  = Some (new_record db model odoo_data).
Proof.
  intros Hnone Hm. unfold first_match in *. rewrite filter_app. cbn [filter]. rewrite Hm.
  destruct (filter (Erp.matches model (by_external_id data)) db); [reflexivity|discriminate].
Qed.

Lemma search_one_any (w : world) (u : Z) model domain :
  online w u ->
  OdooClient.search_records model domain None (Some 1) w =
  if clean domain
  then (Ok (lookup_result (erp_db w) model domain),
        after w u (lookup_calls (erp_db w) model domain) (erp_db w))
  else (Ok [], after w u [CallSearch model domain (Some 1)] (erp_db w)).
Proof.
  intros Hon. destruct (clean domain) eqn:Hc;
    [now apply search_one_online | now apply search_one_unclean].
Qed.

Lemma create_customer_online (customer_data : pydict) (w : world) (u : Z) :
  online w u ->
  OdooClient.create_customer customer_data w =
  if Erp.sendable (customer_fields customer_data)
  then (Ok (PInt (Erp.fresh_id (erp_db w))),
        after w u [CallCreate "res.partner" (customer_fields customer_data)]
          (erp_db w ++ [new_record (erp_db w) "res.partner" (customer_fields customer_data)]))
  else (Ok PNone,
        after w u [CallCreate "res.partner" (customer_fields customer_data)] (erp_db w)).
Proof.
  intros Hon. unfold OdooClient.create_customer. fold (customer_fields customer_data).
  now apply create_record_online.
Qed.

(** The customer upsert over a reachable ERP when no partner carries
    the payload's external id: the partner found by email gets the
    external id written, and without one a partner is created. *)
Lemma get_or_create_customer_unmapped (customer_data : pydict) (w : world) (u : Z) :
  online w u ->
  truthy (get customer_data "woo_id") = true ->
  first_match (erp_db w) "res.partner" (by_external_id customer_data) = None ->
  let by_id := CallSearch "res.partner" (by_external_id customer_data) (Some 1) in
  let search := CallSearch "res.partner" (by_email customer_data) (Some 1) in
  OdooClient.get_or_create_customer customer_data w =
  match (if clean (by_email customer_data)
         then first_match (erp_db w) "res.partner" (by_email customer_data)
         else None) with
  | Some r1 =>
      let data := [("x_woo_id", get customer_data "woo_id")] in
      (Ok (PInt (rec_id r1)),
       after w u [by_id; search; CallRead "res.partner" [rec_id r1] None;
                  CallWrite "res.partner" [PInt (rec_id r1)] data]
         (if Erp.encodable (get customer_data "woo_id")
          then written (erp_db w) "res.partner" [PInt (rec_id r1)] data
          else erp_db w))
  | None =>
      if Erp.sendable (customer_fields customer_data)
      then (Ok (PInt (Erp.fresh_id (erp_db w))),
            after w u [by_id; search;
                       CallCreate "res.partner" (customer_fields customer_data)]
              (erp_db w ++
               [new_record (erp_db w) "res.partner" (customer_fields customer_data)]))
      else (Ok PNone,
            after w u [by_id; search;
                       CallCreate "res.partner" (customer_fields customer_data)]
              (erp_db w))
  end.
Proof.
  intros Hon Ht Hf. cbv zeta. unfold OdooClient.get_or_create_customer.
  rewrite bind_eq, (lookup_external_online w u) by auto.
  destruct (first_match_none _ _ _ Hf) as [-> ->].
  cbn [hd_error OdooClient.present]. cbv iota beta.
  rewrite bind_eq. fold (by_email customer_data).
  rewrite (search_one_any _ u) by (auto using online_after). rewrite after_db.
  assert (Hcreate :
    OdooClient.create_customer customer_data
      (after (after w u [CallSearch "res.partner" (by_external_id customer_data) (Some 1)]
                (erp_db w)) u
         [CallSearch "res.partner" (by_email customer_data) (Some 1)] (erp_db w)) =
    if Erp.sendable (customer_fields customer_data)
    then (Ok (PInt (Erp.fresh_id (erp_db w))),
          after w u [CallSearch "res.partner" (by_external_id customer_data) (Some 1);
                     CallSearch "res.partner" (by_email customer_data) (Some 1);
                     CallCreate "res.partner" (customer_fields customer_data)]
            (erp_db w ++
             [new_record (erp_db w) "res.partner" (customer_fields customer_data)]))
    else (Ok PNone,
          after w u [CallSearch "res.partner" (by_external_id customer_data) (Some 1);
                     CallSearch "res.partner" (by_email customer_data) (Some 1);
                     CallCreate "res.partner" (customer_fields customer_data)]
            (erp_db w))).
  { rewrite (create_customer_online _ _ u) by (auto using online_after).
    rewrite !after_after, !after_db. reflexivity. }
  destruct (clean (by_email customer_data)).
  - destruct (first_match (erp_db w) "res.partner" (by_email customer_data))
      as [r1|] eqn:Hf1.
    + destruct (lookup_first_match _ _ _ _ Hf1) as (fs & -> & ->). cbv iota beta.
      rewrite Ht. rewrite bind_eq. cbv iota. rewrite bind_eq.
      unfold getitem at 1. cbn [dict_get String.eqb Ascii.eqb Bool.eqb].
      unfold ret at 1. cbv iota beta.
      rewrite bind_eq, (truthy_get _ _ Ht). unfold ret at 1. cbv iota beta.
      rewrite bind_eq, (update_record_online _ u) by (auto using online_after).
      rewrite marshals_write.
      cbn [forallb Erp.sendable snd Erp.is_none negb andb]. rewrite andb_true_r.
      rewrite !after_db. rewrite (known_first_match _ _ _ _ Hf1), andb_true_r.
      destruct (Erp.encodable (get customer_data "woo_id")); cbv iota beta;
        unfold ret at 1; cbv iota beta;
        unfold getitem; cbn [dict_get String.eqb Ascii.eqb Bool.eqb]; unfold ret;
        rewrite !after_after; reflexivity.
    + destruct (first_match_none _ _ _ Hf1) as [-> ->]. cbv iota beta.
      exact Hcreate.
  - cbv iota beta. exact Hcreate.
Qed.

Lemma new_customer_matches (customer_data : pydict) (db : list erp_record) :
  truthy (get customer_data "woo_id") = true ->
  Erp.matches "res.partner" (by_external_id customer_data)
    (new_record db "res.partner" (customer_fields customer_data)) = true.
Proof.
  intros Ht. unfold Erp.matches, by_external_id, new_record, customer_fields.
  cbn [rec_model forallb Erp.clause_holds]. unfold Erp.field_value.
  cbn [String.eqb Ascii.eqb Bool.eqb rec_fields Erp.write_fields fold_left fst snd
       dict_set get_default dict_get andb].
  unfold get_default.
  cbn [String.eqb Ascii.eqb Bool.eqb dict_set dict_get].
  rewrite (truthy_stored _ Ht). cbn [eqb]. now rewrite String.eqb_refl.
Qed.

(** After a customer upsert that returned an id, a partner with the
    payload's external id is in the store and the first such partner
    has that id. *)
Lemma customer_upsert_maps (customer_data : pydict) (w : world) (u i : Z) :
  online w u ->
  truthy (get customer_data "woo_id") = true ->
  Erp.encodable (get customer_data "woo_id") = true ->
  fst (OdooClient.get_or_create_customer customer_data w) = Ok (PInt i) ->
  exists cs db' r0,
    snd (OdooClient.get_or_create_customer customer_data w) = after w u cs db' /\
    first_match db' "res.partner" (by_external_id customer_data) = Some r0 /\
    rec_id r0 = i.
Proof.
  intros Hon Ht Henc.
  destruct (first_match (erp_db w) "res.partner" (by_external_id customer_data))
    as [r0|] eqn:Hf.
  - rewrite (get_or_create_customer_found w u customer_data r0 Hon Ht Hf).
    cbn [fst snd]. intros H. injection H as <-.
    eexists _, _, r0. split; [reflexivity|]. split; [exact Hf | reflexivity].
  - rewrite (get_or_create_customer_unmapped customer_data w u Hon Ht Hf), Henc.
    destruct (if clean (by_email customer_data) then _ else None) as [r1|] eqn:Hfound.
    + cbn [fst snd]. intros H. injection H as <-.
      assert (Hf1 : first_match (erp_db w) "res.partner" (by_email customer_data) = Some r1).
      { destruct (clean (by_email customer_data)); [exact Hfound | discriminate]. }
      destruct (first_match_written (erp_db w) "res.partner" customer_data (rec_id r1)
                  Ht Hf (known_first_match _ _ _ _ Hf1)) as (r' & Hr' & Hid).
      eexists _, _, r'. split; [reflexivity|]. split; [exact Hr' | exact Hid].
    + destruct (Erp.sendable (customer_fields customer_data)); cbn [fst snd];
        [|discriminate].
      intros H. injection H as <-.
      eexists _, _, _. split; [reflexivity|]. split.
      * apply first_match_created; [exact Hf|]. now apply new_customer_matches.
      * reflexivity.
Qed.

(** Idempotence from any store: once a customer upsert has returned an
    id over a reachable ERP, running it again on the same payload
    returns the same id and leaves the store as the first run left
    it. *)
Lemma customer_upsert_twice (customer_data : pydict) (w : world) (u i : Z) :
  online w u ->
  truthy (get customer_data "woo_id") = true ->
  Erp.encodable (get customer_data "woo_id") = true ->
  fst (OdooClient.get_or_create_customer customer_data w) = Ok (PInt i) ->
  let w1 := snd (OdooClient.get_or_create_customer customer_data w) in
  fst (OdooClient.get_or_create_customer customer_data w1) = Ok (PInt i) /\
  erp_db (snd (OdooClient.get_or_create_customer customer_data w1)) = erp_db w1.
Proof.
  intros Hon Ht Henc Hrun.
  destruct (customer_upsert_maps customer_data w u i Hon Ht Henc Hrun)
    as (cs & db' & r0 & Hw1 & Hf & Hid).
  cbv zeta. rewrite Hw1.
  rewrite (get_or_create_customer_found _ u customer_data r0);
    auto using online_after.
  cbn [fst snd]. rewrite Hid. split; reflexivity.
Qed.

End Again.

Section Runs.
Import Demo.
#[local] Existing Instance sample_runtime.

Lemma world_with_online (db : list erp_record) : online (world_with db) 2.
Proof. repeat split; auto. Qed.

(** C1 at a booking of quantity 0 whose product is in the store: the
    division raises and the order creation returns [None]; and at a
    booking of quantity -1 over a store that holds the customer and the
    product: the order is created. *)
Lemma zero_quantity_returns_none :
  (quantity (booking_of 100 7 0 50) = 0 /\
   SyncService.unit_price (booking_of 100 7 0 50) = Raise ZeroDivisionError /\
   fst (SyncService.create_sale_order_in_odoo
          (order_of 100 "100" [item 7 0 50 None]) [booking_of 100 7 0 50]
          (world_with [product_100_7])) = Ok PNone) /\
  (quantity (booking_of 100 7 (-1) 50) < 0 /\
   SyncService.unit_price (booking_of 100 7 (-1) 50) = Ok (-50 # 1)%Q /\
   fst (SyncService.create_sale_order_in_odoo
          (order_of 100 "100" [item 7 (-1) 50 None]) [booking_of 100 7 (-1) 50]
          (world_with [partner_5; product_100_7])) = Ok (PInt 5)).
Proof.
  split.
  - destruct (proj1 (unit_price_fails_cleanly_at_zero (booking_of 100 7 0 50)) eq_refl)
      as [Hraise Hnone].
    split; [reflexivity|]. split; [exact Hraise|].
    apply (Hnone _ _ _ 2).
    + apply world_with_online.
    + exists product_100_7. split; [left; reflexivity | vm_compute; reflexivity].
    + left; reflexivity.
  - destruct (proj2 (proj2 (unit_price_fails_cleanly_at_zero (booking_of 100 7 (-1) 50)))
                eq_refl eq_refl) as [Hprice Hrun].
    split; [reflexivity|]. split; [exact Hprice|].
    assert (Hfit : ids_fit (erp_db (world_with [partner_5; product_100_7]))).
    { repeat constructor. }
    assert (Hp : first_match (erp_db (world_with [partner_5; product_100_7])) "res.partner"
                   (by_external_id (order_customer (order_of 100 "100" [item 7 (-1) 50 None])))
                 = Some partner_5) by (vm_compute; reflexivity).
    assert (Hr : first_match (erp_db (world_with [partner_5; product_100_7])) "product.product"
                   (product_key (booking_of 100 7 (-1) 50))
                 = Some product_100_7) by (vm_compute; reflexivity).
    assert (Hc : ord_customer_id (order_of 100 "100" [item 7 (-1) 50 None]) <> 0)
      by discriminate.
    rewrite (Hrun (order_of 100 "100" [item 7 (-1) 50 None])
               (world_with [partner_5; product_100_7]) 2 partner_5 product_100_7
               (world_with_online _) Hfit Hc eq_refl Hp Hr).
    reflexivity.
Defined.

(** C1 fails as stated: a booking of quantity -1 has quantity <= 0, yet
    its unit price is computed (-50) without any error, the order
    creation returns the new order's id, and the line is written with
    that price. *)
Lemma negative_quantity_is_not_refused :
  quantity (booking_of 100 7 (-1) 50) <= 0 /\
  SyncService.unit_price (booking_of 100 7 (-1) 50) = Ok (-50 # 1)%Q /\
  (let run := SyncService.create_sale_order_in_odoo
                (order_of 100 "100" [item 7 (-1) 50 None]) [booking_of 100 7 (-1) 50]
                (world_with [product_100_7]) in
   fst run = Ok (PInt 6) /\
   In {| rec_model := "sale.order.line"; rec_id := 7;
         rec_fields := [("order_id", PInt 6); ("product_id", PInt 4);
                        ("product_uom_qty", PInt (-1));
                        ("price_unit", PFloat (-50 # 1))] |}
      (erp_db (snd run))).
Proof.
  split; [vm_compute; discriminate|]. split; [reflexivity|].
  vm_compute. split; [reflexivity|]. do 3 right. left. reflexivity.
Qed.

(** C2 at the order of the claim: ERP sale order with external order id
    "555", incoming order 555 with status "completed". *)
Lemma order_555_is_updated :
  online (world_with [sale_order_555]) 2 /\
  ord_status order_555 = "completed" /\
  (let run := SyncService.process_woo_order order_555 (world_with [sale_order_555]) in
   fst run = Ok true /\
   map is_create (erp_calls (snd run)) = [false; false; false] /\
   map is_write (erp_calls (snd run)) = [false; false; true] /\
   map (fun r => (rec_id r, Erp.field_value r "state")) (erp_db (snd run))
   = [(3, PStr "sale")]).
Proof.
  split; [apply world_with_online|]. split; [reflexivity|].
  destruct (process_order_updates_existing order_555 (world_with [sale_order_555]) 2
              sale_order_555 (world_with_online _) eq_refl
              (or_introl eq_refl) eq_refl)
    as (r0 & H0 & Hrun & _ & _).
  vm_compute in H0. injection H0 as <-.
  cbv zeta. rewrite Hrun. vm_compute. repeat split.
Defined.

(** C2 without the condition on the ERP: the sale order of order 555
    is in the store, the login goes through and the transport fails
    for the search.  The search is answered as empty, the order is
    processed as a new one, and the store ends with two sale orders
    for order 555. *)
Lemma order_555_is_created_again :
  In sale_order_555 (erp_db (world_failing [sale_order_555] [false; true])) /\
  Erp.matches "sale.order" (by_order_id order_555) sale_order_555 = true /\
  ord_status order_555 = "completed" /\
  (let run := SyncService.process_woo_order order_555
                (world_failing [sale_order_555] [false; true]) in
   fst run = Ok true /\
   map is_write (erp_calls (snd run)) = [false; false; false; false; false; false;
                                         false; false; false; false] /\
   map (fun r => (rec_id r, Erp.field_value r "x_woo_order_id"))
       (filter (fun r => String.eqb (rec_model r) "sale.order") (erp_db (snd run)))
   = [(3, PStr "555"); (6, PStr "555")]).
Proof. vm_compute. repeat split. now left. Qed.

(** C3 at a partner mapped to storefront customer 5. *)
Lemma customer_5_is_not_duplicated :
  online (world_with [partner_5]) 2 /\
  (let run1 := OdooClient.get_or_create_customer customer_5 (world_with [partner_5]) in
   let run2 := OdooClient.get_or_create_customer customer_5 (snd run1) in
   fst run1 = Ok (PInt 1) /\ fst run2 = Ok (PInt 1) /\
   erp_db (snd run2) = [partner_5]).
Proof.
  split; [apply world_with_online|].
  destruct (customer_upsert_idempotent customer_5 (world_with [partner_5]) 2 partner_5
              (world_with_online _) eq_refl (or_introl eq_refl) eq_refl)
    as (r0 & H0 & H1 & H2).
  vm_compute in H0. injection H0 as <-.
  cbv zeta. rewrite H1. cbn [fst snd]. rewrite H2. repeat split.
Defined.

(** C3 without the condition on the ERP: the partner mapped to
    customer 5 is in the store, the login goes through and the
    transport fails for the two searches.  Both are answered as empty
    and a second partner with external id "5" is created. *)
Lemma customer_5_is_duplicated :
  In partner_5 (erp_db (world_failing [partner_5] [false; true; true])) /\
  Erp.matches "res.partner" (by_external_id customer_5) partner_5 = true /\
  (let run := OdooClient.get_or_create_customer customer_5
                (world_failing [partner_5] [false; true; true]) in
   fst run = Ok (PInt 2) /\
   map (fun r => (rec_model r, rec_id r, Erp.field_value r "x_woo_id")) (erp_db (snd run))
   = [("res.partner", 1, PStr "5"); ("res.partner", 2, PStr "5")]).
Proof. vm_compute. repeat split. now left. Qed.

(** C4 fails on the code: the partner found by email already carries
    external id "5"; the upsert for storefront customer 9 with the same
    email overwrites it with "9". *)
Lemma email_fallback_overwrites_external_id :
  Erp.field_value partner_5 "x_woo_id" = PStr "5" /\
  (let run := OdooClient.get_or_create_customer customer_9 (world_with [partner_5]) in
   fst run = Ok (PInt 1) /\
   map (fun r => (rec_id r, Erp.field_value r "x_woo_id")) (erp_db (snd run))
   = [(1, PStr "9")] /\
   erp_calls (snd run)
   = [CallSearch "res.partner" [("x_woo_id", OpEq, PStr "9")] (Some 1);
      CallSearch "res.partner" [("email", OpEq, PStr "ann@example.org")] (Some 1);
      CallRead "res.partner" [1] None;
      CallWrite "res.partner" [PInt 1] [("x_woo_id", PInt 9)]]).
Proof. vm_compute. repeat split. Qed.

(** C5 at order 42 of the scenario. *)
Lemma order_42_bookings :
  Forall keyless (items order_42) /\
  exists b,
    WooCommerceClient.extract_booking_data order_42 = Ok [b] /\
    persons b = Some 1 /\ booking_date b = Some (PStr "2024-05-01T10:00:00").
Proof.
  assert (H : Forall keyless (items order_42)).
  { repeat constructor. }
  split; [exact H|].
  destruct (extract_without_metadata order_42 H) as (bs & Hrun & Hall).
  inversion Hall as [|item b l1 l2 (Hp & Hd & _) Hrest E1 E2]; subst.
  inversion Hrest; subst.
  exists b. auto.
Defined.

(** C7 at a product whose external id is in the store: the incoming
    price 80 does not replace the stored price 50. *)
Lemma product_100_7_is_left_alone :
  online (world_with [product_100_7]) 2 /\
  (let run := OdooClient.get_or_create_product product_data_100_7
                (world_with [product_100_7]) in
   fst run = Ok (PInt 4) /\ erp_db (snd run) = [product_100_7]).
Proof.
  split; [apply world_with_online|].
  destruct (proj2 (product_upsert_never_updates product_data_100_7
                     (world_with [product_100_7]))
              2 product_100_7 (world_with_online _) eq_refl
              (or_introl eq_refl) eq_refl)
    as (r0 & H0 & Hrun).
  vm_compute in H0. injection H0 as <-.
  cbv zeta. rewrite Hrun. split; reflexivity.
Defined.

(** C7 without the condition on the ERP: the product of booking
    (100, 7) is in the store, the login goes through and the transport
    fails for the search.  The search is answered as empty and a
    second product with external id "100_7" is created. *)
Lemma product_100_7_is_duplicated :
  In product_100_7 (erp_db (world_failing [product_100_7] [false; true])) /\
  Erp.matches "product.product" (by_external_id product_data_100_7_dated) product_100_7 = true /\
  (let run := OdooClient.get_or_create_product product_data_100_7_dated
                (world_failing [product_100_7] [false; true]) in
   fst run = Ok (PInt 5) /\
   map (fun r => (rec_model r, rec_id r, Erp.field_value r "x_woo_id")) (erp_db (snd run))
   = [("product.product", 4, PStr "100_7"); ("product.product", 5, PStr "100_7")]).
Proof. vm_compute. repeat split. now left. Qed.

(** C8 at a failing search: the matching partner is not reported. *)
Lemma failed_search_looks_empty :
  nth_error (erp_faults world_search_fails) (search_slot world_search_fails) = Some true /\
  fst (OdooClient.search_records "res.partner"
         [("x_woo_id", OpEq, PStr "5")] None (Some 1) world_search_fails) = Ok [].
Proof.
  split; [reflexivity|].
  apply (proj1 (proj2 (proj2 (search_records_always_a_list "res.partner"
                  [("x_woo_id", OpEq, PStr "5")] None (Some 1) world_search_fails)))).
  reflexivity.
Defined.



(** The order that carries the superscript count is not processed. *)
Lemma superscript_order_is_dropped :
  fst (SyncService.process_woo_order order_superscript (world_with [])) = Ok false.
Proof. vm_compute. reflexivity. Qed.

End Runs.

(** C10 fails on the code: [str.isdigit] holds for the superscript two,
    which [int(...)] refuses; under a persons key, instead of setting
    the person count to 1, the scan raises [ValueError], and so does
    [extract_booking_data] on an order that carries such a value. *)
Theorem superscript_person_count_raises {RT : Runtime} :
  isdigit (String (chr 178) "") = true /\
  all_chars is_decimal (String (chr 178) "") = false /\
  int (PStr (String (chr 178) "")) = Raise ValueError /\
  persons_key Demo.persons_superscript = true /\
  WooCommerceClient.extract_booking_data Demo.order_superscript = Raise ValueError.
Proof.
  split; [vm_compute; reflexivity|]. split; [vm_compute; reflexivity|].
  split; [vm_compute; reflexivity|]. split; [vm_compute; reflexivity|].
  vm_compute. reflexivity.
Qed.

(** ** Further properties of the clients and of the service *)

(** *** Computations that never raise *)

Section Answers.
Context {RT : Runtime}.

Lemma answers_ret {A} (P : A -> Prop) (a : A) : P a -> answers P (ret a).
Proof. intros H w. unfold ret. eauto. Qed.

Lemma answers_bind {A B} (Q : A -> Prop) (P : B -> Prop) (m : M A) (k : A -> M B) :
  answers Q m -> (forall a, Q a -> answers P (k a)) -> answers P (bind m k).
Proof.
  intros Hm Hk w. rewrite bind_eq. destruct (Hm w) as (a & w1 & E & Ha). rewrite E.
  now apply Hk.
Qed.

Lemma answers_try {A} (P : A -> Prop) (body : M A) (h : exn -> M A) :
  yields P body -> (forall e, answers P (h e)) -> answers P (try_except body h).
Proof.
  intros Hb Hh w. rewrite try_eq. destruct (body w) as [[a|e] w1] eqn:E.
  - exists a, w1. split; [reflexivity | exact (Hb _ _ _ E)].
  - apply Hh.
Qed.

Lemma answers_weaken {A} (P Q : A -> Prop) (m : M A) :
  (forall a, P a -> Q a) -> answers P m -> answers Q m.
Proof. intros H Hm w. destruct (Hm w) as (a & w' & E & Ha). eauto. Qed.

Lemma yields_ret {A} (P : A -> Prop) (a : A) : P a -> yields P (ret a).
Proof. intros H w a' w' E. injection E as <- _. exact H. Qed.

Lemma yields_any {A} (m : M A) : yields (fun _ => True) m.
Proof. intros w a w' _. exact I. Qed.

Lemma yields_bind {A B} (P : B -> Prop) (m : M A) (k : A -> M B) :
  (forall a, yields P (k a)) -> yields P (bind m k).
Proof.
  intros Hk w b w'. rewrite bind_eq. destruct (m w) as [[a|e] w1]; [apply Hk | discriminate].
Qed.

Lemma yields_execute_kw {A} (P : A -> Prop) u c (serve : M A) :
  yields P serve -> yields P (Erp.execute_kw u c serve).
Proof.
  intros H w a w'. rewrite execute_kw_eq.
  destruct (_ || _)%bool; [discriminate|].
  destruct (faulty _); [discriminate|].
  destruct (Erp.granted _ _); [apply H | discriminate].
Qed.

Lemma read_all_ids db model ids fields ds :
  Erp.read_all db model ids fields = Some ds -> Forall has_id ds.
Proof.
  revert ds. induction ids as [|i ids IH]; intros ds; cbn [Erp.read_all].
  - intros H. injection H as <-. constructor.
  - destruct (Erp.find_record db model i) as [r|]; [|discriminate].
    destruct (Erp.read_all db model ids fields) as [ds'|]; [|discriminate].
    intros H. injection H as <-. constructor; [|now apply IH].
    exists (rec_id r). reflexivity.
Qed.

(** [search_records] returns in every world, and every dict it returns
    carries an id. *)
Lemma search_records_answers model domain fields limit :
  answers (Forall has_id) (OdooClient.search_records model domain fields limit).
Proof.
  unfold OdooClient.search_records.
  apply answers_try; [|intros e; apply answers_ret; constructor].
  apply yields_bind. intros _. apply yields_bind. intros w0. apply yields_bind.
  intros ids. destruct ids as [|i ids]; [apply yields_ret; constructor|].
  apply yields_bind. intros w1. apply yields_execute_kw.
  intros w ds w'. rewrite serve_read_eq.
  destruct (Erp.read_all _ _ _ _) as [ds'|] eqn:E; [|discriminate].
  intros H. injection H as <- _. exact (read_all_ids _ _ _ _ _ E).
Qed.

Lemma getitem_id_answers (d : pydict) : has_id d -> answers id_or_none (getitem d "id").
Proof.
  intros [i H] w. unfold getitem. rewrite H. unfold ret.
  exists (PInt i), w. split; [reflexivity | right; eauto].
Qed.

Lemma getitem_truthy_answers (d : pydict) (k : string) :
  truthy (get d k) = true -> answers (fun _ => True) (getitem d k).
Proof. intros Ht. rewrite (truthy_get _ _ Ht). now apply answers_ret. Qed.

Lemma lookup_external_answers model data :
  answers found_with_id (OdooClient.lookup_external model data).
Proof.
  unfold OdooClient.lookup_external, OdooClient.get_record_by_external_id.
  destruct (truthy (get data "woo_id")) eqn:Ht; [|apply answers_ret; exact I].
  apply (answers_bind (fun _ => True)); [now apply getitem_truthy_answers|].
  intros woo_id _.
  apply (answers_bind found_with_id); [|intros [[|kv d]|] H; apply answers_ret; auto; exact I].
  apply (answers_bind (Forall has_id)); [apply search_records_answers|].
  intros [|d ds] Hds; apply answers_ret; [exact I|].
  now inversion Hds.
Qed.

Lemma create_record_answers model data :
  answers id_or_none (OdooClient.create_record model data).
Proof.
  unfold OdooClient.create_record. apply answers_try.
  - apply yields_bind. intros _. apply yields_bind. intros w0. apply yields_bind.
    intros i. apply yields_ret. right. eauto.
  - intros e. apply answers_ret. now left.
Qed.

Lemma update_record_answers model record_id data :
  answers (fun _ => True) (OdooClient.update_record model record_id data).
Proof.
  unfold OdooClient.update_record.
  apply answers_try; [apply yields_any | intros e; now apply answers_ret].
Qed.

Lemma get_or_create_customer_answers (data : pydict) :
  answers id_or_none (OdooClient.get_or_create_customer data).
Proof.
  unfold OdooClient.get_or_create_customer.
  apply (answers_bind found_with_id); [apply lookup_external_answers|].
  intros [d|] Hd; [now apply getitem_id_answers|].
  apply (answers_bind (Forall has_id)); [apply search_records_answers|].
  intros [|d ds] Hds; [apply create_record_answers|].
  inversion Hds as [|? ? Hd' _]; subst.
  apply (answers_bind (fun _ => True)); [|intros _ _; now apply getitem_id_answers].
  destruct (truthy (get data "woo_id")) eqn:Ht; [|now apply answers_ret].
  apply (answers_bind id_or_none); [now apply getitem_id_answers|]. intros i _.
  apply (answers_bind (fun _ => True)); [now apply getitem_truthy_answers|]. intros v _.
  apply (answers_bind (fun _ => True)); [apply update_record_answers|]. intros b _.
  now apply answers_ret.
Qed.

Lemma get_or_create_product_answers (data : pydict) :
  answers id_or_none (OdooClient.get_or_create_product data).
Proof.
  unfold OdooClient.get_or_create_product.
  apply (answers_bind found_with_id); [apply lookup_external_answers|].
  intros [d|] Hd; [now apply getitem_id_answers | apply create_record_answers].
Qed.

End Answers.

(** X1.  Neither upsert ever raises: in every world, whatever the
    payload, [get_or_create_customer] and [get_or_create_product]
    return, and what they return is a record id or [None]. *)
Theorem upserts_never_raise {RT : Runtime} (data : pydict) (w : world) :
  (exists v w', OdooClient.get_or_create_customer data w = (Ok v, w') /\ id_or_none v) /\
  (exists v w', OdooClient.get_or_create_product data w = (Ok v, w') /\ id_or_none v).
Proof.
  split; [apply get_or_create_customer_answers | apply get_or_create_product_answers].
Qed.

(** *** Relations kept by the session handling and by the queries *)

Section Tolerance.
Context {RT : Runtime}.
Context (allowed : erp_call -> bool) (R : world -> world -> Prop) {HT : Tolerant allowed R}.

Lemma login_value_consume (w : world) : login_value (consume w) = login_value w.
Proof. unfold login_value, consume. destruct (erp_faults w); reflexivity. Qed.

Lemma tolerant_ensure_session : keeps R OdooClient.ensure_session.
Proof.
  intros w. rewrite ensure_session_eq. cbn [snd].
  destruct (truthy (uid w)); [reflexivity|].
  destruct (faulty w); [apply (@tolerant_consume allowed R HT)|].
  etransitivity; [apply (@tolerant_consume allowed R HT)|].
  rewrite <- login_value_consume. apply (@tolerant_uid allowed R HT).
Qed.

Lemma tolerant_execute_kw {A} u c (serve : M A) :
  allowed c = true -> keeps R serve -> keeps R (Erp.execute_kw u c serve).
Proof.
  intros Hc Hs w. rewrite execute_kw_eq.
  assert (Hn : R w (noted w c)) by (apply (@tolerant_noted allowed R HT); exact Hc).
  destruct (_ || _)%bool; [exact Hn|].
  assert (H : R w (consume (noted w c))).
  { etransitivity; [exact Hn | apply (@tolerant_consume allowed R HT)]. }
  destruct (faulty _); [exact H|].
  destruct (Erp.granted _ _); [|exact H].
  etransitivity; [exact H | apply Hs].
Qed.

(** A call that cannot be encoded is noted and goes no further. *)
Lemma tolerant_unsent {A} u c (serve : M A) :
  allowed c = true -> Erp.marshals c = false -> keeps R (Erp.execute_kw u c serve).
Proof.
  intros Hc Hm w. rewrite execute_kw_eq, Hm, orb_true_r.
  apply (@tolerant_noted allowed R HT). exact Hc.
Qed.

Lemma tolerant_serve_search model domain limit : keeps R (Erp.serve_search model domain limit).
Proof. intros w. rewrite serve_search_world. reflexivity. Qed.

Lemma tolerant_serve_read model ids fields : keeps R (Erp.serve_read model ids fields).
Proof.
  intros w. rewrite serve_read_eq. destruct (Erp.read_all _ _ _ _); reflexivity.
Qed.

Hypothesis queries_allowed : forall c, is_query c = true -> allowed c = true.

Lemma tolerant_search_records model domain fields limit :
  keeps R (OdooClient.search_records model domain fields limit).
Proof.
  unfold OdooClient.search_records.
  repeat keeps_step;
    auto using tolerant_ensure_session, tolerant_execute_kw, tolerant_serve_search,
               tolerant_serve_read.
Qed.

Lemma tolerant_lookup_external model data : keeps R (OdooClient.lookup_external model data).
Proof.
  unfold OdooClient.lookup_external, OdooClient.get_record_by_external_id.
  repeat keeps_step; auto using tolerant_search_records.
Qed.

End Tolerance.

#[local] Instance same_store_tolerant : Tolerant any_call same_store.
Proof.
  split.
  - split; [intros w; reflexivity | intros a b c H1 H2; unfold same_store in *; congruence].
  - intros w. unfold same_store, consume. destruct (erp_faults w); reflexivity.
  - intros w. reflexivity.
  - intros w c _. reflexivity.
Qed.

#[local] Instance same_size_tolerant : Tolerant any_call same_size.
Proof.
  split.
  - split; [intros w; reflexivity | intros a b c H1 H2; unfold same_size in *; congruence].
  - intros w. unfold same_size, consume. destruct (erp_faults w); reflexivity.
  - intros w. reflexivity.
  - intros w c _. reflexivity.
Qed.

Section Unsent.
Context {RT : Runtime}.

Lemma create_record_unsent model data (w : world) :
  Erp.no_none data = false ->
  exists w', OdooClient.create_record model data w = (Ok PNone, w') /\ same_store w w'.
Proof.
  intros Hn. unfold OdooClient.create_record. rewrite try_eq, bind_eq.
  pose proof (tolerant_ensure_session any_call same_store w) as H1.
  rewrite ensure_session_eq in *. cbn [snd] in H1. cbv iota beta.
  rewrite bind_eq. unfold read_world at 1. cbv iota beta. rewrite bind_eq, execute_kw_eq.
  rewrite marshals_create, (no_none_sendable _ Hn), orb_true_r. cbv iota beta.
  eexists. split; [reflexivity | exact H1].
Qed.

Lemma update_record_unsent model record_id data (w : world) :
  Erp.no_none data = false ->
  exists w', OdooClient.update_record model record_id data w = (Ok false, w') /\
             same_store w w'.
Proof.
  intros Hn. unfold OdooClient.update_record. rewrite try_eq, bind_eq.
  pose proof (tolerant_ensure_session any_call same_store w) as H1.
  rewrite ensure_session_eq in *. cbn [snd] in H1. cbv iota beta.
  rewrite bind_eq. unfold read_world at 1. cbv iota beta. rewrite execute_kw_eq.
  rewrite marshals_write, (no_none_sendable _ Hn), andb_false_r, orb_true_r. cbv iota beta.
  eexists. split; [reflexivity | exact H1].
Qed.

End Unsent.

(** X2.  A record with an unset ([None]) field is never sent to the
    ERP: XML-RPC has no encoding for [None], so in every world
    [create_record] answers [None] and [update_record] answers [False]
    for such data, and the store is left as it was. *)
Theorem none_fields_are_never_sent {RT : Runtime}
        (model : string) (record_id : pyval) (data : pydict) (w : world) :
  Erp.no_none data = false ->
  (exists w', OdooClient.create_record model data w = (Ok PNone, w') /\
              erp_db w' = erp_db w) /\
  (exists w', OdooClient.update_record model record_id data w = (Ok false, w') /\
              erp_db w' = erp_db w).
Proof.
  intros Hn. split.
  - apply create_record_unsent; exact Hn.
  - apply update_record_unsent; exact Hn.
Qed.

(** *** Customers that cannot be stored *)

Section Unstored.
Context {RT : Runtime}.

Lemma keeps_bind_yields (R : world -> world -> Prop) {HR : PreOrder R}
      {A B} (Q : A -> Prop) (m : M A) (k : A -> M B) :
  keeps R m -> yields Q m -> (forall a, Q a -> keeps R (k a)) -> keeps R (bind m k).
Proof.
  intros Hm Hy Hk w. rewrite bind_eq. specialize (Hm w).
  destruct (m w) as [[a|e] w1] eqn:E; cbn [snd] in *; [|exact Hm].
  etransitivity; [exact Hm | apply Hk; exact (Hy _ _ _ E)].
Qed.

(** A search whose filter holds a [None] is never sent: it answers the
    empty list. *)
Lemma search_unclean_yields model domain fields limit :
  clean domain = false ->
  yields (fun ds => ds = []) (OdooClient.search_records model domain fields limit).
Proof.
  intros Hc. unfold OdooClient.search_records. intros w ds w'. rewrite try_eq, bind_eq.
  destruct (OdooClient.ensure_session w) as [[[]|e] w1];
    [|unfold ret; intros H; now injection H as <- _].
  rewrite bind_eq. unfold read_world at 1. cbv iota beta. rewrite bind_eq, execute_kw_eq.
  rewrite marshals_search, Hc. cbn [andb negb]. rewrite orb_true_r. cbv iota beta.
  unfold ret. intros H. now injection H as <- _.
Qed.

Lemma create_customer_unstored (customer_data : pydict) :
  get customer_data "woo_id" = PNone \/ get customer_data "email" = PNone ->
  keeps same_store (OdooClient.create_customer customer_data).
Proof.
  intros H w. unfold OdooClient.create_customer.
  match goal with |- context [OdooClient.create_record ?m ?d w] =>
    destruct (create_record_unsent m d w) as (w' & -> & Hw)
  end; [|exact Hw].
  cbn [Erp.no_none forallb snd]. destruct H as [-> | ->]; cbn [Erp.is_none negb andb];
    rewrite ?andb_false_r; reflexivity.
Qed.

Lemma get_or_create_customer_unstored (customer_data : pydict) :
  get customer_data "woo_id" = PNone \/ get customer_data "email" = PNone ->
  keeps same_store (OdooClient.get_or_create_customer customer_data).
Proof.
  intros H. unfold OdooClient.get_or_create_customer.
  keeps_apply @keeps_bind.
  { apply (tolerant_lookup_external any_call same_store). reflexivity. }
  intros [existing|]; [keeps_apply @keeps_getitem|].
  destruct H as [H | H].
  - keeps_apply @keeps_bind.
    { apply (tolerant_search_records any_call same_store). reflexivity. }
    intros [|first rest]; [apply create_customer_unstored; now left|].
    rewrite H. cbn [truthy]. repeat keeps_step.
  - apply (keeps_bind_yields same_store (fun ds => ds = [])).
    + apply (tolerant_search_records any_call same_store). reflexivity.
    + apply search_unclean_yields. cbn. rewrite H. reflexivity.
    + intros ds ->. apply create_customer_unstored; now right.
Qed.

End Unstored.

(** X3.  A customer payload without id or without email never changes
    the store: in every world [process_woo_customer] returns, and the
    records of the ERP are exactly those it started with -- no partner
    is created for such a customer and none is written to. *)
Theorem customer_without_id_or_email_is_not_stored {RT : Runtime}
        (customer_id email : pyval) (first_name last_name phone : string) (w : world) :
  customer_id = PNone \/ email = PNone ->
  exists ok w',
    SyncService.process_woo_customer customer_id email first_name last_name phone w
    = (Ok ok, w') /\
    erp_db w' = erp_db w.
Proof.
  intros H.
  assert (Hk : keeps same_store
                 (SyncService.process_woo_customer customer_id email first_name last_name phone)).
  { unfold SyncService.process_woo_customer.
    repeat keeps_step. apply get_or_create_customer_unstored.
    destruct H as [-> | ->]; [left | right]; reflexivity. }
  specialize (Hk w).
  destruct (try_except_returns
              (partner_id <- OdooClient.get_or_create_customer
                               [ ("name", PStr (strip (first_name ++ " " ++ last_name)));
                                 ("email", email); ("phone", PStr phone);
                                 ("woo_id", customer_id) ] ;;
               if truthy partner_id then ret true else ret false) false w)
    as (ok & w' & E).
  unfold SyncService.process_woo_customer in *. rewrite E in *. eauto.
Qed.

(** *** Customers without a storefront id *)

Section Guests.
Context {RT : Runtime}.

Lemma quiet_guest (customer_data : pydict) :
  truthy (get customer_data "woo_id") = false ->
  keeps only_adds (OdooClient.get_or_create_customer customer_data).
Proof.
  intros Ht. unfold OdooClient.get_or_create_customer, OdooClient.create_customer.
  keeps_apply @keeps_bind; [apply quiet_lookup_external|].
  intros [existing|]; [keeps_apply @keeps_getitem|].
  keeps_apply @keeps_bind; [apply quiet_search_records|].
  intros [|first rest]; [apply quiet_create_record|].
  rewrite Ht. repeat keeps_step.
Qed.

Lemma guest_found_by_email (customer_data : pydict) (w : world) (u : Z) (r1 : erp_record) :
  online w u ->
  truthy (get customer_data "woo_id") = false ->
  clean (by_email customer_data) = true ->
  first_match (erp_db w) "res.partner" (by_email customer_data) = Some r1 ->
  OdooClient.get_or_create_customer customer_data w =
  (Ok (PInt (rec_id r1)),
   after w u [CallSearch "res.partner" (by_email customer_data) (Some 1);
              CallRead "res.partner" [rec_id r1] None] (erp_db w)).
Proof.
  intros Hon Ht Hc Hf. unfold OdooClient.get_or_create_customer, OdooClient.lookup_external.
  rewrite Ht. rewrite bind_eq. unfold ret at 1. cbv iota beta.
  rewrite bind_eq. fold (by_email customer_data).
  rewrite (search_one_online w u) by auto.
  destruct (lookup_first_match _ _ _ _ Hf) as (fs & -> & ->). cbv iota beta.
  rewrite bind_eq. unfold ret at 1. cbv iota beta.
  unfold getitem. cbn [dict_get String.eqb Ascii.eqb Bool.eqb]. reflexivity.
Qed.

End Guests.

(** X4.  A customer whose storefront id is missing or 0 (a guest
    checkout) is never written to: in every world the upsert makes no
    [write] call and touches no record that was in the store.  Over a
    reachable ERP, when a partner has the customer's email, the upsert
    returns the first such partner's id after a search and a read only:
    the partner is matched by email alone and keeps its external id. *)
Theorem guest_customer_is_matched_by_email_only {RT : Runtime}
        (customer_data : pydict) (w : world) :
  truthy (get customer_data "woo_id") = false ->
  only_adds w (snd (OdooClient.get_or_create_customer customer_data w)) /\
  (forall u r1,
     online w u ->
     clean (by_email customer_data) = true ->
     first_match (erp_db w) "res.partner" (by_email customer_data) = Some r1 ->
     OdooClient.get_or_create_customer customer_data w =
     (Ok (PInt (rec_id r1)),
      after w u [CallSearch "res.partner" (by_email customer_data) (Some 1);
                 CallRead "res.partner" [rec_id r1] None] (erp_db w))).
Proof.
  intros Ht. split; [now apply quiet_guest|].
  intros u r1 Hon Hc Hf. now apply guest_found_by_email.
Qed.

(** *** Updates of an existing sale order *)

Section Statuses.
Context {RT : Runtime}.

Lemma dict_get_set_other (d : pydict) (k k' : string) (v : pyval) :
  k <> k' -> dict_get (dict_set d k v) k' = dict_get d k'.
Proof.
  intros Hne. induction d as [|[k0 v0] d IH]; simpl.
  - destruct (String.eqb_spec k' k); [congruence | reflexivity].
  - destruct (String.eqb_spec k k0) as [E|E]; simpl.
    + subst k0. destruct (String.eqb_spec k' k); [congruence | reflexivity].
    + destruct (String.eqb k' k0); [reflexivity | exact IH].
Qed.

Lemma process_existing (o : order) (w : world) (u : Z) (r0 : erp_record) :
  online w u ->
  first_match (erp_db w) "sale.order" (by_order_id o) = Some r0 ->
  SyncService.process_woo_order o w =
  (Ok true,
   after w u [CallSearch "sale.order" (by_order_id o) (Some 1);
              CallRead "sale.order" [rec_id r0] None;
              CallWrite "sale.order" [PInt (rec_id r0)] (update_fields w o)]
     (written (erp_db w) "sale.order" [PInt (rec_id r0)] (update_fields w o))).
Proof.
  intros Hon Hf. unfold SyncService.process_woo_order.
  rewrite try_eq, bind_eq. fold (by_order_id o).
  rewrite (search_one_online w u) by auto.
  destruct (lookup_first_match _ _ _ _ Hf) as (fs & -> & ->). cbv iota beta.
  unfold SyncService.update_existing_order.
  rewrite try_eq, bind_eq. unfold getitem at 1. cbn [dict_get String.eqb Ascii.eqb Bool.eqb].
  unfold ret at 1. cbv iota beta. rewrite bind_eq. unfold read_world at 1. cbv iota beta.
  assert (E : (if String.eqb (ord_status o) "completed"
               then dict_set [("note", PStr (update_note w o))] "state" (PStr "sale")
               else if String.eqb (ord_status o) "cancelled"
                    then dict_set [("note", PStr (update_note w o))] "state" (PStr "cancel")
                    else [("note", PStr (update_note w o))]) = update_fields w o).
  { unfold update_fields, state_for.
    destruct (String.eqb (ord_status o) "completed"); [reflexivity|].
    destruct (String.eqb (ord_status o) "cancelled"); reflexivity. }
  unfold update_note in E. unfold SyncService.nl in *.
  change (clock (after w u [CallSearch "sale.order" (by_order_id o) (Some 1);
                            CallRead "sale.order" [rec_id r0] None] (erp_db w)))
    with (clock w).
  rewrite E. clear E.
  rewrite bind_eq.
  rewrite (update_record_online _ u) by (auto using online_after).
  rewrite after_db.
  assert (Hm : Erp.marshals (CallWrite "sale.order" [PInt (rec_id r0)] (update_fields w o))
               = true).
  { unfold update_fields. destruct (state_for (ord_status o)); reflexivity. }
  rewrite Hm, (known_first_match _ _ _ _ Hf). cbv iota beta.
  rewrite after_after. reflexivity.
Qed.

Lemma note_keeps_fields (r : erp_record) (v : pyval) (f : string) :
  f <> "note" ->
  Erp.field_value {| rec_model := rec_model r; rec_id := rec_id r;
                     rec_fields := Erp.write_fields (rec_fields r) [("note", v)] |} f
  = Erp.field_value r f.
Proof.
  intros Hne. unfold Erp.field_value. cbn [rec_id rec_fields Erp.write_fields fold_left fst snd].
  destruct (String.eqb f "id"); [reflexivity|].
  unfold get_default. rewrite dict_get_set_other by congruence. reflexivity.
Qed.

End Statuses.

(** X5.  What an update of an existing sale order does with the
    storefront status.  Over a reachable ERP that holds a sale order
    for the order, [process_woo_order] succeeds with a search, a read
    and one [write] on the first such sale order.  Status "completed"
    sets the state 'sale' and "cancelled" sets 'cancel'; for any other
    status ("refunded", "processing", ...) only the note is written:
    every other field of every record, the state included, reads as
    before. *)
Theorem order_update_follows_status {RT : Runtime}
        (o : order) (w : world) (u : Z) (r : erp_record) :
  online w u ->
  In r (erp_db w) ->
  Erp.matches "sale.order" (by_order_id o) r = true ->
  exists r0,
    first_match (erp_db w) "sale.order" (by_order_id o) = Some r0 /\
    let w' := after w u [CallSearch "sale.order" (by_order_id o) (Some 1);
                         CallRead "sale.order" [rec_id r0] None;
                         CallWrite "sale.order" [PInt (rec_id r0)] (update_fields w o)]
                (written (erp_db w) "sale.order" [PInt (rec_id r0)] (update_fields w o)) in
    SyncService.process_woo_order o w = (Ok true, w') /\
    (forall s, state_for (ord_status o) = Some s ->
       forall r', In r' (erp_db w') -> rec_model r' = "sale.order" ->
                  rec_id r' = rec_id r0 -> Erp.field_value r' "state" = PStr s) /\
    (state_for (ord_status o) = None ->
       forall f, f <> "note" ->
         map (fun r' => Erp.field_value r' f) (erp_db w')
         = map (fun r' => Erp.field_value r' f) (erp_db w)).
Proof.
  intros Hon Hin Hm.
  destruct (first_match_some _ _ _ _ Hin Hm) as [r0 H0].
  exists r0. split; [exact H0|]. cbv zeta. split; [|split].
  - now apply process_existing.
  - rewrite after_db. intros s Hs r' Hr' Hmodel Hid.
    destruct (written_target _ _ _ _ _ Hr' Hmodel Hid) as (r1 & _ & Hf).
    unfold Erp.field_value. cbn [String.eqb Ascii.eqb Bool.eqb]. rewrite Hf.
    unfold update_fields. rewrite Hs.
    unfold Erp.write_fields, get_default. cbn [fold_left fst snd].
    change (Erp.stored "state" (PStr s)) with (PStr s).
    now rewrite dict_get_set_same.
  - rewrite after_db. intros Hs f Hne. unfold update_fields. rewrite Hs.
    unfold written. rewrite map_map. apply map_ext. intros r1.
    destruct (Erp.targeted _ _ r1); [|reflexivity].
    now apply note_keeps_fields.
Qed.

(** *** Orders and bookings that are not synced *)

Section Dropped.
Context {RT : Runtime}.

Lemma sync_booking_unreadable (b : booking) (w : world) :
  unreadable_date b -> SyncService.sync_booking_to_odoo b w = (Ok false, w).
Proof.
  intros (s & Hd & Ht & Hiso). unfold SyncService.sync_booking_to_odoo.
  rewrite try_eq, bind_eq. unfold SyncService.product_data_of, SyncService.formatted_date.
  rewrite Hd, Ht, Hiso. reflexivity.
Qed.

Lemma sync_bookings_unreadable (bookings : list booking) (n : Z) (w : world) :
  Forall unreadable_date bookings ->
  for_each bookings
    (fun b success_count =>
       ok <- SyncService.sync_booking_to_odoo b ;;
       if ok then ret (success_count + 1) else ret success_count) n w
  = (Ok n, w).
Proof.
  induction 1 as [|b bs Hb _ IH]; cbn [for_each]; [reflexivity|].
  rewrite bind_eq, bind_eq, (sync_booking_unreadable b w Hb). cbv iota beta.
  unfold ret at 1. cbv iota beta. exact IH.
Qed.

Lemma add_order_line_without_product (sale_order_id : pyval) (b : booking) (w : world) (u : Z) cs :
  online w u ->
  first_match (erp_db w) "product.product" (product_key b) = None ->
  SyncService.add_order_line sale_order_id b (after w u cs (erp_db w))
  = (Ok tt, after w u (cs ++ [product_search b]) (erp_db w)).
Proof.
  intros Hon Hf. unfold SyncService.add_order_line.
  rewrite bind_eq, (get_record_online _ u) by (auto using online_after).
  fold (product_key b). rewrite after_db.
  destruct (first_match_none _ _ _ Hf) as [-> ->]. cbn [hd_error OdooClient.present].
  cbv iota beta. rewrite after_after. reflexivity.
Qed.

Lemma lines_without_products (sale_order_id : pyval) (bookings : list booking)
      (w : world) (u : Z) cs :
  online w u ->
  Forall (fun b => first_match (erp_db w) "product.product" (product_key b) = None) bookings ->
  for_each bookings (fun b _ => SyncService.add_order_line sale_order_id b) tt
    (after w u cs (erp_db w))
  = (Ok tt, after w u (cs ++ map product_search bookings) (erp_db w)).
Proof.
  intros Hon H. revert cs. induction H as [|b bs Hb _ IH]; intros cs; cbn [for_each map].
  - now rewrite app_nil_r.
  - rewrite bind_eq, (add_order_line_without_product _ _ _ _ _ Hon Hb).
    rewrite IH, <- app_assoc. reflexivity.
Qed.

End Dropped.

(** X6.  An order without line items that has no sale order yet is
    reported as failed: over a reachable ERP [process_woo_order]
    returns [False] after the one search for the sale order, and
    nothing is created. *)
Theorem order_without_items_is_refused {RT : Runtime} (o : order) (w : world) (u : Z) :
  online w u ->
  items o = [] ->
  first_match (erp_db w) "sale.order" (by_order_id o) = None ->
  SyncService.process_woo_order o w =
  (Ok false, after w u [CallSearch "sale.order" (by_order_id o) (Some 1)] (erp_db w)).
Proof.
  intros Hon Hi Hf. unfold SyncService.process_woo_order.
  rewrite try_eq, bind_eq. fold (by_order_id o).
  rewrite (search_one_online w u) by auto.
  destruct (first_match_none _ _ _ Hf) as [-> ->]. cbv iota beta.
  rewrite bind_eq. unfold WooCommerceClient.extract_booking_data. fold (items o).
  rewrite Hi. reflexivity.
Qed.

(** X7.  A booking whose date holds a 'T' but is not an ISO date is
    not synced: in every world [sync_booking_to_odoo] returns [False]
    and leaves the world as it was -- no call reaches the ERP.  A batch
    made of such bookings counts no success. *)
Theorem unreadable_date_stops_the_booking {RT : Runtime}
        (b : booking) (bookings : list booking) (w : world) :
  unreadable_date b ->
  SyncService.sync_booking_to_odoo b w = (Ok false, w) /\
  (Forall unreadable_date bookings ->
   SyncService.sync_bookings bookings w = (Ok 0, w)).
Proof.
  intros Hb. split; [now apply sync_booking_unreadable|].
  intros Hall. unfold SyncService.sync_bookings. now apply sync_bookings_unreadable.
Qed.

(** X8.  Order lines are dropped without a trace when the product is
    missing: over a reachable ERP, for bookings none of which has its
    service product in the store, the loop of
    [create_sale_order_in_odoo] over the bookings makes one search per
    booking and nothing else.  It creates no line and raises nothing,
    whatever the quantities: the division by the quantity is not
    reached. *)
Theorem lines_are_skipped_without_product {RT : Runtime}
        (sale_order_id : pyval) (bookings : list booking) (w : world) (u : Z) :
  online w u ->
  Forall (fun b => first_match (erp_db w) "product.product" (product_key b) = None) bookings ->
  let run := for_each bookings (fun b _ => SyncService.add_order_line sale_order_id b) tt w in
  fst run = Ok tt /\
  erp_db (snd run) = erp_db w /\
  erp_calls (snd run) = (erp_calls w ++ map product_search bookings)%list.
Proof.
  intros Hon Hall. cbv zeta. destruct Hall as [|b bs Hb Hbs].
  - cbn [for_each map fst snd ret]. now rewrite app_nil_r.
  - cbn [for_each]. rewrite bind_eq.
    assert (E : SyncService.add_order_line sale_order_id b w
                = (Ok tt, after w u [product_search b] (erp_db w))).
    { unfold SyncService.add_order_line.
      rewrite bind_eq, (get_record_online _ u) by auto. fold (product_key b).
      destruct (first_match_none _ _ _ Hb) as [-> ->]. reflexivity. }
    rewrite E, (lines_without_products _ _ _ _ _ Hon Hbs). cbn [fst snd map].
    rewrite after_db, after_calls. auto.
Qed.

(** *** A booking synced twice *)

Section Twice.
Context {RT : Runtime}.

Lemma product_key_external (b : booking) (pd : pydict) :
  SyncService.product_data_of b = Ok pd ->
  by_external_id pd = product_key b /\ truthy (get pd "woo_id") = true.
Proof.
  intros Hpd. destruct (product_data_of_shape b pd Hpd) as (name & date & description & ->).
  split; [reflexivity|]. cbn. now rewrite composite_id_not_empty.
Qed.

Lemma new_product_matches (b : booking) (pd : pydict) (db : list erp_record) :
  SyncService.product_data_of b = Ok pd ->
  Erp.matches "product.product" (product_key b)
    (new_record db "product.product" (product_fields pd)) = true.
Proof.
  intros Hpd. destruct (product_data_of_shape b pd Hpd) as (name & date & description & ->).
  unfold Erp.matches, product_key, new_record, product_fields.
  cbn [rec_model forallb Erp.clause_holds]. unfold Erp.field_value.
  cbn [String.eqb Ascii.eqb Bool.eqb rec_fields Erp.write_fields fold_left fst snd
       dict_set get get_default dict_get andb].
  unfold get_default.
  cbn [String.eqb Ascii.eqb Bool.eqb dict_set dict_get Erp.stored Erp.text_field orb str].
  cbn [eqb]. unfold composite_id. now rewrite String.eqb_refl.
Qed.

Lemma sync_booking_found (b : booking) (pd : pydict) (w : world) (u : Z) (r0 : erp_record) :
  online w u ->
  SyncService.product_data_of b = Ok pd ->
  first_match (erp_db w) "product.product" (product_key b) = Some r0 ->
  rec_id r0 <> 0 ->
  SyncService.sync_booking_to_odoo b w =
  (Ok true, after w u (product_found_calls b (rec_id r0)) (erp_db w)).
Proof.
  intros Hon Hpd Hf Hid. unfold SyncService.sync_booking_to_odoo.
  rewrite try_eq, bind_eq, Hpd. unfold lift at 1. cbv iota beta.
  destruct (product_key_external b pd Hpd) as [Hk Ht].
  rewrite bind_eq, (get_or_create_product_found w u pd r0) by (rewrite ?Hk; auto).
  rewrite Hk. cbn [truthy]. destruct (Z.eqb_spec (rec_id r0) 0); [contradiction|].
  reflexivity.
Qed.

Lemma first_match_nonzero db model domain r0 :
  ids_nonzero db -> first_match db model domain = Some r0 -> rec_id r0 <> 0.
Proof.
  intros Hall Hf. destruct (first_match_in _ _ _ _ Hf) as [Hin _].
  unfold ids_nonzero in Hall. rewrite Forall_forall in Hall. now apply Hall.
Qed.

Lemma sync_booking_true (b : booking) (w w1 : world) (u : Z) :
  online w u ->
  ids_nonzero (erp_db w) ->
  SyncService.sync_booking_to_odoo b w = (Ok true, w1) ->
  exists pd cs db1 r0,
    SyncService.product_data_of b = Ok pd /\
    w1 = after w u cs db1 /\
    (db1 = erp_db w \/ db1 = (erp_db w ++ [r0])%list) /\
    first_match db1 "product.product" (product_key b) = Some r0 /\
    rec_id r0 <> 0.
Proof.
  intros Hon Hids Hrun.
  destruct (SyncService.product_data_of b) as [pd|e] eqn:Hpd.
  2: { unfold SyncService.sync_booking_to_odoo in Hrun.
       rewrite try_eq, bind_eq, Hpd in Hrun. discriminate Hrun. }
  exists pd.
  destruct (first_match (erp_db w) "product.product" (product_key b)) as [r0|] eqn:Hf.
  - pose proof (first_match_nonzero _ _ _ _ Hids Hf) as Hid.
    rewrite (sync_booking_found b pd w u r0 Hon Hpd Hf Hid) in Hrun. injection Hrun as <-.
    exists (product_found_calls b (rec_id r0)), (erp_db w), r0. auto.
  - rewrite (sync_booking_creates b pd w u Hon Hpd Hf) in Hrun.
    destruct (Erp.xmlrpc_int (SyncService.persons_get b)); [|discriminate Hrun].
    injection Hrun as <-.
    set (r0 := new_record (erp_db w) "product.product" (product_fields pd)).
    exists [CallSearch "product.product" (product_key b) (Some 1);
            CallCreate "product.product" (product_fields pd)],
           (erp_db w ++ [r0])%list, r0.
    split; [reflexivity|]. split; [reflexivity|]. split; [now right|]. split.
    + destruct (product_key_external b pd Hpd) as [Hk _]. rewrite <- Hk.
      apply first_match_created; rewrite Hk; [exact Hf|]. now apply new_product_matches.
    + pose proof (fresh_id_positive (erp_db w)). subst r0. cbn [rec_id new_record]. lia.
Qed.



End Twice.


(** X9.  Syncing a booking is idempotent over a reachable ERP.  When a
    sync of a booking has answered [True], a product with the booking's
    composite external id is in the store (the one that was there, or
    the one new record of that sync), and a second sync of the same
    booking answers [True] with a search and a read only: it creates
    nothing and leaves the store as the first one left it. *)
Theorem booking_sync_is_idempotent {RT : Runtime}
        (b : booking) (w w1 : world) (u : Z) :
  online w u ->
  ids_nonzero (erp_db w) ->
  SyncService.sync_booking_to_odoo b w = (Ok true, w1) ->
  exists r0,
    (erp_db w1 = erp_db w \/ erp_db w1 = (erp_db w ++ [r0])%list) /\
    first_match (erp_db w1) "product.product" (product_key b) = Some r0 /\
    SyncService.sync_booking_to_odoo b w1 =
    (Ok true, after w1 u (product_found_calls b (rec_id r0)) (erp_db w1)).
Proof.
  intros Hon Hids Hrun.
  destruct (sync_booking_true b w w1 u Hon Hids Hrun)
    as (pd & cs & db1 & r0 & Hpd & -> & Hdb & Hf & Hid).
  exists r0. rewrite after_db. split; [exact Hdb|]. split; [exact Hf|].
  apply (sync_booking_found b pd); auto using online_after.
Qed.

(** *** The text of integers *)

Lemma str_of_Z_inj (a b : Z) : str_of_Z a = str_of_Z b -> a = b.
Proof.
  unfold str_of_Z. intros H. apply DecimalZ.to_int_inj.
  assert (Hn : forall z, NilZero.int_of_string (NilZero.string_of_int (Z.to_int z))
                         = Some (Z.to_int z)).
  { intros z. apply NilZero.isi; destruct z as [|p|p]; try discriminate;
      simpl; pose proof (DecimalPos.Unsigned.to_uint_nonnil p); congruence. }
  pose proof (Hn a) as Ha. rewrite H, Hn in Ha. now injection Ha.
Qed.

Lemma product_path_inj (a b : Z) : product_path a = product_path b -> a = b.
Proof. unfold product_path. intros H. injection H as H. now apply str_of_Z_inj. Qed.

(** *** What the reverse sync touches *)

Lemma shop_kept_refl w : shop_kept w w.
Proof. split; [exists []; now rewrite app_nil_r | reflexivity]. Qed.

Lemma shop_kept_trans a b c : shop_kept a b -> shop_kept b c -> shop_kept a c.
Proof.
  intros [(q1 & H1 & H2) H3] [(q2 & H4 & H5) H6]. split.
  - exists (q1 ++ q2)%list. rewrite H4, H1, app_assoc, forallb_app, H2, H5. auto.
  - congruence.
Qed.

#[local] Instance pushes_only_preorder : PreOrder pushes_only.
Proof.
  split.
  - intros w. split; [repeat split | apply shop_kept_refl].
  - intros a b c [(H1 & H2 & H3 & H4) H5] [(H6 & H7 & H8 & H9) H10].
    split; [repeat split; congruence | now apply (shop_kept_trans a b c)].
Qed.

#[local] Instance mirrors_tolerant : Tolerant is_query mirrors.
Proof.
  assert (Hshop : forall w w', shop_calls w' = shop_calls w ->
                               shop_products w' = shop_products w -> shop_kept w w').
  { intros w w' H1 H2. split; [exists []; now rewrite app_nil_r | now rewrite H2]. }
  split.
  - split.
    + intros w. split; [reflexivity|]. split; [exists []; now rewrite app_nil_r|].
      apply shop_kept_refl.
    + intros a b c (H1 & (c1 & H2 & H3) & H4) (H5 & (c2 & H6 & H7) & H8).
      split; [congruence|]. split; [|now apply (shop_kept_trans a b c)].
      exists (c1 ++ c2)%list. rewrite H6, H2, app_assoc, forallb_app, H3, H7. auto.
  - intros w. unfold consume.
    destruct (erp_faults w); (split; [reflexivity|]; split;
      [exists []; simpl; now rewrite app_nil_r | now apply Hshop]).
  - intros w. split; [reflexivity|]. split; [exists []; simpl; now rewrite app_nil_r|].
    now apply Hshop.
  - intros w c Hc. split; [reflexivity|]. split; [|now apply Hshop].
    exists [c]. simpl. now rewrite Hc.
Qed.

Lemma pushes_only_mirrors (w w' : world) : pushes_only w w' -> mirrors w w'.
Proof.
  intros [(H1 & H2 & _) H3]. split; [exact H1|]. split; [|exact H3].
  exists []. now rewrite app_nil_r.
Qed.

Lemma keeps_weaken (R R' : world -> world -> Prop) {A} (m : M A) :
  (forall w w', R w w' -> R' w w') -> keeps R m -> keeps R' m.
Proof. intros H Hm w. apply H, Hm. Qed.

Section Pushes.
Context {RT : Runtime}.

Lemma pushes_connect : keeps pushes_only Storefront.connect.
Proof.
  intros w. unfold Storefront.connect.
  destruct (shop_faults w) as [|[|] fs]; cbn [snd];
    (split; [repeat split | split; [exists []; simpl; now rewrite app_nil_r | reflexivity]]).
Qed.

Lemma pushes_journal (q : shop_request) :
  not_post q = true ->
  keeps pushes_only (write_world (fun w => set_shop_calls w (shop_calls w ++ [q]))).
Proof.
  intros Hq w. split; [repeat split|]. split; [|reflexivity].
  exists [q]. simpl. now rewrite Hq.
Qed.

Lemma pushes_serve method endpoint body :
  keeps pushes_only (Storefront.serve method endpoint body).
Proof.
  intros w. unfold Storefront.serve. rewrite bind_eq. unfold read_world at 1. cbv iota beta.
  destruct (find (at_path endpoint) (shop_products w)) as [p|] eqn:Hfind;
    [|reflexivity].
  destruct method; try reflexivity.
  rewrite bind_eq. unfold write_world at 1. cbv iota beta. cbn [snd ret].
  split; [repeat split|]. split; [exists []; simpl; now rewrite app_nil_r|].
  cbn [shop_products set_shop_products]. rewrite map_map. apply map_ext_in.
  intros q Hq. destruct (at_path endpoint q) eqn:E; [|reflexivity].
  cbn [fst]. apply find_some in Hfind. destruct Hfind as [_ Hp].
  unfold at_path in *. apply String.eqb_eq in E, Hp.
  apply product_path_inj. congruence.
Qed.

Lemma pushes_make_request method endpoint data :
  method <> POST ->
  keeps pushes_only (WooCommerceClient.make_request method endpoint data).
Proof.
  intros Hm. unfold WooCommerceClient.make_request.
  repeat keeps_step; auto using pushes_connect, pushes_serve.
  apply pushes_journal. unfold not_post. cbn [req_method]. now destruct method.
Qed.

Lemma pushes_sync_product (p : pydict) :
  keeps pushes_only (SyncService.sync_product_to_woo p).
Proof.
  unfold SyncService.sync_product_to_woo, WooCommerceClient.get_product,
    WooCommerceClient.update_product.
  repeat keeps_step; apply pushes_make_request; discriminate.
Qed.

End Pushes.

(** X10.  The reverse sync of a product stays on the storefront and
    only reads and updates there: in every world, for every ERP
    product, [sync_product_to_woo] returns, leaves the ERP side as it
    was (store, journal of calls, session), sends no POST, and the
    storefront catalogue holds the same product ids afterwards: no
    storefront product is created or removed. *)
Theorem reverse_sync_only_updates_the_storefront {RT : Runtime} (p : pydict) (w : world) :
  exists ok w',
    SyncService.sync_product_to_woo p w = (Ok ok, w') /\
    erp_db w' = erp_db w /\ erp_calls w' = erp_calls w /\ uid w' = uid w /\
    (exists qs, shop_calls w' = shop_calls w ++ qs /\ forallb not_post qs = true)%list /\
    map fst (shop_products w') = map fst (shop_products w).
Proof.
  pose proof (pushes_sync_product p w) as Hk.
  assert (Hr : exists ok w', SyncService.sync_product_to_woo p w = (Ok ok, w')).
  { unfold SyncService.sync_product_to_woo. apply try_except_returns. }
  destruct Hr as (ok & w' & E). rewrite E in Hk. cbn [snd] in Hk.
  destruct Hk as [(H1 & H2 & H3 & _) [H4 H5]].
  exists ok, w'. repeat split; assumption.
Qed.

(** *** The reverse-sync job and the statistics *)

#[local] Instance steady_tolerant : Tolerant any_call steady.
Proof.
  split.
  - split; [intros w; repeat split|].
    intros a b c (H1 & H2 & H3) (H4 & H5 & H6). repeat split; congruence.
  - intros w. unfold consume. destruct (erp_faults w); repeat split.
  - intros w. repeat split.
  - intros w c _. repeat split.
Qed.

Section Jobs.
Context {RT : Runtime}.

Lemma mirrors_sync_odoo_to_woo (day_before : string -> string) :
  keeps mirrors (Jobs.sync_odoo_to_woo day_before).
Proof.
  unfold Jobs.sync_odoo_to_woo, Jobs.push_products.
  repeat keeps_step.
  - apply (tolerant_search_records is_query mirrors). auto.
  - apply (keeps_weaken pushes_only mirrors);
      [exact pushes_only_mirrors | apply pushes_sync_product].
Qed.

(** With the credentials rejected every search comes back empty. *)
Lemma search_records_rejected model domain fields limit (w : world) :
  erp_login w = None ->
  fst (OdooClient.search_records model domain fields limit w) = Ok [].
Proof.
  intros Hl. apply try_except_nil. intros ds w'.
  rewrite bind_eq.
  pose proof (tolerant_ensure_session any_call steady w) as (_ & Hl1 & _).
  destruct (OdooClient.ensure_session w) as [[[]|e] w1]; [|discriminate].
  cbn [snd] in Hl1. rewrite Hl in Hl1.
  rewrite bind_eq. unfold read_world at 1. cbv iota beta. rewrite bind_eq, execute_kw_eq.
  destruct (_ || _)%bool; [discriminate|].
  destruct (faulty _); [discriminate|].
  replace (Erp.granted (uid w1) _) with false; [discriminate|].
  unfold Erp.granted.
  replace (erp_login (consume (noted w1 (CallSearch model domain (OdooClient.limit_arg limit)))))
    with (@None Z).
  - now destruct (uid w1).
  - rewrite <- Hl1. unfold consume, noted, called. simpl.
    destruct (erp_faults w1); reflexivity.
Qed.

Lemma statistics_eq (day_before : string -> string) (exn_text : exn -> string) (w : world) :
  exists products orders w1 w2,
    OdooClient.search_records "product.product"
      [ ("create_date", OpGe, PStr (day_before (clock w)));
        ("x_woo_id", OpNe, PBool false) ] None None w = (Ok products, w1) /\
    OdooClient.search_records "sale.order"
      [ ("create_date", OpGe, PStr (day_before (clock w)));
        ("x_woo_order_id", OpNe, PBool false) ] None None w1 = (Ok orders, w2) /\
    steady w w1 /\ steady w1 w2 /\
    Jobs.get_sync_statistics day_before exn_text w =
    (Ok (statistics (List.length products) (List.length orders) (clock w)), w2).
Proof.
  set (d1 := [ ("create_date", OpGe, PStr (day_before (clock w)));
               ("x_woo_id", OpNe, PBool false) ]).
  set (d2 := [ ("create_date", OpGe, PStr (day_before (clock w)));
               ("x_woo_order_id", OpNe, PBool false) ]).
  pose proof (tolerant_search_records any_call steady (fun c _ => eq_refl)
                "product.product" d1 None None w) as H1.
  destruct (search_records_answers "product.product" d1 None None w)
    as (products & w1 & E1 & _).
  rewrite E1 in H1. cbn [snd] in H1.
  pose proof (tolerant_search_records any_call steady (fun c _ => eq_refl)
                "sale.order" d2 None None w1) as H2.
  destruct (search_records_answers "sale.order" d2 None None w1)
    as (orders & w2 & E2 & _).
  rewrite E2 in H2. cbn [snd] in H2.
  exists products, orders, w1, w2. repeat split; try assumption; try apply H1; try apply H2.
  unfold Jobs.get_sync_statistics. rewrite try_eq, bind_eq. unfold read_world at 1.
  cbv iota beta zeta. fold d1. rewrite bind_eq, E1. cbv iota beta.
  fold d2. rewrite bind_eq, E2. cbv iota beta.
  rewrite bind_eq. unfold read_world at 1. cbv iota beta. unfold ret, statistics.
  destruct H1 as (_ & _ & C1). destruct H2 as (_ & _ & C2). now rewrite C2, C1.
Qed.

End Jobs.

(** X11.  The reverse-sync job only queries the ERP: in every world
    [sync_odoo_to_woo] returns, the ERP's store is as before and the
    calls it adds are searches and reads (no [create], no [write]); on
    the storefront it sends no POST and leaves the set of products as
    it was. *)
Theorem reverse_sync_job_only_queries_the_erp {RT : Runtime}
        (day_before : string -> string) (w : world) :
  exists w',
    Jobs.sync_odoo_to_woo day_before w = (Ok tt, w') /\
    erp_db w' = erp_db w /\
    (exists cs, erp_calls w' = erp_calls w ++ cs /\ forallb is_query cs = true)%list /\
    (exists qs, shop_calls w' = shop_calls w ++ qs /\ forallb not_post qs = true)%list /\
    map fst (shop_products w') = map fst (shop_products w).
Proof.
  pose proof (mirrors_sync_odoo_to_woo day_before w) as Hk.
  assert (Hr : exists v w', Jobs.sync_odoo_to_woo day_before w = (Ok v, w')).
  { unfold Jobs.sync_odoo_to_woo. apply try_except_returns. }
  destruct Hr as ([] & w' & E). rewrite E in Hk. cbn [snd] in Hk.
  destruct Hk as (H1 & H2 & H3 & H4). exists w'. repeat split; assumption.
Qed.

(** X12.  The statistics never report an error: [search_records]
    swallows every failure, so in every world [get_sync_statistics]
    returns the dict with the two counts and the time, never the one
    with the 'error' key, and it leaves the store as it was.  When the
    ERP rejects the credentials both counts are 0: a failure reads as
    "nothing was synced". *)
Theorem statistics_never_report_an_error {RT : Runtime}
        (day_before : string -> string) (exn_text : exn -> string) (w : world) :
  exists products orders w',
    Jobs.get_sync_statistics day_before exn_text w =
      (Ok (statistics products orders (clock w)), w') /\
    erp_db w' = erp_db w /\
    (erp_login w = None -> products = 0%nat /\ orders = 0%nat).
Proof.
  destruct (statistics_eq day_before exn_text w)
    as (products & orders & w1 & w2 & E1 & E2 & (D1 & L1 & _) & (D2 & L2 & _) & E).
  exists (List.length products), (List.length orders), w2.
  split; [exact E|]. split; [congruence|].
  intros Hl.
  pose proof (search_records_rejected "product.product"
                [ ("create_date", OpGe, PStr (day_before (clock w)));
                  ("x_woo_id", OpNe, PBool false) ] None None w Hl) as R1.
  rewrite E1 in R1. injection R1 as ->.
  assert (Hl1 : erp_login w1 = None) by congruence.
  pose proof (search_records_rejected "sale.order"
                [ ("create_date", OpGe, PStr (day_before (clock w)));
                  ("x_woo_order_id", OpNe, PBool false) ] None None w1 Hl1) as R2.
  rewrite E2 in R2. injection R2 as ->.
  split; reflexivity.
Qed.

(** *** What the extraction of bookings guarantees *)

Section Extraction.
Context {RT : Runtime}.

Lemma parse_digits_nonneg (s : string) (acc : Z) (us : bool) (n : Z) :
  0 <= acc -> parse_digits acc us s = Some n -> 0 <= n.
Proof.
  revert acc us. induction s as [|c s IH]; intros acc us Hacc; cbn [parse_digits].
  - destruct us; [discriminate|]. intros H. injection H as <-. exact Hacc.
  - destruct (is_decimal c) eqn:Hc.
    + apply IH. unfold is_decimal, in_range in Hc. apply andb_prop in Hc.
      destruct Hc as [Hlo _]. apply N.leb_le in Hlo. unfold digit_value. lia.
    + destruct (Ascii.eqb c "_"); [|discriminate].
      destruct us; [discriminate|]. now apply IH.
Qed.

Lemma isdigit_not_space (c : ascii) : char_isdigit c = true -> negb (int_space c) = true.
Proof.
  destruct c as [[] [] [] [] [] [] [] []]; intros H; try discriminate H; reflexivity.
Qed.

Lemma int_of_string_isdigit (s : string) (n : Z) :
  isdigit s = true -> int_of_string s = Some n -> 0 <= n.
Proof.
  intros Hd. pose proof (isdigit_all s Hd) as Hall.
  unfold int_of_string. rewrite strip_by_none
    by (apply (all_chars_impl char_isdigit); [apply isdigit_not_space | exact Hall]).
  destruct s as [|c s]; [discriminate|].
  cbn [all_chars] in Hall. apply andb_prop in Hall. destruct Hall as [Hc _].
  assert (E : match String c s with
              | String "+" r => parse_unsigned r
              | String "-" r => option_map Z.opp (parse_unsigned r)
              | t => parse_unsigned t
              end = parse_unsigned (String c s)).
  { destruct c as [[] [] [] [] [] [] [] []]; try discriminate Hc; reflexivity. }
  rewrite E. unfold parse_unsigned. destruct (is_decimal c); [|discriminate].
  apply parse_digits_nonneg. lia.
Qed.

(** [int(value)] behind the [isdigit] guard is never negative. *)
Lemma int_isdigit_nonneg (v : pyval) (n : Z) :
  isdigit (str v) = true -> int v = Ok n -> 0 <= n.
Proof.
  destruct v as [|[|]|z|q|s]; cbn [str int]; try discriminate.
  - intros Hd H. injection H as <-.
    destruct (Z.le_gt_cases 0 z) as [Hz|Hz]; [exact Hz|].
    rewrite str_of_Z_neg in Hd by lia. discriminate.
  - intros Hd. now rewrite float_str_not_digits in Hd.
  - intros Hd. destruct (int_of_string s) as [z|] eqn:E; [|discriminate].
    intros H. injection H as <-. exact (int_of_string_isdigit s z Hd E).
Qed.

(** What one turn of the metadata loop keeps and sets. *)
Lemma scan_meta_step (b b' : booking) (m : meta_entry) :
  WooCommerceClient.scan_meta b m = Ok b' ->
  (order_id b' = order_id b /\ order_number b' = order_number b /\
   product_id b' = product_id b /\ product_name b' = product_name b /\
   quantity b' = quantity b /\ total b' = total b /\ customer b' = customer b) /\
  (persons_natural b -> persons_natural b') /\
  booking_date b' = (if date_key m then Some (entry_value m) else booking_date b) /\
  (booking_date b <> None -> booking_end b' = booking_end b).
Proof.
  unfold WooCommerceClient.scan_meta, date_key. fold (entry_key m) (entry_value m).
  destruct (_ || _)%bool.
  { intros H. injection H as <-. repeat split; auto. }
  destruct (_ || _)%bool.
  { destruct (isdigit (str (entry_value m))) eqn:Hd.
    - destruct (int (entry_value m)) as [n|e] eqn:Hi; [|discriminate].
      intros H. injection H as <-. repeat split; auto.
      intros _. unfold persons_natural. cbn. exact (int_isdigit_nonneg _ _ Hd Hi).
    - intros H. injection H as <-. repeat split; auto.
      intros _. unfold persons_natural. cbn. lia. }
  destruct (contains "duration" _).
  { intros H. injection H as <-. repeat split; auto. }
  destruct (booking_date b) as [d|] eqn:Hb.
  - rewrite andb_false_r. intros H. injection H as <-. rewrite Hb. repeat split; auto.
  - destruct (contains "to" _); cbn [andb]; intros H; injection H as <-; cbn;
      rewrite ?Hb; repeat split; auto; intros; congruence.
Qed.

Lemma scan_all_steps (metas : list meta_entry) (b b' : booking) :
  WooCommerceClient.scan_all b metas = Ok b' ->
  (order_id b' = order_id b /\ order_number b' = order_number b /\
   product_id b' = product_id b /\ product_name b' = product_name b /\
   quantity b' = quantity b /\ total b' = total b /\ customer b' = customer b) /\
  (persons_natural b -> persons_natural b') /\
  booking_date b' = last_date (booking_date b) metas /\
  (booking_date b <> None -> booking_end b' = booking_end b /\ booking_date b' <> None).
Proof.
  revert b. induction metas as [|m ms IH]; intros b; cbn [WooCommerceClient.scan_all].
  - intros H. injection H as <-. repeat split; auto.
  - destruct (WooCommerceClient.scan_meta b m) as [b1|e] eqn:E; [|discriminate].
    intros H. destruct (scan_meta_step _ _ _ E) as (S1 & P1 & D1 & E1).
    destruct (IH _ H) as (S2 & P2 & D2 & E2).
    split; [|split; [|split]].
    + destruct S1 as (?&?&?&?&?&?&?), S2 as (?&?&?&?&?&?&?). repeat split; congruence.
    + auto.
    + unfold last_date in *. cbn [fold_left]. now rewrite D2, D1.
    + intros Hb. assert (Hb1 : booking_date b1 <> None).
      { rewrite D1. destruct (date_key m); congruence. }
      destruct (E2 Hb1) as [E3 E4]. split; [|exact E4]. rewrite E3. now apply E1.
Qed.

Lemma extract_item_facts (o : order) (item : line_item) (b : booking) :
  WooCommerceClient.extract_item o item = Ok b ->
  of_line o item b /\
  booking_date b = Some (match last_date None (entries item) with
                         | Some v => v
                         | None => PStr (ord_date_created o)
                         end) /\
  (exists n, persons b = Some n /\ 0 <= n).
Proof.
  unfold WooCommerceClient.extract_item. fold (entries item).
  destruct (WooCommerceClient.scan_all _ _) as [b1|e] eqn:E; [|discriminate].
  destruct (scan_all_steps _ _ _ E) as ((S1&S2&S3&S4&S5&S6&S7) & P & D & _).
  cbn in S1, S2, S3, S4, S5, S6, S7, D.
  assert (P1 : persons_natural b1) by (apply P; exact I).
  unfold persons_natural in P1.
  assert (Hshape : forall b2,
            (match persons b2 with None => set_persons b2 1 | Some _ => b2 end) = b ->
            order_id b2 = order_id b1 -> order_number b2 = order_number b1 ->
            product_id b2 = product_id b1 -> product_name b2 = product_name b1 ->
            quantity b2 = quantity b1 -> total b2 = total b1 -> customer b2 = customer b1 ->
            persons b2 = persons b1 ->
            of_line o item b /\ booking_date b = booking_date b2 /\
            exists n, persons b = Some n /\ 0 <= n).
  { intros b2 <- H1 H2 H3 H4 H5 H6 H7 H8. rewrite <- H8 in P1.
    destruct (persons b2) as [n|] eqn:Hp.
    - split; [unfold of_line; rewrite H1, H2, H3, H4, H5, H6, H7, S7; cbn; auto 10|].
      split; [reflexivity | eauto].
    - split; [unfold of_line; cbn; rewrite H1, H2, H3, H4, H5, H6, H7, S7; cbn; auto 10|].
      split; [reflexivity|]. exists 1. cbn. split; [reflexivity | lia]. }
  intros H. injection H as H.
  destruct (booking_date b1) as [d|] eqn:Hbd.
  - destruct (Hshape b1 H) as (L & Hd & Hn); try reflexivity.
    split; [exact L|]. split; [|exact Hn]. rewrite Hd, Hbd, <- D. reflexivity.
  - destruct (Hshape _ H) as (L & Hd & Hn); try reflexivity.
    split; [exact L|]. split; [|exact Hn]. rewrite Hd, <- D. reflexivity.
Qed.

Lemma extract_items_facts (o : order) (l : list line_item) (bs : list booking) :
  WooCommerceClient.extract_items o l = Ok bs ->
  Forall2 (fun item b => WooCommerceClient.extract_item o item = Ok b) l bs.
Proof.
  revert bs. induction l as [|item l IH]; intros bs; cbn [WooCommerceClient.extract_items].
  - intros H. injection H as <-. constructor.
  - destruct (WooCommerceClient.extract_item o item) as [b|e] eqn:E; [|discriminate].
    destruct (WooCommerceClient.extract_items o l) as [bs'|e]; [|discriminate].
    intros H. injection H as <-. constructor; auto.
Qed.

End Extraction.

(** X13.  What [extract_booking_data] guarantees when it returns: one
    booking per line item, in order; each takes the order's id and
    number and the item's product, quantity and total; each has a
    booking date, which is the value of the last metadata entry under a
    date key ("booking_date" or "from" in the lowered key) or, without
    one, the order's creation date; and each has a person count, which
    is never negative. *)
Theorem extracted_bookings_are_complete {RT : Runtime} (o : order) (bookings : list booking) :
  WooCommerceClient.extract_booking_data o = Ok bookings ->
  Forall2 (fun item b =>
             of_line o item b /\
             booking_date b = Some (match last_date None (entries item) with
                                    | Some v => v
                                    | None => PStr (ord_date_created o)
                                    end) /\
             exists n, persons b = Some n /\ 0 <= n)
          (items o) bookings.
Proof.
  unfold WooCommerceClient.extract_booking_data. fold (items o). intros H.
  apply extract_items_facts in H.
  induction H as [|item b l bs Hb _ IH]; constructor; [|exact IH].
  now apply extract_item_facts.
Qed.

(** X14.  The end of a booking is only read before its start: once a
    date entry has been seen, no later entry sets [booking_end].  In
    particular, when the first metadata entry of a line item is a
    date entry, the booking has no [booking_end], whatever follows. *)
Theorem booking_end_is_ignored_after_the_date {RT : Runtime}
        (o : order) (item : line_item) (m : meta_entry) (rest : list meta_entry)
        (b : booking) :
  entries item = m :: rest ->
  date_key m = true ->
  WooCommerceClient.extract_item o item = Ok b ->
  booking_end b = None.
Proof.
  intros He Hk Hb.
  unfold WooCommerceClient.extract_item in Hb. fold (entries item) in Hb. rewrite He in Hb.
  cbn [WooCommerceClient.scan_all] in Hb.
  destruct (WooCommerceClient.scan_meta _ m) as [b1|e] eqn:E1; [|discriminate].
  destruct (scan_meta_step _ _ _ E1) as (_ & _ & D1 & _). rewrite Hk in D1.
  destruct (WooCommerceClient.scan_all b1 rest) as [b2|e] eqn:E2; [|discriminate].
  destruct (scan_all_steps _ _ _ E2) as (_ & _ & _ & Hend).
  destruct Hend as [Hend Hdate]; [congruence|].
  assert (H1 : booking_end b1 = None).
  { unfold WooCommerceClient.scan_meta in E1. unfold date_key in Hk.
    fold (entry_key m) in E1. rewrite Hk in E1. injection E1 as <-. reflexivity. }
  injection Hb as <-.
  destruct (booking_date b2); [|congruence].
  destruct (persons b2); cbn; congruence.
Qed.

(** *** Recent bookings and the scheduled sync *)

Section Recent.
Context {RT : Runtime}.
Variable storefront_orders : option string -> option string -> world -> option (list order).
Variable hours_before : Z -> string -> string.

Lemma has_booking_spec (l : list line_item) :
  Jobs.has_booking l = true <->
  Exists (fun item => Exists (fun m => booking_entry m = true) (entries item)) l.
Proof.
  induction l as [|item l IH]; cbn [Jobs.has_booking].
  - split; [discriminate | intros H; inversion H].
  - unfold Jobs.booking_meta. fold (entries item).
    change (fun meta : meta_entry =>
              contains "booking"
                (lower match meta_key meta with Some k => k | None => "" end))
      with booking_entry.
    destruct (filter booking_entry (entries item)) as [|m ms] eqn:E.
    + rewrite IH. split; [intros H; now right|].
      intros H. inversion H as [? ? Hm|]; subst; [|assumption].
      exfalso. apply Exists_exists in Hm. destruct Hm as (m & Hin & Hm).
      assert (Hf : In m (filter booking_entry (entries item))) by (apply filter_In; auto).
      rewrite E in Hf. destruct Hf.
    + split; [|reflexivity]. intros _. left. apply Exists_exists. exists m.
      apply filter_In. rewrite E. now left.
Qed.

Lemma pushes_get_orders status after :
  keeps pushes_only (Jobs.get_orders storefront_orders status after).
Proof.
  unfold Jobs.get_orders. repeat keeps_step; auto using pushes_connect.
  apply pushes_journal. reflexivity.
Qed.

Lemma get_orders_returns status after (w : world) :
  exists l w', Jobs.get_orders storefront_orders status after w = (Ok l, w') /\
               pushes_only w w'.
Proof.
  pose proof (pushes_get_orders status after w) as Hk.
  unfold Jobs.get_orders in *. rewrite bind_eq in *.
  match goal with |- context [try_except ?body ?h w] =>
    destruct (try_except_returns body None w) as (r & w1 & E)
  end.
  rewrite E in *. destruct r as [l|]; unfold ret in *; eauto.
Qed.

Lemma get_booking_orders_eq after (w : world) :
  exists l w',
    Jobs.get_orders storefront_orders (Some "completed") after w = (Ok l, w') /\
    pushes_only w w' /\
    Jobs.get_booking_orders storefront_orders after w =
    (Ok (filter (fun o => Jobs.has_booking (items o)) l), w').
Proof.
  destruct (get_orders_returns (Some "completed") after w) as (l & w' & E & Hk).
  exists l, w'. split; [exact E|]. split; [exact Hk|].
  unfold Jobs.get_booking_orders. rewrite bind_eq, E. reflexivity.
Qed.

Lemma all_bookings_length (orders : list order) (bookings : list booking) :
  Jobs.all_bookings orders = Ok bookings ->
  List.length bookings = list_sum (map (fun o => List.length (items o)) orders).
Proof.
  revert bookings. induction orders as [|o orders IH]; intros bookings; cbn [Jobs.all_bookings].
  - intros H. injection H as <-. reflexivity.
  - destruct (WooCommerceClient.extract_booking_data o) as [bs|e] eqn:E; [|discriminate].
    destruct (Jobs.all_bookings orders) as [others|e]; [|discriminate].
    intros H. injection H as <-. rewrite length_app. cbn [map].
    change (list_sum (?a :: ?l)) with (a + list_sum l)%nat.
    rewrite (IH others eq_refl).
    unfold WooCommerceClient.extract_booking_data in E. fold (items o) in E.
    apply extract_items_facts in E. now rewrite (Forall2_length E).
Qed.

Lemma all_bookings_raise (orders : list order) (o : order) (e : exn) :
  In o orders -> WooCommerceClient.extract_booking_data o = Raise e ->
  exists e', Jobs.all_bookings orders = Raise e'.
Proof.
  induction orders as [|o1 orders IH]; intros Hin He; [destruct Hin|].
  cbn [Jobs.all_bookings]. destruct Hin as [-> | Hin].
  - rewrite He. eauto.
  - destruct (WooCommerceClient.extract_booking_data o1); [|eauto].
    destruct (IH Hin He) as [e' ->]. eauto.
Qed.

Lemma get_recent_bookings_eq hours (w : world) :
  exists orders w',
    Jobs.get_booking_orders storefront_orders (Some (hours_before hours (clock w))) w
    = (Ok orders, w') /\
    pushes_only w w' /\
    Forall booking_order orders /\
    Jobs.get_recent_bookings storefront_orders hours_before hours w
    = (Jobs.all_bookings orders, w').
Proof.
  destruct (get_booking_orders_eq (Some (hours_before hours (clock w))) w)
    as (l & w' & _ & Hk & E).
  eexists _, w'. split; [exact E|]. split; [exact Hk|]. split.
  - apply Forall_forall. intros o Ho. apply filter_In in Ho. destruct Ho as [_ Ho].
    now apply has_booking_spec.
  - unfold Jobs.get_recent_bookings. rewrite bind_eq. unfold read_world at 1.
    cbv iota beta zeta. rewrite bind_eq, E. reflexivity.
Qed.

Lemma get_orders_down status after (w : world) (fs : list bool) :
  shop_faults w = true :: fs ->
  Jobs.get_orders storefront_orders status after w =
  (Ok [], set_shop_faults (set_shop_calls w (shop_calls w ++ [shop_list_orders])) fs).
Proof.
  intros Hf. unfold Jobs.get_orders. rewrite bind_eq, try_eq, bind_eq.
  unfold write_world at 1. cbv iota beta. rewrite bind_eq.
  unfold Storefront.connect at 1. cbn [shop_faults set_shop_calls]. rewrite Hf.
  reflexivity.
Qed.

End Recent.

(** X15.  [get_booking_orders] never raises and answers exactly the
    booking orders among the completed orders the storefront lists --
    those with at least one line item that has a metadata entry whose
    lowered key holds "booking" -- and it leaves the ERP side alone. *)
Theorem booking_orders_are_the_marked_ones {RT : Runtime}
        (storefront_orders : option string -> option string -> world -> option (list order))
        (after : option string) (w : world) :
  exists listed orders w',
    Jobs.get_orders storefront_orders (Some "completed") after w = (Ok listed, w') /\
    Jobs.get_booking_orders storefront_orders after w = (Ok orders, w') /\
    (forall o, In o orders <-> In o listed /\ booking_order o) /\
    erp_db w' = erp_db w /\ erp_calls w' = erp_calls w.
Proof.
  destruct (get_booking_orders_eq storefront_orders after w)
    as (l & w' & E1 & [(H1 & H2 & _) _] & E2).
  exists l, (filter (fun o => Jobs.has_booking (items o)) l), w'.
  split; [exact E1|]. split; [exact E2|]. split; [|split; assumption].
  intros o. rewrite filter_In. unfold booking_order. now rewrite has_booking_spec.
Qed.

(** X16.  [get_recent_bookings] turns every line item of every booking
    order into a booking, the items without booking metadata
    included: when it returns, the number of bookings is the number of
    line items of the booking orders it read. *)
Theorem recent_bookings_cover_every_line_item {RT : Runtime}
        (storefront_orders : option string -> option string -> world -> option (list order))
        (hours_before : Z -> string -> string)
        (hours : Z) (w w' : world) (bookings : list booking) :
  Jobs.get_recent_bookings storefront_orders hours_before hours w = (Ok bookings, w') ->
  exists orders,
    Jobs.get_booking_orders storefront_orders (Some (hours_before hours (clock w))) w
    = (Ok orders, w') /\
    Forall booking_order orders /\
    List.length bookings = list_sum (map (fun o => List.length (items o)) orders).
Proof.
  destruct (get_recent_bookings_eq storefront_orders hours_before hours w)
    as (orders & w1 & E1 & _ & Hall & E2).
  rewrite E2. intros H. injection H as H <-.
  exists orders. split; [exact E1|]. split; [exact Hall|].
  now apply all_bookings_length.
Qed.

(** X17.  One malformed order stops the whole scheduled sync: when the
    extraction raises for any of the booking orders of the last two
    hours, [scheduled_sync] swallows the exception and returns having
    synced nothing -- no booking of any order reaches the ERP, which is
    left without a single call. *)
Theorem one_bad_order_stops_the_scheduled_sync {RT : Runtime}
        (storefront_orders : option string -> option string -> world -> option (list order))
        (hours_before : Z -> string -> string)
        (w w1 : world) (orders : list order) (o : order) (e : exn) :
  Jobs.get_booking_orders storefront_orders (Some (hours_before 2 (clock w))) w
  = (Ok orders, w1) ->
  In o orders ->
  WooCommerceClient.extract_booking_data o = Raise e ->
  Jobs.scheduled_sync storefront_orders hours_before w = (Ok tt, w1) /\
  erp_db w1 = erp_db w /\ erp_calls w1 = erp_calls w.
Proof.
  intros E Hin He.
  destruct (get_recent_bookings_eq storefront_orders hours_before 2 w)
    as (orders' & w1' & E1 & [(H1 & H2 & _) _] & _ & E2).
  rewrite E in E1. injection E1 as <- <-.
  destruct (all_bookings_raise orders o e Hin He) as [e' He'].
  split; [|split; assumption].
  unfold Jobs.scheduled_sync. rewrite try_eq, bind_eq, E2, He'. reflexivity.
Qed.

(** X18.  A storefront that cannot be reached is silent: when the
    transport to the storefront fails, [get_orders] answers the empty
    list, and [scheduled_sync] returns after that one request without
    any call to the ERP -- an outage reads as "no recent bookings". *)
Theorem storefront_outage_is_silent {RT : Runtime}
        (storefront_orders : option string -> option string -> world -> option (list order))
        (hours_before : Z -> string -> string)
        (status after : option string) (w : world) (fs : list bool) :
  shop_faults w = true :: fs ->
  let w' := set_shop_faults (set_shop_calls w (shop_calls w ++ [shop_list_orders])) fs in
  Jobs.get_orders storefront_orders status after w = (Ok [], w') /\
  Jobs.get_recent_bookings storefront_orders hours_before 2 w = (Ok [], w') /\
  Jobs.scheduled_sync storefront_orders hours_before w = (Ok tt, w').
Proof.
  intros Hf. cbv zeta.
  assert (E : Jobs.get_recent_bookings storefront_orders hours_before 2 w
              = (Ok [], set_shop_faults
                          (set_shop_calls w (shop_calls w ++ [shop_list_orders])) fs)).
  { unfold Jobs.get_recent_bookings, Jobs.get_booking_orders.
    rewrite bind_eq. unfold read_world at 1. cbv iota beta zeta.
    rewrite bind_eq, bind_eq, (get_orders_down _ _ _ _ fs Hf). reflexivity. }
  split; [now apply get_orders_down|]. split; [exact E|].
  unfold Jobs.scheduled_sync. rewrite try_eq, bind_eq, E. reflexivity.
Qed.

(** *** The composite external id *)

Lemma split_at_underscore (s s' t t' : string) :
  all_chars is_decimal s = true -> all_chars is_decimal s' = true ->
  s ++ "_" ++ t = s' ++ "_" ++ t' -> s = s' /\ t = t'.
Proof.
  revert s'. induction s as [|c s IH]; intros [|c' s'] Hs Hs' H; cbn in H.
  - injection H as ->. auto.
  - injection H as <- _. discriminate Hs'.
  - injection H as -> _. discriminate Hs.
  - injection H as -> H. cbn [all_chars] in Hs, Hs'.
    apply andb_prop in Hs, Hs'. destruct Hs as [_ Hs], Hs' as [_ Hs'].
    destruct (IH s' Hs Hs' H) as [-> ->]. auto.
Qed.

(** X19.  The composite external id [{order_id}_{product_id}]
    identifies the pair: two bookings with natural order and product
    ids share it only if they have the same order id and the same
    product id, so the lookup of a booking's product can only find the
    product of that very (order, product) pair. *)
Theorem composite_id_identifies_the_booking {RT : Runtime} (b b' : booking) :
  0 <= order_id b -> 0 <= product_id b ->
  0 <= order_id b' -> 0 <= product_id b' ->
  composite_id b = composite_id b' ->
  order_id b = order_id b' /\ product_id b = product_id b' /\ product_key b = product_key b'.
Proof.
  intros H1 H2 H3 H4 E. unfold composite_id in E.
  destruct (str_of_Z_nonneg _ H1) as (D1 & _ & _).
  destruct (str_of_Z_nonneg _ H3) as (D3 & _ & _).
  destruct (split_at_underscore _ _ _ _ D1 D3 E) as [Ea Eb].
  apply str_of_Z_inj in Ea, Eb. unfold product_key. rewrite Ea, Eb. auto.
Qed.

(** *** An order that is processed again *)

#[local] Instance stays_preorder (u : Z) (P : list erp_record -> Prop) : PreOrder (stays u P).
Proof. split; [intros w H; exact H | intros a b c H1 H2 H; auto]. Qed.

Section Stays.
Context {RT : Runtime}.
Context (u : Z) (P : list erp_record -> Prop).
Hypothesis P_new : forall db model data, P db -> P (db ++ [new_record db model data]).

#[local] Instance stays_tolerant : Tolerant any_call (stays u P).
Proof.
  split.
  - apply stays_preorder.
  - intros w [Hon Hp]. destruct Hon as (Hf & Hl & Hu).
    unfold consume. rewrite Hf. repeat split; auto.
  - intros w [(Hf & Hl & Hu) Hp]. unfold login_value. rewrite Hl.
    repeat split; auto.
  - intros w c _ [(Hf & Hl & Hu) Hp]. repeat split; auto.
Qed.

Lemma stays_search_records model domain fields limit :
  keeps (stays u P) (OdooClient.search_records model domain fields limit).
Proof. apply (tolerant_search_records any_call (stays u P)). reflexivity. Qed.

Lemma stays_lookup_external model data :
  keeps (stays u P) (OdooClient.lookup_external model data).
Proof. apply (tolerant_lookup_external any_call (stays u P)). reflexivity. Qed.

Lemma stays_create_record model data :
  keeps (stays u P) (OdooClient.create_record model data).
Proof.
  unfold OdooClient.create_record. repeat keeps_step.
  - apply (tolerant_ensure_session any_call (stays u P)).
  - apply (tolerant_execute_kw any_call (stays u P)); [reflexivity|].
    intros w0 [Hon Hp]. split; [exact Hon|]. cbn. now apply P_new.
Qed.

Lemma stays_update_record model record_id data :
  (forall db, P db -> P (written db model [record_id] data)) ->
  keeps (stays u P) (OdooClient.update_record model record_id data).
Proof.
  intros Hw. unfold OdooClient.update_record. repeat keeps_step.
  - apply (tolerant_ensure_session any_call (stays u P)).
  - apply (tolerant_execute_kw any_call (stays u P)); [reflexivity|].
    unfold Erp.serve_write. repeat keeps_step.
    keeps_apply @keeps_write_world. intros w0 [Hon Hp]. split; [exact Hon|].
    cbn. now apply Hw.
Qed.

Lemma stays_add_order_line sale_order_id b :
  keeps (stays u P) (SyncService.add_order_line sale_order_id b).
Proof.
  unfold SyncService.add_order_line, OdooClient.get_record_by_external_id.
  repeat keeps_step; auto using stays_search_records, stays_create_record.
Qed.

End Stays.

Section Again2.
Context {RT : Runtime}.

Lemma stays_online_customer (u : Z) (customer_data : pydict) :
  keeps (stays u (fun _ => True)) (OdooClient.get_or_create_customer customer_data).
Proof.
  unfold OdooClient.get_or_create_customer, OdooClient.create_customer.
  repeat keeps_step;
    first [ apply stays_lookup_external
          | apply stays_search_records
          | apply stays_create_record; intros; exact I
          | apply stays_update_record; intros; exact I ].
Qed.

Lemma has_order_new (o : order) db model data :
  has_order o db -> has_order o (db ++ [new_record db model data]).
Proof. intros (r & Hin & Hm). exists r. split; [apply in_or_app; now left | exact Hm]. Qed.

Lemma new_order_matches (o : order) (partner_id : pyval) (db : list erp_record) :
  Erp.matches "sale.order" (by_order_id o)
    (new_record db "sale.order" (order_fields o partner_id)) = true.
Proof.
  unfold Erp.matches, by_order_id, new_record, order_fields.
  cbn [rec_model forallb Erp.clause_holds]. unfold Erp.field_value.
  cbn [String.eqb Ascii.eqb Bool.eqb rec_fields Erp.write_fields fold_left fst snd
       dict_set get_default dict_get andb].
  unfold get_default.
  cbn [String.eqb Ascii.eqb Bool.eqb dict_set dict_get Erp.stored Erp.text_field orb str].
  cbn [eqb]. now rewrite String.eqb_refl.
Qed.

Lemma created_order_is_stored (o : order) (bookings : list booking) (w w' : world)
      (u : Z) (v : pyval) :
  online w u ->
  SyncService.create_sale_order_in_odoo o bookings w = (Ok v, w') ->
  truthy v = true ->
  online w' u /\ has_order o (erp_db w').
Proof.
  intros Hon. unfold SyncService.create_sale_order_in_odoo.
  rewrite try_eq, bind_eq.
  match goal with |- context [OdooClient.get_or_create_customer ?cd w] =>
    pose proof (stays_online_customer u cd w) as H1;
    destruct (OdooClient.get_or_create_customer cd w) as [[partner_id|e] w1]
  end; [|unfold ret; intros H; injection H as <- _; discriminate].
  cbn [snd] in H1. destruct (H1 (conj Hon I)) as [Hon1 _].
  destruct (truthy partner_id); cbn [negb];
    [|unfold ret; intros H; injection H as <- _; discriminate].
  rewrite bind_eq. fold (order_fields o partner_id).
  change (("partner_id", partner_id) :: _) with (order_fields o partner_id).
  rewrite (create_record_online w1 u) by exact Hon1.
  destruct (Erp.sendable (order_fields o partner_id));
    [|cbn; unfold ret; intros H; injection H as <- _; discriminate].
  cbv iota beta.
  set (w2 := after w1 u _ _).
  assert (H2 : online w2 u /\ has_order o (erp_db w2)).
  { split; [now apply online_after|]. subst w2. rewrite after_db.
    eexists. split; [apply in_or_app; right; left; reflexivity|].
    apply new_order_matches. }
  destruct (truthy (PInt (Erp.fresh_id (erp_db w1)))); cbn [negb];
    [|unfold ret; intros H; injection H as <- _; discriminate].
  rewrite bind_eq.
  pose proof (keeps_for_each (stays u (has_order o)) bookings
                (fun b _ => SyncService.add_order_line (PInt (Erp.fresh_id (erp_db w1))) b) tt
                (fun b s => stays_add_order_line u (has_order o) (has_order_new o) _ b) w2)
    as H3.
  destruct (for_each bookings _ tt w2) as [[[]|e] w3];
    [|unfold ret; intros H; injection H as <- _; discriminate].
  cbn [snd] in H3. unfold ret. intros H. injection H as _ <-. intros _.
  exact (H3 H2).
Qed.

End Again2.

(** X20.  An order that was imported is found again.  Over a reachable
    ERP, whenever [create_sale_order_in_odoo] returns an order id, the
    ERP is still reachable and the store holds a sale order whose
    external order id is the text of the storefront order's id; so a
    second [process_woo_order] for that order (a webhook delivered
    twice) takes the update path: it succeeds with a search, a read
    and one write, and creates nothing. *)
Theorem imported_order_is_updated_next_time {RT : Runtime}
        (o : order) (bookings : list booking) (w w' : world) (u : Z) (v : pyval) :
  online w u ->
  SyncService.create_sale_order_in_odoo o bookings w = (Ok v, w') ->
  truthy v = true ->
  online w' u /\
  exists r0,
    first_match (erp_db w') "sale.order" (by_order_id o) = Some r0 /\
    SyncService.process_woo_order o w' =
    (Ok true,
     after w' u [CallSearch "sale.order" (by_order_id o) (Some 1);
                 CallRead "sale.order" [rec_id r0] None;
                 CallWrite "sale.order" [PInt (rec_id r0)] (update_fields w' o)]
       (written (erp_db w') "sale.order" [PInt (rec_id r0)] (update_fields w' o))).
Proof.
  intros Hon Hrun Hv.
  destruct (created_order_is_stored o bookings w w' u v Hon Hrun Hv) as [Hon' (r & Hin & Hm)].
  split; [exact Hon'|].
  destruct (first_match_some _ _ _ _ Hin Hm) as [r0 H0].
  exists r0. split; [exact H0|]. now apply process_existing.
Qed.

(** *** Products the storefront does not have *)

(** X21.  A product whose storefront id is readable but unknown to
    the storefront is not created there: when the storefront can be
    reached and has no product with that id, [sync_product_to_woo]
    returns [False] after the one GET; no PUT and no POST follow. *)
Theorem unknown_storefront_product_is_not_created {RT : Runtime}
        (p : pydict) (w : world) (n : Z) :
  truthy (get p "x_woo_id") = true ->
  get p "x_woo_id" <> PStr "False" ->
  int (get p "x_woo_id") = Ok n ->
  shop_faults w = [] ->
  find (at_path (product_path n)) (shop_products w) = None ->
  SyncService.sync_product_to_woo p w =
  (Ok false, set_shop_calls w (shop_calls w ++ [shop_get n])).
Proof.
  intros Ht Hne Hint Hf Hfind.
  unfold SyncService.sync_product_to_woo. rewrite try_eq, bind_eq, Ht.
  assert (Hnf : SyncService.not_false_text (get p "x_woo_id") = true).
  { unfold SyncService.not_false_text.
    destruct (get p "x_woo_id") as [| | | |s]; try reflexivity. simpl.
    destruct (String.eqb_spec s "False"); [congruence | reflexivity]. }
  rewrite Hnf. cbn [andb]. rewrite bind_eq, Hint. unfold lift at 1. cbv iota beta.
  rewrite bind_eq.
  unfold WooCommerceClient.get_product, WooCommerceClient.make_request.
  rewrite product_path_lstrip, try_eq, bind_eq. unfold write_world at 1. cbv iota beta.
  rewrite bind_eq. unfold Storefront.connect at 1. cbn [shop_faults set_shop_calls].
  rewrite Hf. cbv iota beta.
  unfold Storefront.serve at 1. rewrite bind_eq. unfold read_world at 1. cbv iota beta.
  cbn [shop_products set_shop_calls]. rewrite Hfind. reflexivity.
Qed.

(** *** An order with a line of quantity 0 *)

Section Masked.
Context {RT : Runtime}.

Lemma ids_nonzero_new db model data :
  ids_nonzero db -> ids_nonzero (db ++ [new_record db model data]).
Proof.
  intros H. apply Forall_app. split; [exact H|]. constructor; [|constructor].
  pose proof (fresh_id_positive db). unfold new_record. cbn [rec_id]. lia.
Qed.

Lemma stays_sync_booking (u : Z) (P : list erp_record -> Prop) (b : booking) :
  (forall db model data, P db -> P (db ++ [new_record db model data])%list) ->
  keeps (stays u P) (SyncService.sync_booking_to_odoo b).
Proof.
  intros HP. unfold SyncService.sync_booking_to_odoo, OdooClient.get_or_create_product,
    OdooClient.create_product.
  repeat keeps_step;
    first [ apply stays_lookup_external | apply stays_create_record; exact HP ].
Qed.

Lemma sync_bookings_online (u : Z) (bookings : list booking) (w : world) :
  online w u -> online (snd (SyncService.sync_bookings bookings w)) u.
Proof.
  intros Hon. unfold SyncService.sync_bookings.
  assert (H : keeps (stays u (fun _ => True))
                (for_each bookings
                   (fun b success_count =>
                      ok <- SyncService.sync_booking_to_odoo b ;;
                      if ok then ret (success_count + 1) else ret success_count) 0)).
  { repeat keeps_step. apply stays_sync_booking. intros; exact I. }
  now apply (H w).
Qed.

End Masked.

(** X22.  A failed import of the sale order is reported as success.
    Over a reachable ERP, for a new order one of whose bookings has
    quantity 0: when the sync of the bookings has counted at least one
    success and has left the product of that booking in the store,
    [create_sale_order_in_odoo] fails on the division and returns
    [None] -- and [process_woo_order] still returns [True]: its answer
    is the count of synced bookings, not the outcome of the order
    creation. *)
Theorem failed_order_import_is_reported_as_success {RT : Runtime}
        (o : order) (bookings : list booking) (b0 : booking)
        (w : world) (u : Z) (n : Z) (w2 : world) :
  online w u ->
  first_match (erp_db w) "sale.order" (by_order_id o) = None ->
  WooCommerceClient.extract_booking_data o = Ok bookings ->
  In b0 bookings -> quantity b0 = 0 ->
  SyncService.sync_bookings bookings
    (after w u [CallSearch "sale.order" (by_order_id o) (Some 1)] (erp_db w)) = (Ok n, w2) ->
  0 < n ->
  has_product (erp_db w2) b0 ->
  fst (SyncService.create_sale_order_in_odoo o bookings w2) = Ok PNone /\
  SyncService.process_woo_order o w =
  (Ok true, snd (SyncService.create_sale_order_in_odoo o bookings w2)).
Proof.
  intros Hon Hf Hex Hin Hq E Hn Hp.
  assert (Hon2 : online w2 u).
  { pose proof (sync_bookings_online u bookings
                  (after w u [CallSearch "sale.order" (by_order_id o) (Some 1)] (erp_db w))) as H.
    rewrite E in H. apply H. now apply online_after. }
  assert (Hnone : fst (SyncService.create_sale_order_in_odoo o bookings w2) = Ok PNone).
  { apply (create_sale_order_zero u b0); [split; [exact Hon2 | exact Hp] | exact Hq | exact Hin]. }
  split; [exact Hnone|].
  unfold SyncService.process_woo_order. rewrite try_eq, bind_eq. fold (by_order_id o).
  rewrite (search_one_online w u) by auto.
  destruct (first_match_none _ _ _ Hf) as [-> ->]. cbv iota beta.
  rewrite bind_eq, Hex. unfold lift at 1. cbv iota beta.
  destruct bookings as [|b bs]; [destruct Hin|].
  rewrite bind_eq, E. cbv iota beta.
  assert (Hpos : (0 <? n) = true) by (apply Z.ltb_lt; exact Hn).
  rewrite Hpos. rewrite bind_eq, bind_eq.
  destruct (SyncService.create_sale_order_in_odoo o (b :: bs) w2) as [[v|e] w3];
    [reflexivity | discriminate Hnone].
Qed.


(** *** The login *)

(** X23.  [authenticate] never raises and reports the login as it
    went: it returns [True] exactly when the transport works and the
    ERP grants a user id other than 0, and then the client holds that
    id; after a transport failure the client's [uid] is what it was,
    and after a rejection it is [False].  The store is not touched. *)
Theorem authenticate_reports_the_login {RT : Runtime} (w : world) :
  exists ok w',
    OdooClient.authenticate w = (Ok ok, w') /\
    (ok = true <-> faulty w = false /\ exists u, erp_login w = Some u /\ u <> 0) /\
    (ok = true -> exists u, erp_login w = Some u /\ uid w' = PInt u) /\
    (faulty w = true -> uid w' = uid w) /\
    (faulty w = false -> erp_login w = None -> uid w' = PBool false) /\
    erp_db w' = erp_db w.
Proof.
  rewrite authenticate_eq. unfold login_value.
  assert (Hdb : erp_db (consume w) = erp_db w).
  { unfold consume. destruct (erp_faults w); reflexivity. }
  assert (Hu : uid (consume w) = uid w).
  { unfold consume. destruct (erp_faults w); reflexivity. }
  destruct (faulty w).
  - exists false, (consume w). split; [reflexivity|].
    split; [split; [discriminate | intros [H _]; discriminate]|].
    split; [discriminate|]. split; [intros _; exact Hu|]. split; [discriminate | exact Hdb].
  - destruct (erp_login w) as [u|].
    + eexists _, _. split; [reflexivity|]. cbn [truthy uid set_uid erp_db].
      split; [|split; [|split; [|split]]]; try discriminate; try exact Hdb.
      * split.
        -- intros H. split; [reflexivity|]. exists u. split; [reflexivity|].
           intros ->. discriminate H.
        -- intros [_ (u' & E & Hne)]. injection E as <-.
           destruct (Z.eqb_spec u 0); [contradiction | reflexivity].
      * intros _. exists u. split; reflexivity.
    + eexists _, _. split; [reflexivity|]. cbn [truthy uid set_uid erp_db].
      split; [split; [discriminate | intros [_ (u' & E & _)]; discriminate]|].
      split; [discriminate|]. split; [discriminate|]. split; [reflexivity | exact Hdb].
Qed.

(** *** The further properties on concrete runs *)

Section Cases.
Import Demo.
#[local] Existing Instance sample_runtime.

(** X2 at a partner without a name. *)
Lemma partner_without_name_is_not_sent :
  Erp.no_none [("name", PNone); ("email", PStr "ann@example.org")] = false /\
  exists w',
    OdooClient.create_record "res.partner"
      [("name", PNone); ("email", PStr "ann@example.org")] (world_with [partner_5])
    = (Ok PNone, w') /\
    erp_db w' = [partner_5].
Proof.
  split; [reflexivity|].
  exact (proj1 (none_fields_are_never_sent "res.partner" (PInt 1)
                  [("name", PNone); ("email", PStr "ann@example.org")]
                  (world_with [partner_5]) eq_refl)).
Defined.

(** X3 at a customer payload without id. *)
Lemma customer_without_id_changes_nothing :
  (PNone = PNone \/ PStr "bob@example.org" = PNone) /\
  exists ok w',
    SyncService.process_woo_customer PNone (PStr "bob@example.org") "Bob" "Ray" "555-0101"
      (world_with [partner_5]) = (Ok ok, w') /\
    erp_db w' = [partner_5].
Proof.
  split; [now left|].
  exact (customer_without_id_or_email_is_not_stored PNone (PStr "bob@example.org")
           "Bob" "Ray" "555-0101" (world_with [partner_5]) (or_introl eq_refl)).
Defined.

(** X4 at a guest checkout of a person the ERP knows by email. *)
Lemma guest_is_found_by_email :
  truthy (get guest "woo_id") = false /\
  OdooClient.get_or_create_customer guest (world_with [partner_5]) =
  (Ok (PInt 1),
   after (world_with [partner_5]) 2
     [CallSearch "res.partner" (by_email guest) (Some 1);
      CallRead "res.partner" [1] None] [partner_5]).
Proof.
  split; [reflexivity|].
  exact (proj2 (guest_customer_is_matched_by_email_only guest (world_with [partner_5]) eq_refl)
           2 partner_5 (world_with_online _) eq_refl eq_refl).
Defined.

(** X5 at order 555 once refunded: the state stays 'draft'. *)
Lemma refunded_order_keeps_its_state :
  online (world_with [sale_order_555]) 2 /\
  state_for (ord_status order_555_refunded) = None /\
  (let run := SyncService.process_woo_order order_555_refunded (world_with [sale_order_555]) in
   fst run = Ok true /\
   map (fun r => Erp.field_value r "state") (erp_db (snd run)) = [PStr "draft"]).
Proof.
  split; [apply world_with_online|]. split; [reflexivity|].
  destruct (order_update_follows_status order_555_refunded (world_with [sale_order_555]) 2
              sale_order_555 (world_with_online _) (or_introl eq_refl) eq_refl)
    as (r0 & H0 & Hrun & _ & Hkeep).
  cbv zeta. rewrite Hrun. split; [reflexivity|].
  cbn [snd]. rewrite (Hkeep eq_refl "state") by discriminate. reflexivity.
Defined.

(** X6 at an order without line items. *)
Lemma empty_order_is_refused :
  online (world_with []) 2 /\ items order_empty = [] /\
  SyncService.process_woo_order order_empty (world_with []) =
  (Ok false,
   after (world_with []) 2 [CallSearch "sale.order" (by_order_id order_empty) (Some 1)] []).
Proof.
  split; [apply world_with_online|]. split; [reflexivity|].
  exact (order_without_items_is_refused order_empty (world_with []) 2
           (world_with_online _) eq_refl eq_refl).
Defined.

(** X7 at a booking dated "Tuesday". *)
Lemma tuesday_is_not_synced :
  unreadable_date booking_tuesday /\
  SyncService.sync_booking_to_odoo booking_tuesday (world_with []) = (Ok false, world_with []).
Proof.
  assert (H : unreadable_date booking_tuesday).
  { exists "Tuesday". repeat split. }
  split; [exact H|].
  exact (proj1 (unreadable_date_stops_the_booking booking_tuesday [] (world_with []) H)).
Defined.

(** X8 at a booking of quantity 0 whose product is not in the store. *)
Lemma line_without_product_is_skipped :
  online (world_with []) 2 /\
  (let run := for_each [booking_of 100 7 0 50]
                (fun b _ => SyncService.add_order_line (PInt 6) b) tt (world_with []) in
   fst run = Ok tt /\ erp_db (snd run) = [] /\
   erp_calls (snd run) = [product_search (booking_of 100 7 0 50)]).
Proof.
  split; [apply world_with_online|].
  exact (lines_are_skipped_without_product (PInt 6) [booking_of 100 7 0 50] (world_with []) 2
           (world_with_online _) (Forall_cons _ eq_refl (Forall_nil _))).
Defined.


(** X9 at booking (100, 7) over an empty store. *)
Lemma booking_100_7_synced_twice :
  online (world_with []) 2 /\
  exists w1 r0,
    SyncService.sync_booking_to_odoo (booking_of 100 7 1 50) (world_with []) = (Ok true, w1) /\
    erp_db w1 = [r0] /\
    first_match (erp_db w1) "product.product" (product_key (booking_of 100 7 1 50))
    = Some r0 /\
    SyncService.sync_booking_to_odoo (booking_of 100 7 1 50) w1
    = (Ok true,
       after w1 2 (product_found_calls (booking_of 100 7 1 50) (rec_id r0)) (erp_db w1)).
Proof.
  split; [apply world_with_online|].
  set (w1 := snd (SyncService.sync_booking_to_odoo (booking_of 100 7 1 50) (world_with []))).
  assert (E : SyncService.sync_booking_to_odoo (booking_of 100 7 1 50) (world_with [])
              = (Ok true, w1)) by (vm_compute; reflexivity).
  destruct (booking_sync_is_idempotent (booking_of 100 7 1 50) (world_with []) w1 2
              (world_with_online _) (Forall_nil _) E) as (r0 & Hdb & Hf & Hrun).
  exists w1, r0. split; [exact E|]. split; [|split; assumption].
  destruct Hdb as [H | H]; [vm_compute in H; discriminate H | exact H].
Defined.

(** X13 at a line item that gives the start and the end. *)
Lemma from_to_booking_is_complete :
  exists bookings,
    WooCommerceClient.extract_booking_data (order_of 70 "70" [item_from_to]) = Ok bookings /\
    Forall2 (fun item b =>
               of_line (order_of 70 "70" [item_from_to]) item b /\
               booking_date b =
                 Some (match last_date None (entries item) with
                       | Some v => v
                       | None => PStr (ord_date_created (order_of 70 "70" [item_from_to]))
                       end) /\
               exists n, persons b = Some n /\ 0 <= n)
            (items (order_of 70 "70" [item_from_to])) bookings.
Proof.
  set (bookings := match WooCommerceClient.extract_booking_data (order_of 70 "70" [item_from_to])
                   with Ok l => l | Raise _ => [] end).
  exists bookings. split; [reflexivity|].
  exact (extracted_bookings_are_complete (order_of 70 "70" [item_from_to]) bookings eq_refl).
Defined.

(** X14 at the same line item: the end that follows the start is lost. *)
Lemma end_after_start_is_lost :
  date_key (entry "From" "2024-06-01") = true /\
  exists b,
    WooCommerceClient.extract_item order_42 item_from_to = Ok b /\
    booking_date b = Some (PStr "2024-06-01") /\
    booking_end b = None.
Proof.
  split; [reflexivity|].
  set (b := match WooCommerceClient.extract_item order_42 item_from_to with
            | Ok b => b
            | Raise _ => booking_tuesday
            end).
  exists b. split; [reflexivity|]. split; [reflexivity|].
  exact (booking_end_is_ignored_after_the_date order_42 item_from_to
           (entry "From" "2024-06-01") [entry "To" "2024-06-02"] b eq_refl eq_refl eq_refl).
Defined.

(** X16 at a storefront that lists one booking order with one line. *)
Lemma one_recent_booking :
  exists bookings w' orders,
    Jobs.get_recent_bookings shop_answer_good two_hours_before 2 (world_with [])
    = (Ok bookings, w') /\
    Jobs.get_booking_orders shop_answer_good
      (Some (two_hours_before 2 (clock (world_with [])))) (world_with [])
    = (Ok orders, w') /\
    Forall booking_order orders /\
    List.length bookings = list_sum (map (fun o => List.length (items o)) orders).
Proof.
  set (run := Jobs.get_recent_bookings shop_answer_good two_hours_before 2 (world_with [])).
  set (bookings := match fst run with Ok l => l | Raise _ => [] end).
  assert (E : run = (Ok bookings, snd run)) by (vm_compute; reflexivity).
  destruct (recent_bookings_cover_every_line_item shop_answer_good two_hours_before 2
              (world_with []) (snd run) bookings E) as (orders & H).
  exists bookings, (snd run), orders. split; [exact E | exact H].
Defined.

(** X17 at a storefront that lists a well-formed order and one with a
    superscript person count: nothing is synced, not even the first. *)
Lemma bad_order_blocks_the_good_one :
  WooCommerceClient.extract_booking_data order_booked_badly = Raise ValueError /\
  (let run := Jobs.scheduled_sync shop_answer two_hours_before (world_with []) in
   fst run = Ok tt /\ erp_db (snd run) = [] /\ erp_calls (snd run) = []).
Proof.
  split; [vm_compute; reflexivity|].
  set (found := Jobs.get_booking_orders shop_answer
                  (Some (two_hours_before 2 (clock (world_with [])))) (world_with [])).
  set (orders := match fst found with Ok l => l | Raise _ => [] end).
  assert (E : found = (Ok orders, snd found)) by (vm_compute; reflexivity).
  assert (Hin : In order_booked_badly orders) by (vm_compute; right; left; reflexivity).
  assert (He : WooCommerceClient.extract_booking_data order_booked_badly = Raise ValueError)
    by (vm_compute; reflexivity).
  destruct (one_bad_order_stops_the_scheduled_sync shop_answer two_hours_before
              (world_with []) (snd found) orders order_booked_badly ValueError E Hin He)
    as (Hrun & Hdb & Hcalls).
  cbv zeta. rewrite Hrun. cbn [fst snd]. rewrite Hdb, Hcalls. repeat split.
Defined.

(** X18 at a storefront that cannot be reached. *)
Lemma outage_looks_like_no_bookings :
  shop_faults world_shop_down = [true] /\
  (let run := Jobs.scheduled_sync shop_answer two_hours_before world_shop_down in
   fst run = Ok tt /\ erp_calls (snd run) = [] /\ shop_calls (snd run) = [shop_list_orders]).
Proof.
  split; [reflexivity|].
  destruct (storefront_outage_is_silent shop_answer two_hours_before None None
              world_shop_down [] eq_refl) as (_ & _ & Hrun).
  cbv zeta. rewrite Hrun. repeat split.
Defined.

(** X19 at bookings (100, 7) of different quantities. *)
Lemma booking_100_7_has_one_key :
  composite_id (booking_of 100 7 1 50) = composite_id (booking_of 100 7 2 80) /\
  product_key (booking_of 100 7 1 50) = product_key (booking_of 100 7 2 80).
Proof.
  split; [reflexivity|].
  refine (proj2 (proj2 (composite_id_identifies_the_booking
                          (booking_of 100 7 1 50) (booking_of 100 7 2 80) _ _ _ _ eq_refl)));
    discriminate.
Defined.

(** X20 at order 100 of one booking whose product is in the store:
    the import returns the new order's id and a second delivery of the
    order updates that sale order. *)
Lemma order_100_delivered_twice :
  online (world_with [product_100_7]) 2 /\
  (let first := SyncService.create_sale_order_in_odoo
                  (order_of 100 "100" [item 7 1 50 None]) [booking_of 100 7 1 50]
                  (world_with [product_100_7]) in
   fst first = Ok (PInt 6) /\
   let second := SyncService.process_woo_order (order_of 100 "100" [item 7 1 50 None])
                   (snd first) in
   fst second = Ok true /\
   List.length (erp_db (snd second)) = List.length (erp_db (snd first))).
Proof.
  split; [apply world_with_online|].
  set (o := order_of 100 "100" [item 7 1 50 None]).
  set (run := SyncService.create_sale_order_in_odoo o [booking_of 100 7 1 50]
                (world_with [product_100_7])).
  assert (E : run = (Ok (PInt 6), snd run)) by (vm_compute; reflexivity).
  destruct (imported_order_is_updated_next_time o [booking_of 100 7 1 50]
              (world_with [product_100_7]) (snd run) 2 (PInt 6)
              (world_with_online _) E eq_refl) as (_ & r0 & _ & Hsecond).
  cbv zeta. split; [vm_compute; reflexivity|].
  rewrite Hsecond. cbn [fst snd]. split; [reflexivity|].
  rewrite after_db. unfold written. now rewrite length_map.
Defined.

(** X21 at an ERP product mapped to storefront id 5, which the
    storefront does not have. *)
Lemma product_5_is_not_created :
  int (get product_5 "x_woo_id") = Ok 5 /\
  find (at_path (product_path 5)) (shop_products (world_with [])) = None /\
  SyncService.sync_product_to_woo product_5 (world_with []) =
  (Ok false, set_shop_calls (world_with []) [shop_get 5]).
Proof.
  split; [reflexivity|]. split; [reflexivity|].
  refine (unknown_storefront_product_is_not_created product_5 (world_with []) 5
            eq_refl _ eq_refl eq_refl eq_refl).
  discriminate.
Defined.

(** X22 at an order whose single line has quantity 0: the answer is
    [True], and the store holds the sale order without any line. *)
Lemma zero_quantity_order_is_reported_processed :
  online (world_with []) 2 /\
  (let run := SyncService.process_woo_order order_zero (world_with []) in
   fst run = Ok true /\
   map rec_model (erp_db (snd run)) = ["product.product"; "res.partner"; "sale.order"]).
Proof.
  split; [apply world_with_online|].
  set (bookings := match WooCommerceClient.extract_booking_data order_zero with
                   | Ok l => l
                   | Raise _ => []
                   end).
  set (b0 := hd booking_tuesday bookings).
  set (w2 := snd (SyncService.sync_bookings bookings
                    (after (world_with []) 2
                       [CallSearch "sale.order" (by_order_id order_zero) (Some 1)]
                       (erp_db (world_with []))))).
  assert (Hex : WooCommerceClient.extract_booking_data order_zero = Ok bookings)
    by (vm_compute; reflexivity).
  assert (Hin : In b0 bookings) by (left; reflexivity).
  assert (Hsync : SyncService.sync_bookings bookings
                    (after (world_with []) 2
                       [CallSearch "sale.order" (by_order_id order_zero) (Some 1)]
                       (erp_db (world_with []))) = (Ok 1, w2))
    by (vm_compute; reflexivity).
  assert (Hp : has_product (erp_db w2) b0).
  { exists (hd product_100_7 (erp_db w2)). split; [left|]; vm_compute; reflexivity. }
  destruct (failed_order_import_is_reported_as_success order_zero bookings b0
              (world_with []) 2 1 w2 (world_with_online _) eq_refl Hex
              Hin eq_refl Hsync eq_refl Hp) as [_ Hrun].
  cbv zeta. rewrite Hrun. split; [reflexivity|].
  vm_compute. reflexivity.
Defined.

End Cases.
